(** * package_extension.py: the Firefox extension packager

    A shallow embedding of [package_extension.py] and the properties its
    specification states about it.

    - Python [str] values are Rocq [string]s, sequences of bytes: a
      character outside ASCII, such as the check mark of the progress lines,
      is its UTF-8 encoding.
    - The module-level names of the script ([SOURCE_DIR],
      [EXCLUDE_PATTERNS], ...) are looked up in a record of module globals,
      the way Python looks them up in the module namespace at call time.
    - Paths are POSIX paths ([os.path] is [posixpath]).
    - A computation reads an environment (the working directory, the source
      tree, the clock, and the failures the operating system injects),
      threads a state (the output directory, the lines printed, the open
      file handles) and may raise an exception.  The script only reads the
      source tree and only writes under the output directory; the two are
      distinct entries of the working directory, and the files of the output
      directory are told apart by the path the script opens them under.
      Nothing but the script changes the working directory during a run.
    - A failure is injected at a call, not at a file: looking an entry up
      by name, listing a directory and reading a file can each fail or go
      through on their own, as permissions and devices have it.
    - The JSON parser and the size of a ZIP file are taken as given, in a
      record of library functions. *)

From Stdlib Require Import Ascii ZArith Lia.
From stdpp Require Import base option strings list gmap pretty.

Local Open Scope char_scope.
Local Open Scope stdpp_scope.

(** * The program *)

(** ** Python string operations used by the script *)

Module Str.

(** [s.startswith(p)] *)
Fixpoint startswith (s p : string) {struct p} : bool :=
  match p, s with
  | EmptyString, _ => true
  | String _ _, EmptyString => false
  | String a p', String b s' => bool_decide (a = b) && startswith s' p'
  end.

(** [p in s]: [p] occurs in [s] as a contiguous run of characters. *)
Fixpoint contains (s p : string) : bool :=
  startswith s p ||
  match s with
  | EmptyString => false
  | String _ s' => contains s' p
  end.

(** [s.endswith(p)] *)
Fixpoint endswith (s p : string) : bool :=
  bool_decide (s = p) ||
  match s with
  | EmptyString => false
  | String _ s' => endswith s' p
  end.

(** [s.replace(c, '')] for a one-character [c]: every occurrence of [c] is
    dropped. *)
Fixpoint remove_char (c : ascii) (s : string) : string :=
  match s with
  | EmptyString => EmptyString
  | String a s' =>
      if bool_decide (a = c) then remove_char c s'
      else String a (remove_char c s')
  end.

(** [c * n] for a one-character [c] *)
Fixpoint repeat_char (c : ascii) (n : nat) : string :=
  match n with
  | O => EmptyString
  | S n' => String c (repeat_char c n')
  end.

(** [s.split(sep)] for a one-character [sep]; [cur] holds the characters
    of the current field in reverse. *)
Fixpoint split_go (sep : ascii) (cur : string) (s : string) : list string :=
  match s with
  | EmptyString => [String.rev cur]
  | String a s' =>
      if bool_decide (a = sep) then String.rev cur :: split_go sep "" s'
      else split_go sep (String a cur) s'
  end.
Definition split (sep : ascii) (s : string) : list string :=
  split_go sep "" s.

(** [s[:n]] *)
Fixpoint take (n : nat) (s : string) : string :=
  match n, s with
  | S n', String a s' => String a (take n' s')
  | _, _ => EmptyString
  end.

(** What the operations above decide, stated without them. *)
Definition occurs_in (p s : string) : Prop :=
  ∃ pre suf, s = pre +:+ p +:+ suf.
Definition is_suffix_of (p s : string) : Prop :=
  ∃ pre, s = pre +:+ p.
Definition is_prefix_of (p s : string) : Prop :=
  ∃ suf, s = p +:+ suf.

End Str.

(** ** Module globals *)

Record globals := Globals {
  SOURCE_DIR : string;
  OUTPUT_DIR : string;
  EXTENSION_NAME : string;
  INCLUDE_PATTERNS : list string;
  EXCLUDE_PATTERNS : list string;
}.

(** The values the script binds at import time (lines 11-35). *)
Definition module_globals : globals := {|
  SOURCE_DIR := "bookmark-folder-organizer";
  OUTPUT_DIR := "dist";
  EXTENSION_NAME := "bookmark-folder-organizer";
  INCLUDE_PATTERNS :=
    [ "manifest.json"; "popup.html"; "popup.css"; "popup.js"; "README.md";
      "services/*.js"; "icons/*.png" ];
  EXCLUDE_PATTERNS :=
    [ "*.test.js"; "*.test.md"; ".gitkeep"; "node_modules"; ".git";
      ".DS_Store"; "Thumbs.db" ];
|}.

(** ** [should_include] (lines 37-43) *)

(** The test of line 41 for one pattern. *)
Definition pattern_matches (file_path pattern : string) : bool :=
  Str.contains file_path pattern
  || Str.endswith file_path (Str.remove_char "*" pattern).

(** The [for] loop of lines 40-42: the first pattern that matches returns
    [False]; falling off the end of the list returns [True]. *)
Fixpoint should_include_loop (patterns : list string) (file_path : string) : bool :=
  match patterns with
  | [] => true
  | pattern :: rest =>
      if pattern_matches file_path pattern then false
      else should_include_loop rest file_path
  end.

Definition should_include (g : globals) (file_path : string) : bool :=
  should_include_loop (EXCLUDE_PATTERNS g) file_path.

(** ** [os.path] on POSIX path strings *)

Module Path.

(** [os.path.join(a, b)] *)
Definition join (a b : string) : string :=
  if Str.startswith b "/" then b
  else if bool_decide (a = "") || Str.endswith a "/" then a +:+ b
  else a +:+ "/" +:+ b.

(** The loop of [os.path.normpath] over the fields of the path:
    [new_comps] is kept in reverse, [absolute] says that the path starts
    with a slash. *)
Fixpoint norm_go (absolute : bool) (new_comps : list string)
    (comps : list string) : list string :=
  match comps with
  | [] => rev new_comps
  | comp :: rest =>
      if bool_decide (comp = "") || bool_decide (comp = ".") then
        norm_go absolute new_comps rest
      else if negb (bool_decide (comp = ".."))
              || (negb absolute && bool_decide (new_comps = []))
              || bool_decide (head new_comps = Some "..") then
        norm_go absolute (comp :: new_comps) rest
      else norm_go absolute (tail new_comps) rest
  end.

(** [[x for x in os.path.abspath(path).split(sep) if x]]: the fields of
    the normalised absolute path.  [abspath] joins the working directory
    and [path] and normalises the result; the fields [normpath] keeps are
    non-empty and joined by single slashes, so splitting its result again
    gives them back.  A path without a leading slash that normalises to
    nothing comes back from [normpath] as a single dot. *)
Definition abspath_parts (cwd path : string) : list string :=
  let joined := join cwd path in
  let absolute := Str.startswith joined "/" in
  let comps := norm_go absolute [] (Str.split "/" joined) in
  if negb absolute && bool_decide (comps = []) then ["."] else comps.

(** [len(os.path.commonprefix([l1, l2]))] on two lists of fields *)
Fixpoint common_prefix_len (l1 l2 : list string) : nat :=
  match l1, l2 with
  | x :: l1', y :: l2' =>
      if bool_decide (x = y) then S (common_prefix_len l1' l2') else 0
  | _, _ => 0
  end.

(** [os.path.join] applied to a non-empty list of fields *)
Fixpoint join_all (first : string) (others : list string) : string :=
  match others with
  | [] => first
  | p :: others' => join_all (join first p) others'
  end.

(** [os.path.relpath(path, start)]; [None] stands for the [ValueError]
    raised on an empty [path]. *)
Definition relpath (cwd path start : string) : option string :=
  if bool_decide (path = "") then None
  else
    let start_list := abspath_parts cwd start in
    let path_list := abspath_parts cwd path in
    let i := common_prefix_len start_list path_list in
    let rel_list := replicate (length start_list - i) ".." ++ drop i path_list in
    match rel_list with
    | [] => Some "."
    | first :: others => Some (join_all first others)
    end.

End Path.

(** ** The world the script runs in *)

(** An exception object: its class and the text [str(e)] gives.  Every
    exception of the model is a subclass of [Exception]. *)
Record exn := Exn { exn_class : string; exn_str : string }.

Inductive result (A : Type) : Type :=
  | Ok (a : A)
  | Raise (e : exn).
Arguments Ok {A} a.
Arguments Raise {A} e.

(** A value read from the manifest: a [str], or an object of another type
    (number, [None], list, ...) kept as its type name and the text [str()]
    gives for it, which is all the script observes of it. *)
Inductive pyvalue :=
  | PyStr (s : string)
  | PyObj (type_name text : string).

(** What [json.load] returns: a [dict], or an object of another type. *)
Inductive document :=
  | PyDict (d : gmap string pyvalue)
  | PyNotDict (type_name : string).

(** The source tree: a regular file with its bytes, or a directory with its
    entries in the order [os.scandir] lists them. *)
#[warnings="-register-all"]
Inductive node :=
  | File (content : string)
  | Dir (entries : list (string * node)).

(** A ZIP file on disk: the members written so far, [(arcname, bytes)] in
    the order they were added, and whether the end record (central
    directory) has been written. *)
Record archive := Archive {
  members : list (string * string);
  finalized : bool;
}.

(** What the name [OUTPUT_DIR] denotes once it exists: something that is not
    a directory, or a directory of archive files.  Files are keyed by the
    path the script opens them under. *)
Inductive outdir :=
  | NotADirectory
  | Directory (files : gmap string archive).

Record datetime := DateTime {
  year : nat; month : nat; day : nat;
  hour : nat; minute : nat; second : nat;
}.

(** The calls that may fail for a reason the model does not track (disk
    full, permission denied, I/O error).  [zipf.write] has two points of
    failure: [OpZipWrite], before anything of the file is recorded in the
    archive (the file cannot be opened, or its header cannot be written),
    and [OpZipCopy], while the bytes of the file are copied into the
    archive, after [copied] of them. *)
Inductive io_op :=
  | OpMakedirs (path : string)
  | OpOpenRead (path : string)
  | OpScandir (path : string)
  | OpZipOpen (path : string)
  | OpZipWrite (zip_path file_path : string)
  | OpZipCopy (zip_path file_path : string) (copied : nat)
  | OpZipClose (path : string)
  | OpGetsize (path : string).

(** What the script reads and never changes: the working directory, what
    the name [SOURCE_DIR] denotes in it, the clock, and the failures the
    environment injects. *)
Record env := Env {
  e_cwd : string;
  e_source : option node;
  e_now : datetime;
  e_fault : io_op → option exn;
}.

(** What the script changes: what the name [OUTPUT_DIR] denotes in the
    working directory (an entry distinct from the source directory), the
    lines printed, and the paths of the file handles that are open. *)
Record state := State {
  s_dist : option outdir;
  s_stdout : list string;
  s_open : list string;
}.

(** The library functions the script calls whose results the model takes as
    given: the JSON parser, on the bytes of a file, and the size in bytes of
    the ZIP file holding given members. *)
Record library := Library {
  json_loads : string → result document;
  zip_size : list (string * string) → nat;
}.

Definition set_dist (d : option outdir) (s : state) : state :=
  {| s_dist := d; s_stdout := s_stdout s; s_open := s_open s |}.
Definition set_stdout (o : list string) (s : state) : state :=
  {| s_dist := s_dist s; s_stdout := o; s_open := s_open s |}.
Definition set_open (h : list string) (s : state) : state :=
  {| s_dist := s_dist s; s_stdout := s_stdout s; s_open := h |}.

(** The archive files of the output directory. *)
Definition dist_files (s : state) : gmap string archive :=
  match s_dist s with
  | Some (Directory files) => files
  | _ => ∅
  end.

(** ** Computations: an environment, a state, and exceptions *)

Definition M (A : Type) : Type := env → state → result A * state.

Global Instance M_ret : MRet M := λ A a _ s, (Ok a, s).
Global Instance M_bind : MBind M := λ A B f m e s,
  match m e s with
  | (Ok a, s') => f a e s'
  | (Raise x, s') => (Raise x, s')
  end.

Definition raise {A} (x : exn) : M A := λ _ s, (Raise x, s).
Definition ask : M env := λ e s, (Ok e, s).
Definition get : M state := λ _ s, (Ok s, s).
Definition modify (f : state → state) : M unit := λ _ s, (Ok tt, f s).

(** [try: body except Exception as x: handler(x)] *)
Definition try_except {A} (body : M A) (handler : exn → M A) : M A := λ e s,
  match body e s with
  | (Ok a, s') => (Ok a, s')
  | (Raise x, s') => handler x e s'
  end.

(** [with enter as r: body(r)]: [leave] runs on every way out of the body;
    an exception it raises replaces the one in flight. *)
Definition with_ {R A} (enter : M R) (leave : R → M unit) (body : R → M A)
    : M A :=
  r ← enter;
  λ e s, match body r e s with
         | (Ok a, s') =>
             match leave r e s' with
             | (Ok _, s'') => (Ok a, s'')
             | (Raise x, s'') => (Raise x, s'')
             end
         | (Raise x, s') =>
             match leave r e s' with
             | (Ok _, s'') => (Raise x, s'')
             | (Raise x', s'') => (Raise x', s'')
             end
         end.

(** The failure the environment injects at an operation, if any. *)
Definition check_fault (op : io_op) : M unit := λ e s,
  match e_fault e op with
  | Some x => (Raise x, s)
  | None => (Ok tt, s)
  end.

(** [print(line)]: one element of [s_stdout] per call. *)
Definition print (line : string) : M unit :=
  modify (λ s, set_stdout (s_stdout s ++ [line]) s).

Definition nl : string := String "010" "".

(** ** The operating-system and library calls of the script *)

Section Calls.

Context (L : library) (g : globals).

(** Path lookup from the working directory, for reading.  [ancestors] are
    the directories above [cur], innermost first; the parent of the
    working directory is not modelled and [..] stays there. *)
Fixpoint resolve (ancestors : list node) (cur : node) (comps : list string)
    : option node :=
  match comps with
  | [] => Some cur
  | comp :: rest =>
      match cur with
      | File _ => None
      | Dir entries =>
          if bool_decide (comp = "") || bool_decide (comp = ".") then
            resolve ancestors cur rest
          else if bool_decide (comp = "..") then
            match ancestors with
            | [] => resolve [] cur rest
            | parent :: above => resolve above parent rest
            end
          else
            match list_find (λ entry, entry.1 = comp) entries with
            | Some (_, (_, child)) => resolve (cur :: ancestors) child rest
            | None => None
            end
      end
  end.

(** The entries of the working directory the script reads from. *)
Definition working_directory (e : env) : node :=
  Dir (match e_source e with
       | Some n => [(SOURCE_DIR g, n)]
       | None => []
       end).

Definition lookup_path (e : env) (path : string) : option node :=
  resolve [] (working_directory e) (Str.split "/" path).

(** [os.path.exists(path)] *)
Definition os_path_exists (path : string) : M bool :=
  e ← ask;
  mret (bool_decide (is_Some (lookup_path e path))).

(** [os.makedirs(OUTPUT_DIR, exist_ok=True)] *)
Definition os_makedirs (path : string) : M unit :=
  check_fault (OpMakedirs path);;
  s ← get;
  match s_dist s with
  | None => modify (set_dist (Some (Directory ∅)))
  | Some NotADirectory =>
      raise (Exn "FileExistsError"
               ("[Errno 17] File exists: '" +:+ path +:+ "'"))
  | Some (Directory _) => mret tt
  end.

(** [open(path, 'r', encoding='utf-8')]: the handle is modelled by the
    bytes of the file. *)
Definition open_read (path : string) : M string :=
  check_fault (OpOpenRead path);;
  e ← ask;
  match lookup_path e path with
  | None =>
      raise (Exn "FileNotFoundError"
               ("[Errno 2] No such file or directory: '" +:+ path +:+ "'"))
  | Some (Dir _) =>
      raise (Exn "IsADirectoryError"
               ("[Errno 21] Is a directory: '" +:+ path +:+ "'"))
  | Some (File content) =>
      modify (λ s, set_open (path :: s_open s) s);;
      mret content
  end.

(** Closing a handle: the first handle on [path] leaves the open set. *)
Fixpoint remove_first (path : string) (handles : list string) : list string :=
  match handles with
  | [] => []
  | h :: rest =>
      if bool_decide (h = path) then rest else h :: remove_first path rest
  end.
Definition release (path : string) : M unit :=
  modify (λ s, set_open (remove_first path (s_open s)) s).

(** [json.load(f)] *)
Definition json_load (f : string) : M document := λ _ s,
  (json_loads L f, s).

(** [manifest.get(key, default)] *)
Definition dict_get (manifest : document) (key : string) (default : pyvalue)
    : M pyvalue :=
  match manifest with
  | PyDict d => mret (from_option id default (d !! key))
  | PyNotDict type_name =>
      raise (Exn "AttributeError"
               ("'" +:+ type_name +:+ "' object has no attribute 'get'"))
  end.

(** The text an f-string puts in place of [{v}]. *)
Definition py_format (v : pyvalue) : string :=
  match v with
  | PyStr s => s
  | PyObj _ text => text
  end.

(** A number in decimal, padded with zeros on the left to [width] digits *)
Definition zero_pad (width n : nat) : string :=
  let digits := pretty n in
  Str.repeat_char "0" (width - String.length digits) +:+ digits.

(** [datetime.now()] and [.strftime("%Y%m%d_%H%M%S")]; the C library
    prints the year of [%Y] as it is, without padding. *)
Definition datetime_now : M datetime := e ← ask; mret (e_now e).
Definition strftime (t : datetime) : string :=
  pretty (year t) +:+ zero_pad 2 (month t) +:+ zero_pad 2 (day t)
  +:+ "_" +:+ zero_pad 2 (hour t) +:+ zero_pad 2 (minute t)
  +:+ zero_pad 2 (second t).

(** [zipfile.ZipFile(path, 'w', zipfile.ZIP_DEFLATED)]: the file is created
    empty, or truncated if it is there. *)
Definition zipfile_open (path : string) : M string :=
  check_fault (OpZipOpen path);;
  s ← get;
  match s_dist s with
  | None =>
      raise (Exn "FileNotFoundError"
               ("[Errno 2] No such file or directory: '" +:+ path +:+ "'"))
  | Some NotADirectory =>
      raise (Exn "NotADirectoryError"
               ("[Errno 20] Not a directory: '" +:+ path +:+ "'"))
  | Some (Directory files) =>
      modify (set_dist (Some (Directory (<[path := Archive [] false]> files))));;
      modify (λ s, set_open (path :: s_open s) s);;
      mret path
  end.

(** Changing the archive stored under [zipf], if there is one. *)
Definition update_archive (zipf : string) (f : archive → archive)
    (s : state) : state :=
  match s_dist s with
  | Some (Directory files) =>
      match files !! zipf with
      | Some a => set_dist (Some (Directory (<[zipf := f a]> files))) s
      | None => s
      end
  | _ => s
  end.

Definition add_member (member : string * string) (a : archive) : archive :=
  Archive (members a ++ [member]) (finalized a).
Definition finalize (a : archive) : archive :=
  Archive (members a) true.

(** What [zipf.write(file_path, arcname)] stores: the bytes of a regular
    file under [arcname], and an empty member with a trailing slash for a
    directory.  The name is kept as given: the normalisation [zipfile]
    applies to it leaves a relative path of plain fields, which is what
    [relpath] gives for a file under the source directory, as it is. *)
Definition member_of (arcname : string) (n : node) : string * string :=
  match n with
  | File content => (arcname, content)
  | Dir _ => (arcname +:+ "/", "")
  end.

(** The first failure the environment injects into a copy of [count]
    steps, looked for from [copied] bytes on. *)
Fixpoint first_copy_fault (fault : nat → option exn) (copied count : nat)
    : option (nat * exn) :=
  match count with
  | O => None
  | S count' =>
      match fault copied with
      | Some x => Some (copied, x)
      | None => first_copy_fault fault (S copied) count'
      end
  end.

(** How the copy of [n] into the archive fails, if it does: the bytes
    copied before the failure, and the exception.  A directory has no bytes
    to copy. *)
Definition copy_failure (e : env) (zipf file_path : string) (n : node)
    : option (string * exn) :=
  match n with
  | Dir _ => None
  | File content =>
      (λ failure, (Str.take failure.1 content, failure.2))
      <$> first_copy_fault (λ copied, e_fault e (OpZipCopy zipf file_path copied))
            0 (S (String.length content))
  end.

(** [zipf.write(file_path, arcname)].  A failure before the copy leaves
    the archive without the member.  A failure during the copy leaves it
    with a member of the bytes copied so far: [write] copies inside
    [with self.open(zinfo, 'w') as dest], and closing [dest] records the
    member as far as it has been written. *)
Definition zipfile_write (zipf file_path arcname : string) : M unit :=
  check_fault (OpZipWrite zipf file_path);;
  e ← ask;
  match lookup_path e file_path with
  | None =>
      raise (Exn "FileNotFoundError"
               ("[Errno 2] No such file or directory: '" +:+ file_path +:+ "'"))
  | Some n =>
      match copy_failure e zipf file_path n with
      | Some (copied, x) =>
          modify (update_archive zipf (add_member (arcname, copied)));;
          raise x
      | None => modify (update_archive zipf (add_member (member_of arcname n)))
      end
  end.

(** [ZipFile.close()], which [ZipFile.__exit__] calls: the end record is
    written and the handle closed; the handle is closed also when writing
    the end record fails. *)
Definition zipfile_close (zipf : string) : M unit :=
  release zipf;;
  check_fault (OpZipClose zipf);;
  modify (update_archive zipf finalize).

(** [os.path.getsize(path)] for a path in the output directory *)
Definition os_path_getsize (path : string) : M nat :=
  check_fault (OpGetsize path);;
  s ← get;
  match dist_files s !! path with
  | Some a => mret (zip_size L (members a))
  | None =>
      raise (Exn "FileNotFoundError"
               ("[Errno 2] No such file or directory: '" +:+ path +:+ "'"))
  end.

(** [os.path.relpath(path, start)] *)
Definition os_path_relpath (path start : string) : M string :=
  e ← ask;
  match Path.relpath (e_cwd e) path start with
  | Some rel => mret rel
  | None => raise (Exn "ValueError" "no path specified")
  end.

(** [f"{size / 1024:.2f}"]: the size in hundredths of a kilobyte is
    [size * 25 / 256], rounded to the nearest integer and to the even one
    on a tie, as the float formatting does (the division by 1024 is exact
    in a float for sizes below 2^53). *)
Definition format_kb (size : nat) : string :=
  let n := (N.of_nat size * 25)%N in
  let q := (n `div` 256)%N in
  let r := (n `mod` 256)%N in
  let q' := if (128 <? r)%N then (q + 1)%N
            else if (r =? 128)%N && N.odd q then (q + 1)%N
            else q in
  pretty (q' `div` 100)%N +:+ "." +:+ zero_pad 2 (N.to_nat (q' `mod` 100)%N).

(** [os.walk(top)] on the tree [n] found at [top]: one
    [(root, dirs, files)] per directory, the directory itself first, then
    what the walk of each subdirectory yields, in listing order.  The walk
    of something that is not a directory yields nothing, and so does the
    walk of a directory that cannot be listed: [os.walk] is called without
    [onerror], and the error of [os.scandir] is dropped. *)
Definition is_dir (n : node) : bool :=
  match n with Dir _ => true | File _ => false end.

Definition os_walk (e : env)
    : string → node → list (string * list string * list string) :=
  fix walk (top : string) (n : node) :=
    match n with
    | File _ => []
    | Dir entries =>
        match e_fault e (OpScandir top) with
        | Some _ => []
        | None =>
            (top,
             (filter (λ entry, is_dir entry.2) entries).*1,
             (filter (λ entry, ¬ is_dir entry.2) entries).*1)
            :: (fix walk_children (es : list (string * node)) :=
                  match es with
                  | [] => []
                  | (name, child) :: es' =>
                      walk (Path.join top name) child ++ walk_children es'
                  end) entries
        end
    end.

End Calls.

(** ** The script: [create_xpi] (lines 45-101) and [main] (lines 103-122) *)

Section Script.

Context (L : library) (g : globals).

(** The body of the loop of line 73 for one file (lines 74-86); it
    returns the new [file_count]. *)
Definition add_file (zipf root file : string) (file_count : nat) : M nat :=
  let file_path := Path.join root file in
  if should_include g file_path then
    arcname ← os_path_relpath file_path (SOURCE_DIR g);
    zipfile_write g zipf file_path arcname;;
    print ("  ✓ Added: " +:+ arcname);;
    mret (S file_count)
  else
    rel ← os_path_relpath file_path (SOURCE_DIR g);
    print ("  ✗ Skipped: " +:+ rel);;
    mret file_count.

(** The inner loop (line 73) over the files of one directory. *)
Fixpoint add_files (zipf root : string) (files : list string)
    (file_count : nat) : M nat :=
  match files with
  | [] => mret file_count
  | file :: rest =>
      file_count' ← add_file zipf root file file_count;
      add_files zipf root rest file_count'
  end.

(** The outer loop (line 72) over what [os.walk] yields. *)
Fixpoint add_tree (zipf : string)
    (walk : list (string * list string * list string))
    (file_count : nat) : M nat :=
  match walk with
  | [] => mret file_count
  | (root, dirs, files) :: rest =>
      file_count' ← add_files zipf root files file_count;
      add_tree zipf rest file_count'
  end.

(** [os.walk(SOURCE_DIR)] *)
Definition walk_source (e : env)
    : list (string * list string * list string) :=
  match lookup_path g e (SOURCE_DIR g) with
  | Some n => os_walk e (SOURCE_DIR g) n
  | None => []
  end.

(** Lines 52-56: the version of the manifest. *)
Definition read_version : M pyvalue :=
  let manifest_path := Path.join (SOURCE_DIR g) "manifest.json" in
  with_ (open_read g manifest_path) (λ _, release manifest_path) (λ f,
    manifest ← json_load L f;
    dict_get manifest "version" (PyStr "1.0.0")).

(** Line 60 *)
Definition output_filename (version : pyvalue) : string :=
  EXTENSION_NAME g +:+ "-" +:+ py_format version +:+ ".xpi".

(** Lines 58-101: the archive and the report, for the version read. *)
Definition write_package (version : pyvalue) : M unit :=
  now ← datetime_now;
  let timestamp := strftime now in
  let output_filename := output_filename version in
  let output_path := Path.join (OUTPUT_DIR g) output_filename in
  print "Creating Firefox extension package...";;
  print ("Source: " +:+ SOURCE_DIR g +:+ "/");;
  print ("Output: " +:+ output_path);;
  print ("Version: " +:+ py_format version +:+ nl);;
  file_count ←
    with_ (zipfile_open output_path) zipfile_close (λ zipf,
      e ← ask;
      add_tree zipf (walk_source e) 0);
  file_size ← os_path_getsize L output_path;
  print (nl +:+ Str.repeat_char "=" 60);;
  print "✓ Package created successfully!";;
  print (Str.repeat_char "=" 60);;
  print ("File: " +:+ output_path);;
  print ("Size: " +:+ format_kb file_size +:+ " KB");;
  print ("Files: " +:+ pretty file_count);;
  print (nl +:+ "Next steps:");;
  print "1. Test: Load the .xpi in Firefox (about:debugging)";;
  print "2. Publish: Upload to addons.mozilla.org";;
  print "3. Share: Distribute the .xpi file directly".

Definition create_xpi : M unit :=
  os_makedirs (OUTPUT_DIR g);;
  version ← read_version;
  write_package version.

Definition main : M unit :=
  source_exists ← os_path_exists g (SOURCE_DIR g);
  if negb source_exists then
    print ("Error: Source directory '" +:+ SOURCE_DIR g +:+ "' not found!");;
    print "Make sure you're running this script from the correct location."
  else
    let manifest_path := Path.join (SOURCE_DIR g) "manifest.json" in
    manifest_exists ← os_path_exists g manifest_path;
    if negb manifest_exists then
      print ("Error: manifest.json not found in '" +:+ SOURCE_DIR g +:+ "'!")
    else
      try_except create_xpi (λ x,
        print (nl +:+ "✗ Error creating package: " +:+ exn_str x)).

End Script.

(** One run of the program as the script defines it: the module globals of
    lines 11-35, and [main] called once (line 125). *)
Definition run (L : library) (e : env) (s : state) : result unit * state :=
  main L module_globals e s.

(** * What a run amounts to *)

(** The definitions of this part describe a run without running it: the
    events of the loop over the source tree, and a report of what a call of
    [create_xpi] prints and leaves on disk.  They are tied to the program by
    the lemmas of the next part ([add_tree_eq], [zip_phase_eq],
    [create_xpi_report], [run_eq_report]). *)

(** ** Paths under the module globals *)

(** What the path [SOURCE_DIR/manifest.json] denotes: the first entry of
    that name in the source directory. *)
Definition manifest_node (e : env) : option node :=
  match e_source e with
  | Some (Dir entries) =>
      (λ found, found.2.2) <$> list_find (λ entry, entry.1 = "manifest.json") entries
  | _ => None
  end.

(** A field of a path that [normpath] keeps as it is. *)
Definition plain (comp : string) : Prop :=
  comp ≠ "" ∧ comp ≠ "." ∧ comp ≠ "..".

(** The path line 61 computes. *)
Definition output_path (version : pyvalue) : string :=
  "dist/bookmark-folder-organizer-" +:+ py_format version +:+ ".xpi".

(** ** The loop over the source tree, as a list of events *)

(** One file of the walk is either added under its archive name, as the
    member given, or skipped. *)
Inductive event :=
  | Added (arcname : string) (member : string * string)
  | Skipped (rel : string).

Definition event_line (ev : event) : string :=
  match ev with
  | Added arcname _ => "  ✓ Added: " +:+ arcname
  | Skipped rel => "  ✗ Skipped: " +:+ rel
  end.

Definition event_member (ev : event) : option (string * string) :=
  match ev with
  | Added _ member => Some member
  | Skipped _ => None
  end.

Section Events.

Context (g : globals) (e : env) (zipf : string).

(** The outcome of lines 74-86 for one file. *)
Definition file_event (root file : string) : result event :=
  let file_path := Path.join root file in
  match Path.relpath (e_cwd e) file_path (SOURCE_DIR g) with
  | None => Raise (Exn "ValueError" "no path specified")
  | Some rel =>
      if should_include g file_path then
        match e_fault e (OpZipWrite zipf file_path) with
        | Some x => Raise x
        | None =>
            match lookup_path g e file_path with
            | None =>
                Raise (Exn "FileNotFoundError"
                         ("[Errno 2] No such file or directory: '"
                          +:+ file_path +:+ "'"))
            | Some n =>
                match copy_failure e zipf file_path n with
                | Some (_, x) => Raise x
                | None => Ok (Added rel (member_of rel n))
                end
            end
        end
      else Ok (Skipped rel)
  end.

(** The member a file leaves in the archive when adding it fails during
    the copy: the bytes copied so far, under the name of the file. *)
Definition file_partial (root file : string) : list (string * string) :=
  let file_path := Path.join root file in
  match Path.relpath (e_cwd e) file_path (SOURCE_DIR g),
        e_fault e (OpZipWrite zipf file_path),
        lookup_path g e file_path with
  | Some rel, None, Some n =>
      if should_include g file_path then
        match copy_failure e zipf file_path n with
        | Some (copied, _) => [(rel, copied)]
        | None => []
        end
      else []
  | _, _, _ => []
  end.

(** The events of a list of files, up to the first failure. *)
Fixpoint files_events (root : string) (files : list string)
    : list event * option exn :=
  match files with
  | [] => ([], None)
  | file :: rest =>
      match file_event root file with
      | Raise x => ([], Some x)
      | Ok ev =>
          let '(evs, err) := files_events root rest in (ev :: evs, err)
      end
  end.

Fixpoint tree_events (walk : list (string * list string * list string))
    : list event * option exn :=
  match walk with
  | [] => ([], None)
  | (root, _, files) :: rest =>
      match files_events root files with
      | (evs, Some x) => (evs, Some x)
      | (evs, None) =>
          let '(evs', err) := tree_events rest in (evs ++ evs', err)
      end
  end.

(** What the file at which the loop fails leaves in the archive. *)
Fixpoint files_partial (root : string) (files : list string)
    : list (string * string) :=
  match files with
  | [] => []
  | file :: rest =>
      match file_event root file with
      | Raise _ => file_partial root file
      | Ok _ => files_partial root rest
      end
  end.

Fixpoint tree_partial (walk : list (string * list string * list string))
    : list (string * string) :=
  match walk with
  | [] => []
  | (root, _, files) :: rest =>
      match files_events root files with
      | (_, Some _) => files_partial root files
      | (_, None) => tree_partial rest
      end
  end.

End Events.

(** The state while the archive [zipf] is being written: the other files
    of the output directory, the members and the end-record flag of the
    archive, the lines printed and the open handles. *)
Definition zip_state (files : gmap string archive) (zipf : string)
    (ms : list (string * string)) (fin : bool) (out h : list string) : state :=
  State (Some (Directory (<[zipf := Archive ms fin]> files))) out h.

Definition loop_result (n : nat) (evs : list event) (err : option exn)
    : result nat :=
  match err with
  | Some x => Raise x
  | None => Ok (n + length (omap event_member evs))
  end.

Section ZipSummary.

Context (g : globals) (e : env) (zipf : string).

(** The archive the phase leaves on disk, and how it ends. *)
Definition archive_left : archive :=
  Archive (omap event_member (tree_events g e zipf (walk_source g e)).1
           ++ tree_partial g e zipf (walk_source g e))
          (bool_decide (e_fault e (OpZipClose zipf) = None)).

Definition zip_result : result nat :=
  match e_fault e (OpZipClose zipf) with
  | Some x => Raise x
  | None =>
      let '(evs, err) := tree_events g e zipf (walk_source g e) in
      loop_result 0 evs err
  end.

Definition zip_lines : list string :=
  event_line <$> (tree_events g e zipf (walk_source g e)).1.

End ZipSummary.

(** ** A call of [create_xpi], as a report *)

(** The state after [os.makedirs(OUTPUT_DIR, exist_ok=True)] has succeeded. *)
Definition prepare (s : state) : state :=
  match s_dist s with
  | None => set_dist (Some (Directory ∅)) s
  | Some _ => s
  end.

(** What lines 53-56 give for the version: the first failure on the way, or
    the value of the [version] key, or the default. *)
Definition manifest_version (L : library) (e : env) : result pyvalue :=
  match e_fault e (OpOpenRead "bookmark-folder-organizer/manifest.json") with
  | Some x => Raise x
  | None =>
      match manifest_node e with
      | None =>
          Raise (Exn "FileNotFoundError"
                   "[Errno 2] No such file or directory: 'bookmark-folder-organizer/manifest.json'")
      | Some (Dir _) =>
          Raise (Exn "IsADirectoryError"
                   "[Errno 21] Is a directory: 'bookmark-folder-organizer/manifest.json'")
      | Some (File content) =>
          match json_loads L content with
          | Raise x => Raise x
          | Ok (PyNotDict type_name) =>
              Raise (Exn "AttributeError"
                       ("'" +:+ type_name +:+ "' object has no attribute 'get'"))
          | Ok (PyDict d) => Ok (from_option id (PyStr "1.0.0") (d !! "version"))
          end
      end
  end.

(** The lines printed before the archive is opened (lines 63-66) and after
    it is closed (lines 92-101). *)
Definition header (version : pyvalue) : list string :=
  [ "Creating Firefox extension package...";
    "Source: bookmark-folder-organizer/";
    "Output: " +:+ output_path version;
    "Version: " +:+ py_format version +:+ nl ].

Definition footer (version : pyvalue) (file_size file_count : nat) : list string :=
  [ nl +:+ Str.repeat_char "=" 60;
    "✓ Package created successfully!";
    Str.repeat_char "=" 60;
    "File: " +:+ output_path version;
    "Size: " +:+ format_kb file_size +:+ " KB";
    "Files: " +:+ pretty file_count;
    nl +:+ "Next steps:";
    "1. Test: Load the .xpi in Firefox (about:debugging)";
    "2. Publish: Upload to addons.mozilla.org";
    "3. Share: Distribute the .xpi file directly" ].

(** What a call of [create_xpi] amounts to: how it ends, the archive file it
    leaves in the output directory with the path it is under, whether the
    output directory was made sure to exist, and the lines it prints. *)
Record report := Report {
  outcome : result unit;
  written : option (string * archive);
  dir_made : bool;
  lines : list string;
}.

(** Whether the name [OUTPUT_DIR] is taken by something that is not a
    directory. *)
Definition dist_blocked (s : state) : bool :=
  match s_dist s with
  | Some NotADirectory => true
  | _ => false
  end.

Definition apply_report (rp : report) (s : state) : state :=
  State
    (match written rp with
     | Some (path, a) => Some (Directory (<[path := a]> (dist_files s)))
     | None => if dir_made rp then s_dist (prepare s) else s_dist s
     end)
    (s_stdout s ++ lines rp)
    (s_open s).

Section Reports.

Context (L : library) (e : env).

(** Lines 58-101, for the version read. *)
Definition package_report (version : pyvalue) : report :=
  let zipf := output_path version in
  match e_fault e (OpZipOpen zipf) with
  | Some x => Report (Raise x) None true (header version)
  | None =>
      let a := archive_left module_globals e zipf in
      let body := header version ++ zip_lines module_globals e zipf in
      match zip_result module_globals e zipf with
      | Raise x => Report (Raise x) (Some (zipf, a)) true body
      | Ok file_count =>
          match e_fault e (OpGetsize zipf) with
          | Some x => Report (Raise x) (Some (zipf, a)) true body
          | None =>
              Report (Ok tt) (Some (zipf, a)) true
                (body ++ footer version (zip_size L (members a)) file_count)
          end
      end
  end.

Definition create_report (blocked : bool) : report :=
  match e_fault e (OpMakedirs "dist") with
  | Some x => Report (Raise x) None false []
  | None =>
      if blocked then
        Report (Raise (Exn "FileExistsError" "[Errno 17] File exists: 'dist'"))
          None false []
      else
        match manifest_version L e with
        | Raise x => Report (Raise x) None true []
        | Ok version => package_report version
        end
  end.

(** The line the handler of [main] prints (line 121). *)
Definition error_line (x : exn) : string :=
  nl +:+ "✗ Error creating package: " +:+ exn_str x.

(** A whole run: the early exits of [main], or [create_xpi] and the
    handler. *)
Definition run_report (blocked : bool) : report :=
  match e_source e with
  | None =>
      Report (Ok tt) None false
        [ "Error: Source directory 'bookmark-folder-organizer' not found!";
          "Make sure you're running this script from the correct location." ]
  | Some _ =>
      match manifest_node e with
      | None =>
          Report (Ok tt) None false
            [ "Error: manifest.json not found in 'bookmark-folder-organizer'!" ]
      | Some _ =>
          let rp := create_report blocked in
          match outcome rp with
          | Ok _ => rp
          | Raise x =>
              Report (Ok tt) (written rp) (dir_made rp)
                (lines rp ++ [error_line x])
          end
      end
  end.

End Reports.

(** ** The include patterns *)

(** The module globals with another list bound to [INCLUDE_PATTERNS]. *)
Definition with_include_patterns (patterns : list string) : globals := {|
  SOURCE_DIR := SOURCE_DIR module_globals;
  OUTPUT_DIR := OUTPUT_DIR module_globals;
  EXTENSION_NAME := EXTENSION_NAME module_globals;
  INCLUDE_PATTERNS := patterns;
  EXCLUDE_PATTERNS := EXCLUDE_PATTERNS module_globals;
|}.

(** ** Sample inputs *)

Definition dq : string := String "034" "".

(** The bytes of a manifest [{"version": "2.1.0"}]. *)
Definition manifest_2_1_0 : string :=
  "{" +:+ dq +:+ "version" +:+ dq +:+ ": " +:+ dq +:+ "2.1.0" +:+ dq +:+ "}".

(** A stand-in for the library: a parser that knows three documents, and
    the size of an archive whose members are stored uncompressed. *)
Definition sample_library : library := {|
  json_loads := λ bytes,
    if bool_decide (bytes = manifest_2_1_0) then
      Ok (PyDict {[ "version" := PyStr "2.1.0" ]})
    else if bool_decide (bytes = "{}") then Ok (PyDict ∅)
    else if bool_decide (bytes = "[]") then Ok (PyNotDict "list")
    else Raise (Exn "JSONDecodeError"
                  "Expecting value: line 1 column 1 (char 0)");
  zip_size := λ ms,
    foldr (λ m n, 76 + 2 * String.length m.1 + String.length m.2 + n) 22 ms;
|}.

Definition no_fault : io_op → option exn := λ _, None.

Definition sample_time : datetime := DateTime 2024 3 9 14 5 59.

(** Nothing printed, no handle open, no output directory yet. *)
Definition fresh : state := State None [] [].

(** The tree of the scenario of the specification. *)
Definition scenario_env : env := {|
  e_cwd := "/home/dev/extension";
  e_source := Some (Dir
    [ ("manifest.json", File manifest_2_1_0);
      ("popup.js", File "document.title;");
      ("popup.test.js", File "test();");
      (".DS_Store", File "Bud1") ]);
  e_now := sample_time;
  e_fault := no_fault;
|}.

(** A tree with a file that no include pattern names. *)
Definition notes_env : env := {|
  e_cwd := "/home/dev/extension";
  e_source := Some (Dir
    [ ("manifest.json", File manifest_2_1_0);
      ("notes.txt", File "remember the icons") ]);
  e_now := sample_time;
  e_fault := no_fault;
|}.

Definition disk_full : exn :=
  Exn "OSError" "[Errno 28] No space left on device".

(** The scenario tree on a disk that fills up while [popup.js] is being
    added: that write fails, and so does the write of the end record. *)
Definition full_disk_env : env := {|
  e_cwd := "/home/dev/extension";
  e_source := e_source scenario_env;
  e_now := sample_time;
  e_fault := λ op,
    match op with
    | OpZipWrite _ file_path =>
        if bool_decide (file_path = "bookmark-folder-organizer/popup.js")
        then Some disk_full else None
    | OpZipClose _ => Some disk_full
    | _ => None
    end;
|}.

(** The scenario tree with a [popup.js] that the user may not read. *)
Definition unreadable_env : env := {|
  e_cwd := "/home/dev/extension";
  e_source := e_source scenario_env;
  e_now := sample_time;
  e_fault := λ op,
    match op with
    | OpZipWrite _ file_path =>
        if bool_decide (file_path = "bookmark-folder-organizer/popup.js")
        then Some (Exn "PermissionError"
                     "[Errno 13] Permission denied: 'bookmark-folder-organizer/popup.js'")
        else None
    | _ => None
    end;
|}.

(** The scenario tree with a [popup.js] whose reading fails after eight
    bytes have been copied into the archive. *)
Definition io_error_env : env := {|
  e_cwd := "/home/dev/extension";
  e_source := e_source scenario_env;
  e_now := sample_time;
  e_fault := λ op,
    match op with
    | OpZipCopy _ file_path copied =>
        if bool_decide (file_path = "bookmark-folder-organizer/popup.js")
           && bool_decide (copied = 8)
        then Some (Exn "OSError" "[Errno 5] Input/output error")
        else None
    | _ => None
    end;
|}.

(** The scenario tree in a source directory that can be searched but not
    listed: its entries are found by name, and [os.scandir] fails. *)
Definition unlistable_env : env := {|
  e_cwd := "/home/dev/extension";
  e_source := e_source scenario_env;
  e_now := sample_time;
  e_fault := λ op,
    match op with
    | OpScandir path =>
        Some (Exn "PermissionError"
                ("[Errno 13] Permission denied: '" +:+ path +:+ "'"))
    | _ => None
    end;
|}.

(** A manifest that is a JSON array. *)
Definition list_manifest_env : env := {|
  e_cwd := "/home/dev/extension";
  e_source := Some (Dir [ ("manifest.json", File "[]") ]);
  e_now := sample_time;
  e_fault := no_fault;
|}.

(** A working directory without the source directory, one where the
    manifest holds no [version], and one where it is not JSON. *)
Definition empty_env : env := Env "/home/dev" None sample_time no_fault.

Definition unversioned_env : env := {|
  e_cwd := "/home/dev/extension";
  e_source := Some (Dir [ ("manifest.json", File "{}") ]);
  e_now := sample_time;
  e_fault := no_fault;
|}.

Definition broken_manifest_env : env := {|
  e_cwd := "/home/dev/extension";
  e_source := Some (Dir [ ("manifest.json", File "version 2") ]);
  e_now := sample_time;
  e_fault := no_fault;
|}.

(** ** The scenario of the specification *)

(** The four files of the scenario, with any bytes in them. *)
Definition scenario_files (manifest popup test store : string)
    : list (string * node) :=
  [ ("manifest.json", File manifest); ("popup.js", File popup);
    ("popup.test.js", File test); (".DS_Store", File store) ].

(** A source directory that lists [entries], in an environment where
    nothing fails. *)
Definition listed_env (cwd : string) (now : datetime)
    (entries : list (string * node)) : env :=
  Env cwd (Some (Dir entries)) now no_fault.

(** What happens to each of the four names. *)
Definition scenario_event (manifest popup : string) (name : string) : event :=
  if bool_decide (name = "manifest.json") then Added name (name, manifest)
  else if bool_decide (name = "popup.js") then Added name (name, popup)
  else Skipped name.

(** ** Lines that tell how a run ended *)

(** The line of line 93. *)
Definition success_banner : string := "✓ Package created successfully!".

(** A line of one of the three error messages of [main] (lines 107, 114
    and 121). *)
Definition is_error_line (line : string) : Prop :=
  Str.is_prefix_of "Error: " line
  ∨ Str.is_prefix_of (nl +:+ "✗ Error creating package: ") line.

(** ** The files of the walk *)

(** The paths line 74 computes, in the order the two loops reach them. *)
Fixpoint walk_paths (walk : list (string * list string * list string))
    : list string :=
  match walk with
  | [] => []
  | (root, _, files) :: rest => (Path.join root <$> files) ++ walk_paths rest
  end.

Section Packaged.

Context (g : globals) (e : env).

(** The member a file of the walk gives when nothing fails: none if the
    filter leaves it out, and else its bytes under its path relative to the
    source directory. *)
Definition packaged (file_path : string) : option (string * string) :=
  if should_include g file_path then
    match Path.relpath (e_cwd e) file_path (SOURCE_DIR g),
          lookup_path g e file_path with
    | Some arcname, Some n => Some (member_of arcname n)
    | _, _ => None
    end
  else None.

(** The progress line of a file of the walk (lines 83 and 86). *)
Definition progress_line (file_path : string) : string :=
  let rel := default "" (Path.relpath (e_cwd e) file_path (SOURCE_DIR g)) in
  if should_include g file_path then "  ✓ Added: " +:+ rel
  else "  ✗ Skipped: " +:+ rel.

(** The files of the walk that the filter lets through. *)
Definition included (paths : list string) : list string :=
  filter (λ file_path, should_include g file_path = true) paths.

(** An event of the loop is the event of the file at [file_path]. *)
Definition event_of_path (file_path : string) (ev : event) : Prop :=
  event_member ev = packaged file_path
  ∧ event_line ev = progress_line file_path
  ∧ (is_Some (event_member ev) ↔ should_include g file_path = true).

(** What the loop leaves in the archive of the file it fails at, the one
    at index [k] of the walk: nothing, or, when the copy of its bytes fails,
    the member it would have given cut short. *)
Definition truncated_at (paths : list string) (k : nat)
    (partial : list (string * string)) : Prop :=
  partial = []
  ∨ ∃ path arcname content copied,
      paths !! k = Some path
      ∧ packaged path = Some (arcname, content)
      ∧ partial = [(arcname, Str.take copied content)].

End Packaged.

(** ** Source trees as a file system lists them *)

(** A name of a directory entry: not empty, not [.] or [..], and without a
    slash. *)
Definition valid_name (name : string) : Prop :=
  plain name ∧ Str.contains name "/" = false.

(** A tree in which every directory lists valid names, each once. *)
#[warnings="-register-all"]
Inductive well_formed : node → Prop :=
  | wf_file (content : string) : well_formed (File content)
  | wf_dir (entries : list (string * node)) :
      NoDup entries.*1 →
      Forall valid_name entries.*1 →
      Forall (λ entry, well_formed entry.2) entries →
      well_formed (Dir entries).

(** The regular files directly in a directory, under their paths from
    [dir]. *)
Definition own_files (dir : string) (entries : list (string * node))
    : list (string * string) :=
  omap (λ entry,
          match entry.2 with
          | File content => Some (Path.join dir entry.1, content)
          | Dir _ => None
          end) entries.

(** The regular files of a tree with their bytes, each under its path from
    the root of the tree, [dir] being the path of [n] itself (empty for the
    root): the files of a directory in listing order, then those of each of
    its subdirectories, which is the order of [os_walk]. *)
Fixpoint tree_files (dir : string) (n : node) : list (string * string) :=
  match n with
  | File _ => []
  | Dir entries =>
      own_files dir entries
      ++ (fix below (es : list (string * node)) :=
            match es with
            | [] => []
            | (name, child) :: es' =>
                tree_files (Path.join dir name) child ++ below es'
            end) entries
  end.

(** What the loop does with a file of the listing. *)
Definition listed_event (g : globals) (file : string * string) : event :=
  if should_include g file.1 then Added file.1 file else Skipped file.1.

(** The path, from the source directory, of the directory reached through
    the fields [comps]. *)
Definition rel_dir (comps : list string) : string :=
  match comps with
  | [] => ""
  | first :: others => Path.join_all first others
  end.

(** ** More sample inputs *)

(** The environment in which every [os.path.getsize] fails with [x], and
    everything else goes as in [e]. *)
Definition with_getsize_failure (x : exn) (e : env) : env := {|
  e_cwd := e_cwd e;
  e_source := e_source e;
  e_now := e_now e;
  e_fault := λ op,
    match op with
    | OpGetsize _ => Some x
    | _ => e_fault e op
    end;
|}.

(** The scenario where no archive can be opened for writing. *)
Definition locked_output_env : env := {|
  e_cwd := "/home/dev/extension";
  e_source := e_source scenario_env;
  e_now := sample_time;
  e_fault := λ op,
    match op with
    | OpZipOpen path =>
        Some (Exn "PermissionError"
                ("[Errno 13] Permission denied: '" +:+ path +:+ "'"))
    | _ => None
    end;
|}.

(** A manifest path that names a directory, and a state in which the name
    [dist] is taken by a regular file. *)
Definition manifest_directory_env : env := {|
  e_cwd := "/home/dev/extension";
  e_source := Some (Dir [ ("manifest.json", Dir []) ]);
  e_now := sample_time;
  e_fault := no_fault;
|}.

Definition blocked_state : state := State (Some NotADirectory) [] [].

(** A tree with subdirectories, in an environment where nothing fails. *)
Definition nested_tree : node :=
  Dir [ ("manifest.json", File manifest_2_1_0);
        ("icons", Dir [ ("icon-48.png", File "PNG"); (".gitkeep", File "") ]);
        ("popup.js", File "document.title;");
        ("services", Dir [ ("store.js", File "export {};");
                           ("store.test.js", File "test();") ]);
        ("node_modules", Dir [ ("left-pad", Dir [ ("index.js", File "pad") ]) ]) ].

Definition nested_env : env :=
  Env "/home/dev/extension" (Some nested_tree) sample_time no_fault.

(** * Lemmas *)

(** ** The string operations *)

Section StringFacts.

Lemma str_app_cons (a : ascii) (s1 s2 : string) :
  String a s1 +:+ s2 = String a (s1 +:+ s2).
Proof. done. Qed.

Lemma str_app_nil_l (s : string) : "" +:+ s = s.
Proof. done. Qed.

Lemma str_app_nil_r (s : string) : s +:+ "" = s.
Proof. induction s as [|a s IH]; [done|]. by rewrite str_app_cons, IH. Qed.

Lemma str_app_assoc (s1 s2 s3 : string) :
  (s1 +:+ s2) +:+ s3 = s1 +:+ (s2 +:+ s3).
Proof.
  induction s1 as [|a s1 IH]; [done|]. by rewrite !str_app_cons, IH.
Qed.

Lemma startswith_spec (s p : string) :
  Str.startswith s p = true ↔ Str.is_prefix_of p s.
Proof.
  revert s. induction p as [|a p IH]; intros s; cbn.
  - split; [|done]. intros _. by exists s.
  - destruct s as [|b s].
    + split; [done|]. by intros [suf Hsuf].
    + rewrite andb_true_iff, bool_decide_eq_true, IH. split.
      * intros [-> [suf ->]]. by exists suf.
      * intros [suf Hsuf]. rewrite str_app_cons in Hsuf.
        injection Hsuf as -> ->. split; [done|]. by exists suf.
Qed.

Lemma contains_spec (s p : string) :
  Str.contains s p = true ↔ Str.occurs_in p s.
Proof.
  induction s as [|a s IH]; cbn.
  - rewrite orb_false_r, startswith_spec. split.
    + intros [suf Hsuf]. by exists "", suf.
    + intros [[|b pre] [suf Hsuf]]; [by exists suf|done].
  - rewrite orb_true_iff, startswith_spec, IH. split.
    + intros [[suf Hsuf] | (pre & suf & ->)].
      * by exists "", suf.
      * by exists (String a pre), suf.
    + intros [[|b pre] [suf Hsuf]].
      * left. by exists suf.
      * right. rewrite str_app_cons in Hsuf. injection Hsuf as -> ->.
        by exists pre, suf.
Qed.

Lemma endswith_spec (s p : string) :
  Str.endswith s p = true ↔ Str.is_suffix_of p s.
Proof.
  induction s as [|a s IH]; cbn.
  - rewrite orb_false_r, bool_decide_eq_true. split.
    + intros <-. by exists "".
    + intros [[|b pre] Hpre]; [done|done].
  - rewrite orb_true_iff, bool_decide_eq_true, IH. split.
    + intros [<- | [pre ->]]; [by exists ""|by exists (String a pre)].
    + intros [[|b pre] Hpre].
      * by left.
      * right. rewrite str_app_cons in Hpre. injection Hpre as -> ->.
        by exists pre.
Qed.

Lemma pattern_matches_spec (file_path pattern : string) :
  pattern_matches file_path pattern = true ↔
  Str.occurs_in pattern file_path
  ∨ Str.is_suffix_of (Str.remove_char "*" pattern) file_path.
Proof.
  unfold pattern_matches.
  by rewrite orb_true_iff, contains_spec, endswith_spec.
Qed.

Lemma should_include_loop_false (patterns : list string) (file_path : string) :
  should_include_loop patterns file_path = false ↔
  ∃ pattern, pattern ∈ patterns ∧ pattern_matches file_path pattern = true.
Proof.
  induction patterns as [|p ps IH]; cbn.
  - split; [done|]. intros (? & []%elem_of_nil & _).
  - destruct (pattern_matches file_path p) eqn:Hp.
    + split; [|done]. intros _. exists p. split; [left|done].
    + rewrite IH. split.
      * intros (q & Hq & Hex). exists q. split; [by right|done].
      * intros (q & [->|Hq]%elem_of_cons & Hex); [congruence|by exists q].
Qed.

End StringFacts.

Lemma should_include_false_iff (g : globals) (file_path : string) :
  should_include g file_path = false ↔
  ∃ pattern, pattern ∈ EXCLUDE_PATTERNS g ∧
    (Str.occurs_in pattern file_path
     ∨ Str.is_suffix_of (Str.remove_char "*" pattern) file_path).
Proof.
  unfold should_include. rewrite should_include_loop_false.
  split; intros (p & Hp & H); exists p; split; try done;
    by apply pattern_matches_spec.
Qed.

Lemma should_include_true_iff (g : globals) (file_path : string) :
  should_include g file_path = true ↔
  ∀ pattern, pattern ∈ EXCLUDE_PATTERNS g →
    ¬ Str.occurs_in pattern file_path
    ∧ ¬ Str.is_suffix_of (Str.remove_char "*" pattern) file_path.
Proof.
  rewrite <- not_false_iff_true, should_include_false_iff. split.
  - intros Hno p Hp. split; intros H; apply Hno; exists p; tauto.
  - intros Hall (p & Hp & H). destruct (Hall p Hp). tauto.
Qed.

(** The suffixes line 41 tests for: the exclude patterns without their
    stars. *)
Lemma stripped_exclude_patterns :
  Str.remove_char "*" <$> EXCLUDE_PATTERNS module_globals
  = [ ".test.js"; ".test.md"; ".gitkeep"; "node_modules"; ".git";
      ".DS_Store"; "Thumbs.db" ].
Proof. reflexivity. Qed.

(** The filter is not a glob matcher: a name that merely contains [.git] is
    left out. *)
Lemma git_substring_excluded :
  should_include module_globals "bookmark-folder-organizer/docs/my.github.md"
  = false.
Proof. reflexivity. Qed.

(** ** Stepping through computations *)

Section Stepping.

Context {A B : Type}.

Lemma bind_eq (m : M A) (f : A → M B) (e : env) (s : state) :
  (m ≫= f) e s =
  match m e s with
  | (Ok a, s') => f a e s'
  | (Raise x, s') => (Raise x, s')
  end.
Proof. done. Qed.

Lemma bind_ok (m : M A) (f : A → M B) e s a s' :
  m e s = (Ok a, s') → (m ≫= f) e s = f a e s'.
Proof. intros H. by rewrite bind_eq, H. Qed.

Lemma bind_raise (m : M A) (f : A → M B) e s x s' :
  m e s = (Raise x, s') → (m ≫= f) e s = (Raise x, s').
Proof. intros H. by rewrite bind_eq, H. Qed.

End Stepping.

Lemma print_eq (line : string) (e : env) (s : state) :
  print line e s = (Ok tt, set_stdout (s_stdout s ++ [line]) s).
Proof. done. Qed.

Lemma bind_datetime_now {B} (f : datetime → M B) (e : env) (s : state) :
  (datetime_now ≫= f) e s = f (e_now e) e s.
Proof. done. Qed.

Lemma bind_print {B} (line : string) (f : unit → M B) (e : env) (s : state) :
  (print line ≫= f) e s = f tt e (set_stdout (s_stdout s ++ [line]) s).
Proof. done. Qed.

(** Unfolding the plumbing of a computation applied to its environment and
    state, and nothing else. *)
Ltac mred :=
  unfold print, release, json_load, check_fault, try_except;
  unfold mbind, M_bind, mret, M_ret, ask, get, modify, raise;
  cbv beta iota zeta;
  cbn [set_stdout set_dist set_open s_dist s_stdout s_open fst snd].

(** ** Looking up the paths of the script *)

Lemma resolve_plain (ancestors : list node) (entries : list (string * node))
    (comp : string) (rest : list string) :
  comp ≠ "" → comp ≠ "." → comp ≠ ".." →
  resolve ancestors (Dir entries) (comp :: rest) =
  match list_find (λ entry, entry.1 = comp) entries with
  | Some (_, (_, child)) => resolve (Dir entries :: ancestors) child rest
  | None => None
  end.
Proof.
  intros H1 H2 H3. cbn [resolve].
  by rewrite !bool_decide_eq_false_2.
Qed.

Lemma list_find_head {A} (P : A → Prop) `{!∀ x, Decision (P x)} (x : A) (l : list A) :
  P x → list_find P (x :: l) = Some (0, x).
Proof. intros HP. cbn [list_find]. by rewrite decide_True. Qed.

Lemma lookup_source_dir (e : env) :
  lookup_path module_globals e "bookmark-folder-organizer" = e_source e.
Proof.
  unfold lookup_path, working_directory.
  change (Str.split "/" "bookmark-folder-organizer")
    with ["bookmark-folder-organizer"].
  rewrite resolve_plain by discriminate.
  destruct (e_source e) as [n|]; [|done].
  by rewrite list_find_head.
Qed.

Lemma lookup_under_source (e : env) (n : node) (comps : list string) :
  e_source e = Some n →
  resolve [] (working_directory module_globals e)
    ("bookmark-folder-organizer" :: comps)
  = resolve [working_directory module_globals e] n comps.
Proof.
  intros Hsrc. unfold working_directory. rewrite Hsrc.
  rewrite resolve_plain by discriminate.
  by rewrite list_find_head.
Qed.

Lemma lookup_manifest (e : env) :
  lookup_path module_globals e "bookmark-folder-organizer/manifest.json"
  = manifest_node e.
Proof.
  unfold lookup_path, manifest_node.
  change (Str.split "/" "bookmark-folder-organizer/manifest.json")
    with ["bookmark-folder-organizer"; "manifest.json"].
  destruct (e_source e) as [n|] eqn:Hsrc.
  - rewrite (lookup_under_source e n) by done.
    destruct n as [c|entries]; [done|].
    rewrite resolve_plain by discriminate.
    by destruct (list_find _ entries) as [[i [name child]]|].
  - unfold working_directory. rewrite Hsrc.
    by rewrite resolve_plain by discriminate.
Qed.

Lemma manifest_node_None (e : env) :
  manifest_node e = None ↔
  ∀ entries, e_source e = Some (Dir entries) → "manifest.json" ∉ entries.*1.
Proof.
  unfold manifest_node. destruct (e_source e) as [[c|entries]|]; try done.
  rewrite fmap_None, list_find_None, Forall_forall. split.
  - intros Hall es [= <-] (entry & Heq & Hin)%list_elem_of_fmap.
    by apply (Hall entry).
  - intros Hno entry Hin Heq. apply (Hno entries eq_refl).
    apply list_elem_of_fmap. by exists entry.
Qed.

(** ** The walk and the copy when the environment lets them through *)

Lemma os_walk_dir (e : env) (top : string) (entries : list (string * node)) :
  os_walk e top (Dir entries) =
  match e_fault e (OpScandir top) with
  | Some _ => []
  | None =>
      (top,
       (filter (λ entry, is_dir entry.2) entries).*1,
       (filter (λ entry, ¬ is_dir entry.2) entries).*1)
      :: (fix walk_children (es : list (string * node)) :=
            match es with
            | [] => []
            | (name, child) :: es' =>
                os_walk e (Path.join top name) child ++ walk_children es'
            end) entries
  end.
Proof. done. Qed.

Lemma first_copy_fault_None (fault : nat → option exn) (copied count : nat) :
  (∀ k, fault k = None) → first_copy_fault fault copied count = None.
Proof.
  intros Hnone. revert copied.
  induction count as [|count IH]; intros copied; [done|].
  cbn. by rewrite Hnone.
Qed.

Lemma copy_failure_None (e : env) (zipf file_path : string) (n : node) :
  (∀ copied, e_fault e (OpZipCopy zipf file_path copied) = None) →
  copy_failure e zipf file_path n = None.
Proof.
  intros Hnone. destruct n as [content|entries]; [|done].
  unfold copy_failure. by rewrite first_copy_fault_None.
Qed.

(** ** The early exits of [main] *)

Lemma run_source_missing (L : library) (e : env) (s : state) :
  e_source e = None →
  run L e s =
  (Ok tt,
   set_stdout
     (s_stdout s ++
        [ "Error: Source directory 'bookmark-folder-organizer' not found!";
          "Make sure you're running this script from the correct location." ])
     s).
Proof.
  intros Hsrc. unfold run, main, os_path_exists.
  rewrite !bind_eq. cbn [ask mret M_ret SOURCE_DIR module_globals].
  rewrite lookup_source_dir, Hsrc.
  rewrite bool_decide_eq_false_2 by (by intros [? ?]).
  cbn [negb]. rewrite bind_eq. unfold print, modify, set_stdout. cbn.
  by rewrite <- (assoc_L (++)).
Qed.

Lemma run_manifest_missing (L : library) (e : env) (s : state) :
  is_Some (e_source e) → manifest_node e = None →
  run L e s =
  (Ok tt,
   set_stdout
     (s_stdout s ++
        [ "Error: manifest.json not found in 'bookmark-folder-organizer'!" ])
     s).
Proof.
  intros Hsrc Hman. unfold run, main, os_path_exists.
  rewrite !bind_eq. cbn [ask mret M_ret SOURCE_DIR module_globals].
  rewrite lookup_source_dir, bool_decide_eq_true_2 by done.
  cbn [negb]. rewrite !bind_eq. cbn [ask mret M_ret].
  change (Path.join "bookmark-folder-organizer" "manifest.json")
    with "bookmark-folder-organizer/manifest.json".
  rewrite lookup_manifest, Hman.
  rewrite bool_decide_eq_false_2 by (by intros [? ?]).
  done.
Qed.

(** ** The loops of lines 72-86 *)

Section Loop.

Context (g : globals) (e : env) (zipf : string).
Context (files : gmap string archive) (fin : bool) (h : list string).

Lemma update_zip_state (f : archive → archive) ms out :
  update_archive zipf f (zip_state files zipf ms fin out h)
  = State (Some (Directory (<[zipf := f (Archive ms fin)]> files))) out h.
Proof.
  unfold update_archive, zip_state, set_dist. cbn.
  by rewrite lookup_insert_eq, insert_insert_eq.
Qed.

Lemma add_file_eq root file n ms out :
  add_file g zipf root file n e (zip_state files zipf ms fin out h) =
  match file_event g e zipf root file with
  | Raise x =>
      (Raise x,
       zip_state files zipf (ms ++ file_partial g e zipf root file) fin out h)
  | Ok ev =>
      (Ok (n + length (omap event_member [ev])),
       zip_state files zipf (ms ++ omap event_member [ev]) fin
         (out ++ [event_line ev]) h)
  end.
Proof.
  unfold add_file, file_event, file_partial, os_path_relpath, zipfile_write.
  mred.
  destruct (should_include g _);
    destruct (Path.relpath _ _ _) as [rel|].
  - destruct (e_fault e (OpZipWrite _ _)) as [x|]; [by rewrite app_nil_r|].
    destruct (lookup_path g e _) as [n'|]; [|by rewrite app_nil_r].
    fold (zip_state files zipf ms fin out h).
    destruct (copy_failure e zipf _ n') as [[copied x]|].
    + by rewrite update_zip_state.
    + rewrite update_zip_state. mred. cbn [length omap event_member].
      by rewrite Nat.add_1_r.
  - by rewrite app_nil_r.
  - mred. cbn [length omap event_member].
    by rewrite Nat.add_0_r, app_nil_r.
  - by rewrite app_nil_r.
Qed.

Lemma add_files_eq root fs n ms out :
  add_files g zipf root fs n e (zip_state files zipf ms fin out h) =
  let '(evs, err) := files_events g e zipf root fs in
  (loop_result n evs err,
   zip_state files zipf
     (ms ++ omap event_member evs ++ files_partial g e zipf root fs) fin
     (out ++ (event_line <$> evs)) h).
Proof.
  revert n ms out. induction fs as [|file rest IH]; intros n ms out.
  - cbn. by rewrite Nat.add_0_r, !app_nil_r.
  - cbn [add_files files_events files_partial]. rewrite bind_eq, add_file_eq.
    destruct (file_event g e zipf root file) as [ev|x].
    + rewrite IH. destruct (files_events g e zipf root rest) as [evs err].
      f_equal.
      * unfold loop_result. destruct err; [done|].
        destruct ev; cbn; f_equal; lia.
      * destruct ev; cbn; by rewrite <- !(assoc_L (++)).
    + cbn. by rewrite !app_nil_r.
Qed.

Lemma files_partial_nil root fs evs :
  files_events g e zipf root fs = (evs, None) →
  files_partial g e zipf root fs = [].
Proof.
  revert evs. induction fs as [|file rest IH]; intros evs; [done|].
  cbn [files_events files_partial].
  destruct (file_event g e zipf root file) as [ev|x]; [|done].
  destruct (files_events g e zipf root rest) as [evs' err].
  intros [= _ ->]. by eapply IH.
Qed.

Lemma add_tree_eq walk n ms out :
  add_tree g zipf walk n e (zip_state files zipf ms fin out h) =
  let '(evs, err) := tree_events g e zipf walk in
  (loop_result n evs err,
   zip_state files zipf
     (ms ++ omap event_member evs ++ tree_partial g e zipf walk) fin
     (out ++ (event_line <$> evs)) h).
Proof.
  revert n ms out. induction walk as [|[[root dirs] fs] rest IH];
    intros n ms out.
  - cbn. by rewrite Nat.add_0_r, !app_nil_r.
  - cbn [add_tree tree_events tree_partial]. rewrite bind_eq, add_files_eq.
    destruct (files_events g e zipf root fs) as [evs [x|]] eqn:Hfs; [done|].
    rewrite (files_partial_nil _ _ _ Hfs), app_nil_r.
    cbn [loop_result]. rewrite IH.
    destruct (tree_events g e zipf rest) as [evs' err].
    f_equal.
    + unfold loop_result. destruct err; [done|].
      rewrite omap_app, length_app. f_equal; lia.
    + by rewrite omap_app, fmap_app, <- !(assoc_L (++)).
Qed.

Lemma tree_partial_nil walk evs :
  tree_events g e zipf walk = (evs, None) →
  tree_partial g e zipf walk = [].
Proof.
  revert evs. induction walk as [|[[root dirs] fs] rest IH]; intros evs; [done|].
  cbn [tree_events tree_partial].
  destruct (files_events g e zipf root fs) as [evs1 [x|]]; [done|].
  destruct (tree_events g e zipf rest) as [evs2 err].
  intros [= _ ->]. by eapply IH.
Qed.

End Loop.

(** ** The archive phase: [with zipfile.ZipFile(...) as zipf] (lines 70-86) *)

Lemma remove_first_head (path : string) (handles : list string) :
  remove_first path (path :: handles) = handles.
Proof. cbn. by rewrite bool_decide_eq_true_2. Qed.

Section ZipPhase.

Context (g : globals) (e : env) (zipf : string).

Lemma zipfile_close_eq (files : gmap string archive) ms out h :
  zipfile_close zipf e (zip_state files zipf ms false out (zipf :: h)) =
  match e_fault e (OpZipClose zipf) with
  | Some x => (Raise x, zip_state files zipf ms false out h)
  | None => (Ok tt, zip_state files zipf ms true out h)
  end.
Proof.
  unfold zipfile_close. mred. unfold zip_state at 1 2 3. mred.
  rewrite remove_first_head.
  destruct (e_fault e (OpZipClose zipf)) as [x|]; [done|].
  f_equal. apply update_zip_state.
Qed.

Lemma zip_phase_eq (s : state) :
  with_ (zipfile_open zipf) zipfile_close
    (λ zipf, e ← ask; add_tree g zipf (walk_source g e) 0) e s =
  match e_fault e (OpZipOpen zipf) with
  | Some x => (Raise x, s)
  | None =>
      match s_dist s with
      | None =>
          (Raise (Exn "FileNotFoundError"
                    ("[Errno 2] No such file or directory: '" +:+ zipf +:+ "'")),
           s)
      | Some NotADirectory =>
          (Raise (Exn "NotADirectoryError"
                    ("[Errno 20] Not a directory: '" +:+ zipf +:+ "'")),
           s)
      | Some (Directory files) =>
          (zip_result g e zipf,
           State (Some (Directory (<[zipf := archive_left g e zipf]> files)))
                 (s_stdout s ++ zip_lines g e zipf) (s_open s))
      end
  end.
Proof.
  unfold with_, zipfile_open. mred.
  destruct (e_fault e (OpZipOpen zipf)) as [x|]; [done|].
  destruct (s_dist s) as [[|files]|] eqn:Hd; [done| |done].
  mred.
  change (set_open _ (set_dist _ s)) with
    (zip_state files zipf [] false (s_stdout s) (zipf :: s_open s)).
  rewrite add_tree_eq.
  unfold zip_result, archive_left, zip_lines.
  destruct (tree_events g e zipf (walk_source g e)) as [evs err].
  cbn [app fst]. rewrite !zipfile_close_eq.
  destruct (e_fault e (OpZipClose zipf)) as [x|].
  - rewrite bool_decide_eq_false_2 by done.
    by destruct (loop_result 0 evs err).
  - rewrite bool_decide_eq_true_2 by done.
    by destruct (loop_result 0 evs err).
Qed.

End ZipPhase.

(** ** [create_xpi] under the module globals *)

Lemma set_open_same (s : state) : set_open (s_open s) s = s.
Proof. by destruct s. Qed.

Lemma set_open_twice (h h' : list string) (s : state) :
  set_open h (set_open h' s) = set_open h s.
Proof. done. Qed.

Lemma read_version_eq (L : library) (e : env) (s : state) :
  read_version L module_globals e s = (manifest_version L e, s).
Proof.
  unfold read_version, with_, open_read, manifest_version.
  change (Path.join (SOURCE_DIR module_globals) "manifest.json")
    with "bookmark-folder-organizer/manifest.json".
  mred. rewrite lookup_manifest.
  destruct (e_fault e (OpOpenRead _)) as [x|]; [done|].
  destruct (manifest_node e) as [[content|entries]|]; [|done|done].
  mred. destruct (json_loads L content) as [[d|type_name]|x];
    cbn [dict_get]; mred; rewrite remove_first_head;
    by rewrite set_open_twice, set_open_same.
Qed.

Lemma os_makedirs_eq (e : env) (s : state) :
  os_makedirs "dist" e s =
  match e_fault e (OpMakedirs "dist") with
  | Some x => (Raise x, s)
  | None =>
      match s_dist s with
      | Some NotADirectory =>
          (Raise (Exn "FileExistsError" "[Errno 17] File exists: 'dist'"), s)
      | _ => (Ok tt, prepare s)
      end
  end.
Proof.
  unfold os_makedirs, prepare. mred.
  destruct (e_fault e (OpMakedirs "dist")) as [x|]; [done|].
  by destruct (s_dist s) as [[|files]|].
Qed.

Lemma output_path_eq (version : pyvalue) :
  Path.join (OUTPUT_DIR module_globals) (output_filename module_globals version)
  = output_path version.
Proof. done. Qed.

Lemma write_package_eq (L : library) (e : env) (s : state)
    (version : pyvalue) (files : gmap string archive) :
  s_dist s = Some (Directory files) →
  write_package L module_globals version e s =
  let zipf := output_path version in
  match e_fault e (OpZipOpen zipf) with
  | Some x => (Raise x, set_stdout (s_stdout s ++ header version) s)
  | None =>
      let a := archive_left module_globals e zipf in
      let s' :=
        State (Some (Directory (<[zipf := a]> files)))
              (s_stdout s ++ header version ++ zip_lines module_globals e zipf)
              (s_open s) in
      match zip_result module_globals e zipf with
      | Raise x => (Raise x, s')
      | Ok file_count =>
          match e_fault e (OpGetsize zipf) with
          | Some x => (Raise x, s')
          | None =>
              (Ok tt,
               set_stdout
                 (s_stdout s' ++ footer version (zip_size L (members a)) file_count)
                 s')
          end
      end
  end.
Proof.
  intros Hd. unfold write_package.
  rewrite output_path_eq.
  change (SOURCE_DIR module_globals) with "bookmark-folder-organizer".
  rewrite bind_datetime_now. cbv beta zeta.
  rewrite !bind_print, bind_eq, zip_phase_eq.
  mred. rewrite Hd.
  destruct (e_fault e (OpZipOpen _)) as [x|].
  { by rewrite <- !(assoc_L (++)). }
  rewrite <- !(assoc_L (++)). cbn [app].
  destruct (zip_result module_globals e _) as [file_count|x]; [|done].
  unfold os_path_getsize. rewrite bind_eq. mred.
  destruct (e_fault e (OpGetsize _)) as [x|]; [done|].
  unfold dist_files. mred. rewrite lookup_insert_eq. mred.
  unfold footer. by rewrite <- !(assoc_L (++)).
Qed.

(** ** A run is its report *)

Section ReportFacts.

Context (L : library) (e : env).

Lemma prepare_dist (s : state) :
  dist_blocked s = false →
  s_dist (prepare s) = Some (Directory (dist_files s)).
Proof.
  unfold dist_blocked, prepare, dist_files.
  by destruct (s_dist s) as [[|files]|] eqn:Hd; cbn; rewrite ?Hd.
Qed.

Lemma prepare_stdout (s : state) : s_stdout (prepare s) = s_stdout s.
Proof. unfold prepare. by destruct (s_dist s). Qed.

Lemma prepare_open (s : state) : s_open (prepare s) = s_open s.
Proof. unfold prepare. by destruct (s_dist s). Qed.

Lemma state_eq (s : state) d o h :
  s_dist s = d → s_stdout s = o → s_open s = h → s = State d o h.
Proof. destruct s. cbn. by intros -> -> ->. Qed.

Lemma write_package_report (version : pyvalue) (s : state) :
  dist_blocked s = false →
  write_package L module_globals version e (prepare s) =
  (outcome (package_report L e version),
   apply_report (package_report L e version) s).
Proof.
  intros Hb. rewrite (write_package_eq _ _ _ _ (dist_files s))
    by by apply prepare_dist.
  unfold package_report, apply_report. cbv zeta.
  rewrite prepare_stdout, prepare_open.
  destruct (e_fault e (OpZipOpen _)) as [x|].
  { cbn. f_equal. apply state_eq; cbn;
      by rewrite ?prepare_stdout, ?prepare_open. }
  destruct (zip_result module_globals e _) as [file_count|x].
  - destruct (e_fault e (OpGetsize _)) as [x|]; cbn; [done|].
    unfold set_stdout. cbn. by rewrite <- (assoc_L (++)).
  - done.
Qed.

Lemma create_xpi_report (s : state) :
  create_xpi L module_globals e s =
  (outcome (create_report L e (dist_blocked s)),
   apply_report (create_report L e (dist_blocked s)) s).
Proof.
  unfold create_xpi. change (OUTPUT_DIR module_globals) with "dist".
  rewrite bind_eq, os_makedirs_eq. unfold create_report, apply_report.
  destruct (e_fault e (OpMakedirs "dist")) as [x|].
  { cbn. f_equal. by apply state_eq; rewrite ?app_nil_r. }
  destruct (dist_blocked s) eqn:Hb.
  { unfold dist_blocked in Hb.
    destruct (s_dist s) as [[|files]|] eqn:Hd; try done.
    cbn. f_equal. by apply state_eq; rewrite ?app_nil_r. }
  assert (os_ok : match s_dist s with
                  | Some NotADirectory =>
                      (Raise (Exn "FileExistsError" "[Errno 17] File exists: 'dist'"), s)
                  | _ => (Ok tt, prepare s)
                  end = (Ok tt, prepare s)).
  { unfold dist_blocked in Hb. by destruct (s_dist s) as [[|files]|]. }
  rewrite os_ok, bind_eq, read_version_eq.
  destruct (manifest_version L e) as [version|x].
  - by apply write_package_report.
  - cbn. f_equal. rewrite app_nil_r.
    apply state_eq; by rewrite ?prepare_stdout, ?prepare_open.
Qed.

(** [main] never raises, and a run is its report applied to the state. *)
Lemma run_eq_report (s : state) :
  run L e s = (Ok tt, apply_report (run_report L e (dist_blocked s)) s).
Proof.
  unfold run_report.
  destruct (e_source e) as [n|] eqn:Hsrc; [|by apply run_source_missing].
  destruct (manifest_node e) as [m|] eqn:Hman;
    [|by apply run_manifest_missing].
  unfold run, main, os_path_exists.
  change (Path.join (SOURCE_DIR module_globals) "manifest.json")
    with "bookmark-folder-organizer/manifest.json".
  change (SOURCE_DIR module_globals) with "bookmark-folder-organizer".
  rewrite !bind_eq. unfold ask at 1, mret at 1, M_ret at 1.
  rewrite lookup_source_dir, Hsrc, bool_decide_eq_true_2 by done.
  cbn [negb]. rewrite !bind_eq. unfold ask at 1, mret at 1, M_ret at 1.
  rewrite lookup_manifest, Hman, bool_decide_eq_true_2 by done.
  cbn [negb]. unfold try_except. rewrite create_xpi_report.
  destruct (outcome (create_report L e (dist_blocked s))) as [[]|x] eqn:Hout.
  - done.
  - rewrite print_eq. unfold apply_report, set_stdout. cbn.
    by rewrite (assoc_L (++)).
Qed.

End ReportFacts.

(** ** Consequences of the closed form *)

Section RunFacts.

Context (L : library) (e : env).

Lemma manifest_node_source (m : node) :
  manifest_node e = Some m → is_Some (e_source e).
Proof. unfold manifest_node. by destruct (e_source e). Qed.

(** A run whose way to the handler is through [create_xpi]. *)
Lemma run_report_checked (m : node) (blocked : bool) :
  manifest_node e = Some m →
  run_report L e blocked =
  let rp := create_report L e blocked in
  match outcome rp with
  | Ok _ => rp
  | Raise x =>
      Report (Ok tt) (written rp) (dir_made rp) (lines rp ++ [error_line x])
  end.
Proof.
  intros Hm. unfold run_report. rewrite Hm.
  by destruct (manifest_node_source m Hm) as [n ->].
Qed.

(** The only file a report writes is the archive of the version read. *)
Lemma create_report_written (blocked : bool) (path : string) (a : archive) :
  written (create_report L e blocked) = Some (path, a) →
  ∃ version,
    manifest_version L e = Ok version ∧ path = output_path version
    ∧ a = archive_left module_globals e path.
Proof.
  unfold create_report.
  destruct (e_fault e (OpMakedirs "dist")); [done|].
  destruct blocked; [done|].
  destruct (manifest_version L e) as [version|x]; [|done].
  unfold package_report. cbv zeta.
  destruct (e_fault e (OpZipOpen _)); [done|].
  destruct (zip_result module_globals e _); [destruct (e_fault e (OpGetsize _))|];
    cbn; intros [= <- <-]; by exists version.
Qed.

Lemma run_report_written (blocked : bool) :
  written (run_report L e blocked) =
  match e_source e, manifest_node e with
  | Some _, Some _ => written (create_report L e blocked)
  | _, _ => None
  end.
Proof.
  unfold run_report. destruct (e_source e); [|done].
  destruct (manifest_node e); [|done].
  cbv zeta. by destruct (outcome (create_report L e blocked)).
Qed.

Lemma run_report_dir_made (blocked : bool) :
  dir_made (run_report L e blocked) = true → blocked = false.
Proof.
  unfold run_report. destruct (e_source e); [|done].
  destruct (manifest_node e); [|done].
  cbv zeta.
  assert (dir_made (create_report L e blocked) = true → blocked = false).
  { unfold create_report. destruct (e_fault e (OpMakedirs "dist")); [done|].
    by destruct blocked. }
  by destruct (outcome (create_report L e blocked)).
Qed.

Lemma run_report_blocked : written (run_report L e true) = None.
Proof.
  rewrite run_report_written. destruct (e_source e); [|done].
  destruct (manifest_node e); [|done].
  unfold create_report. by destruct (e_fault e (OpMakedirs "dist")).
Qed.

(** The files of the output directory after a report has been applied. *)
Lemma dist_files_apply (rp : report) (s : state) :
  dist_files (apply_report rp s) =
  match written rp with
  | Some (path, a) => <[path := a]> (dist_files s)
  | None => dist_files s
  end.
Proof.
  unfold apply_report, dist_files at 1. cbn.
  destruct (written rp) as [[path a]|]; [done|].
  destruct (dir_made rp); [|done].
  unfold prepare, dist_files.
  by destruct (s_dist s) as [[|files]|] eqn:Hd; cbn; rewrite ?Hd.
Qed.

Lemma dist_blocked_apply (s : state) :
  let rp := run_report L e (dist_blocked s) in
  dist_blocked (apply_report rp s) = dist_blocked s.
Proof.
  cbv zeta. destruct (dist_blocked s) eqn:Hb.
  - unfold apply_report, dist_blocked at 1. cbn.
    rewrite run_report_blocked.
    destruct (dir_made (run_report L e true)) eqn:Hmade.
    { by apply run_report_dir_made in Hmade. }
    exact Hb.
  - unfold apply_report, dist_blocked at 1. cbn.
    destruct (written _) as [[path a]|]; [done|].
    destruct (dir_made _); [|exact Hb].
    by rewrite prepare_dist.
Qed.

End RunFacts.

Lemma run_clock_irrelevant (L : library) (e : env) (s : state) (t : datetime) :
  run L (Env (e_cwd e) (e_source e) t (e_fault e)) s = run L e s.
Proof.
  rewrite !run_eq_report. destruct e as [cwd source now fault]. reflexivity.
Qed.

Lemma main_ignores_include_patterns (patterns : list string)
    (L : library) (e : env) (s : state) :
  main L (with_include_patterns patterns) e s = main L module_globals e s.
Proof. reflexivity. Qed.

(** ** Relative paths of files under the source directory *)

Section PathFacts.

Lemma split_go_sep (sep : ascii) (cur s1 s2 : string) :
  Str.split_go sep cur (s1 +:+ String sep s2)
  = Str.split_go sep cur s1 ++ Str.split_go sep "" s2.
Proof.
  revert cur. induction s1 as [|a s1 IH]; intros cur.
  - rewrite str_app_nil_l. cbn. by rewrite bool_decide_eq_true_2.
  - rewrite str_app_cons. cbn. destruct (bool_decide (a = sep)).
    + by rewrite IH.
    + by rewrite IH.
Qed.

(** Joining the working directory and a relative path puts the path
    after a slash, or leaves it alone when the working directory is the
    empty string. *)
Lemma join_relative (cwd : string) :
  (∀ p, Str.startswith p "/" = false → Path.join cwd p = p)
  ∨ (∃ dir, ∀ p, Str.startswith p "/" = false →
       Path.join cwd p = dir +:+ String "/" p).
Proof.
  unfold Path.join. destruct (decide (cwd = "")) as [->|Hne].
  - left. intros p ->. by rewrite bool_decide_eq_true_2.
  - right. rewrite (bool_decide_eq_false_2 (cwd = "")) by done.
    destruct (Str.endswith cwd "/") eqn:Hend.
    + apply endswith_spec in Hend as [dir ->]. exists dir.
      intros p ->. cbn [orb]. by rewrite str_app_assoc.
    + exists cwd. by intros p ->.
Qed.

Lemma startswith_app (dir rest : string) :
  dir ≠ "" → Str.startswith (dir +:+ rest) "/" = Str.startswith dir "/".
Proof. by destruct dir. Qed.

Lemma norm_go_app (absolute : bool) (comps1 : list string) :
  ∀ acc, ∃ acc', ∀ comps2,
    Path.norm_go absolute acc (comps1 ++ comps2)
    = Path.norm_go absolute acc' comps2.
Proof.
  induction comps1 as [|comp comps1 IH]; intros acc.
  - by exists acc.
  - cbn [app Path.norm_go].
    destruct (bool_decide (comp = "") || bool_decide (comp = ".")).
    + apply IH.
    + destruct (negb (bool_decide (comp = ".."))
                || negb absolute && bool_decide (acc = [])
                || bool_decide (head acc = Some "..")); apply IH.
Qed.

Lemma norm_go_plain (absolute : bool) (comps : list string) :
  Forall plain comps →
  ∀ acc, Path.norm_go absolute acc comps = rev acc ++ comps.
Proof.
  induction 1 as [|comp comps (H1 & H2 & H3) _ IH]; intros acc.
  - cbn. by rewrite app_nil_r.
  - cbn [Path.norm_go].
    rewrite !bool_decide_eq_false_2 by done. cbn [orb negb].
    rewrite IH. cbn [rev]. by rewrite <- (assoc_L (++)).
Qed.

(** The fields of the absolute path of a relative path whose own fields
    are plain: those of the working directory, then its own. *)
Lemma abspath_parts_relative (cwd : string) :
  ∃ base, ∀ p comps,
    Str.startswith p "/" = false → Str.split "/" p = comps →
    Forall plain comps → comps ≠ [] →
    Path.abspath_parts cwd p = base ++ comps.
Proof.
  assert (Hkeep : ∀ (absolute : bool) (base comps : list string),
            comps ≠ [] →
            (if negb absolute && bool_decide (base ++ comps = [])
             then ["."] else base ++ comps) = base ++ comps).
  { intros absolute base comps Hne.
    rewrite (bool_decide_eq_false_2 (base ++ comps = [])).
    - by rewrite andb_false_r.
    - by intros [_ ?]%app_eq_nil. }
  unfold Path.abspath_parts. cbv zeta.
  destruct (join_relative cwd) as [Hj | [dir Hj]].
  - exists []. intros p comps Hp Hs Hplain Hne.
    rewrite Hj, Hp, Hs by done. rewrite norm_go_plain by done.
    by apply Hkeep.
  - destruct (decide (dir = "")) as [->|Hdir].
    + exists []. intros p comps Hp Hs Hplain Hne.
      rewrite Hj by done. rewrite str_app_nil_l.
      change (Str.split "/" (String "/" p)) with ("" :: Str.split "/" p).
      rewrite Hs. cbn [Path.norm_go].
      rewrite (bool_decide_eq_true_2 ("" = "")) by done.
      cbn [orb]. rewrite norm_go_plain by done. by apply Hkeep.
    + destruct (norm_go_app (Str.startswith dir "/")
                  (Str.split_go "/" "" dir) []) as [acc Hacc].
      exists (rev acc). intros p comps Hp Hs Hplain Hne.
      rewrite Hj by done. rewrite startswith_app by done.
      unfold Str.split. rewrite split_go_sep, Hacc.
      fold (Str.split "/" p). rewrite Hs, norm_go_plain by done.
      by apply Hkeep.
Qed.

Lemma common_prefix_len_app (base l1 l2 : list string) :
  Path.common_prefix_len (base ++ l1) (base ++ l2)
  = length base + Path.common_prefix_len l1 l2.
Proof.
  induction base as [|x base IH]; [done|].
  cbn. by rewrite bool_decide_eq_true_2, IH.
Qed.

(** The path of a file under the source directory, relative to the source
    directory, is what follows the name of the source directory. *)
Lemma relpath_under_source (cwd path : string) (first : string)
    (others : list string) :
  Str.startswith path "/" = false →
  Str.split "/" path = "bookmark-folder-organizer" :: first :: others →
  Forall plain (first :: others) →
  Path.relpath cwd path "bookmark-folder-organizer"
  = Some (Path.join_all first others).
Proof.
  intros Hrel Hsplit Hplain. unfold Path.relpath.
  assert (Hne : path ≠ "") by (by intros ->).
  rewrite bool_decide_eq_false_2 by done.
  destruct (abspath_parts_relative cwd) as [base Hbase].
  rewrite (Hbase "bookmark-folder-organizer" ["bookmark-folder-organizer"]);
    [|done|done|by repeat constructor|done].
  rewrite (Hbase path _ Hrel Hsplit);
    [|constructor; [by repeat split|done]|done].
  cbv zeta. rewrite common_prefix_len_app. cbn [Path.common_prefix_len].
  rewrite bool_decide_eq_true_2 by done.
  rewrite length_app. cbn [length].
  replace (length base + 1 - (length base + 1)) with 0 by lia.
  cbn [replicate app].
  replace (length base + 1) with (length (base ++ ["bookmark-folder-organizer"]))
    by (rewrite length_app; cbn; lia).
  rewrite (assoc_L (++) base ["bookmark-folder-organizer"] (first :: others)
             : base ++ "bookmark-folder-organizer" :: first :: others = _).
  by rewrite drop_app_length.
Qed.

End PathFacts.

(** ** Files of the walk that end up in the archive *)

Section EventFacts.

Context (g : globals) (e : env) (zipf : string).

Lemma files_events_ok (root : string) (files : list string)
    (evs : list event) :
  files_events g e zipf root files = (evs, None) →
  ∀ file, file ∈ files →
    ∃ ev, file_event g e zipf root file = Ok ev ∧ ev ∈ evs.
Proof.
  revert evs. induction files as [|f files IH]; intros evs Hevs file Hin.
  - by apply elem_of_nil in Hin.
  - cbn [files_events] in Hevs.
    destruct (file_event g e zipf root f) as [ev|x] eqn:Hf; [|done].
    destruct (files_events g e zipf root files) as [evs' err] eqn:Hrest.
    injection Hevs as <- ->.
    apply elem_of_cons in Hin as [->|Hin].
    + exists ev. split; [done|left].
    + destruct (IH evs' eq_refl file Hin) as (ev' & Hev' & Hin').
      exists ev'. split; [done|by right].
Qed.

Lemma tree_events_ok (root : string) (dirs files : list string)
    (rest : list (string * list string * list string)) (evs : list event) :
  tree_events g e zipf ((root, dirs, files) :: rest) = (evs, None) →
  ∀ file, file ∈ files →
    ∃ ev, file_event g e zipf root file = Ok ev ∧ ev ∈ evs.
Proof.
  cbn [tree_events]. intros Hevs file Hin.
  destruct (files_events g e zipf root files) as [evs1 [x|]] eqn:H1; [done|].
  destruct (tree_events g e zipf rest) as [evs2 err].
  injection Hevs as <- ->.
  destruct (files_events_ok _ _ _ H1 file Hin) as (ev & Hev & Hin').
  exists ev. split; [done|]. apply elem_of_app. by left.
Qed.

Lemma elem_of_event_members (arcname : string) (member : string * string)
    (evs : list event) :
  Added arcname member ∈ evs → member ∈ omap event_member evs.
Proof. intros Hin. apply list_elem_of_omap. by exists (Added arcname member). Qed.

End EventFacts.

Section ManifestPackaged.

Context (L : library) (e : env).

Lemma manifest_listed (content : string) :
  manifest_node e = Some (File content) →
  e_fault e (OpScandir "bookmark-folder-organizer") = None →
  ∃ dirs files rest,
    walk_source module_globals e
    = ("bookmark-folder-organizer", dirs, files) :: rest
    ∧ "manifest.json" ∈ files.
Proof.
  unfold manifest_node, walk_source.
  change (SOURCE_DIR module_globals) with "bookmark-folder-organizer".
  rewrite lookup_source_dir.
  destruct (e_source e) as [[c|entries]|]; [done| |done].
  intros ([i [name child]] & Hfind & Hchild)%fmap_Some Hscan.
  cbn in Hchild. subst child.
  apply list_find_Some in Hfind as (Hi & Hname & _). cbn in Hname. subst name.
  rewrite os_walk_dir, Hscan. eexists _, _, _. split; [done|].
  apply list_elem_of_fmap. exists ("manifest.json", File content).
  split; [done|]. apply list_elem_of_filter. split; [cbn; tauto|].
  by eapply list_elem_of_lookup_2.
Qed.

Lemma manifest_event (content : string) :
  manifest_node e = Some (File content) →
  ∀ zipf ev,
    file_event module_globals e zipf "bookmark-folder-organizer" "manifest.json"
    = Ok ev →
    ev = Added "manifest.json" ("manifest.json", content).
Proof.
  intros Hman zipf ev. unfold file_event.
  change (Path.join "bookmark-folder-organizer" "manifest.json")
    with "bookmark-folder-organizer/manifest.json".
  change (SOURCE_DIR module_globals) with "bookmark-folder-organizer".
  rewrite (relpath_under_source _ _ "manifest.json" [])
    by (try done; repeat constructor; done).
  change (should_include module_globals "bookmark-folder-organizer/manifest.json")
    with true.
  cbv iota. destruct (e_fault e _); [done|].
  rewrite lookup_manifest, Hman.
  destruct (copy_failure e zipf _ _) as [[copied x]|]; [done|].
  by intros [= <-].
Qed.

(** The version a completed call of [create_xpi] has read, and what its
    report holds. *)
Lemma create_report_completed (blocked : bool) :
  outcome (create_report L e blocked) = Ok tt →
  ∃ version evs,
    manifest_version L e = Ok version
    ∧ tree_events module_globals e (output_path version)
        (walk_source module_globals e) = (evs, None)
    ∧ e_fault e (OpZipClose (output_path version)) = None
    ∧ create_report L e blocked =
      Report (Ok tt)
        (Some (output_path version, Archive (omap event_member evs) true))
        true
        ((header version ++ (event_line <$> evs))
         ++ footer version (zip_size L (omap event_member evs))
              (length (omap event_member evs))).
Proof.
  unfold create_report.
  destruct (e_fault e (OpMakedirs "dist")); [done|].
  destruct blocked; [done|].
  destruct (manifest_version L e) as [version|x]; [|done].
  unfold package_report. cbv zeta.
  destruct (e_fault e (OpZipOpen _)); [done|].
  unfold zip_result, archive_left, zip_lines.
  destruct (e_fault e (OpZipClose _)) as [x|] eqn:Hclose; [done|].
  destruct (tree_events module_globals e _ _) as [evs [x|]] eqn:Hevs; [done|].
  cbn [loop_result fst].
  destruct (e_fault e (OpGetsize _)); [done|].
  intros _. exists version, evs.
  by rewrite (tree_partial_nil _ _ _ _ _ Hevs), app_nil_r,
    bool_decide_eq_true_2.
Qed.

End ManifestPackaged.

(** ** A source directory of regular files *)

Section FlatDirectory.

Lemma os_walk_flat (e : env) (top : string) (entries : list (string * node)) :
  e_fault e (OpScandir top) = None →
  Forall (λ entry, is_dir entry.2 = false) entries →
  os_walk e top (Dir entries) = [(top, [], entries.*1)].
Proof.
  intros Hscan Hfiles. rewrite os_walk_dir, Hscan.
  f_equal; [f_equal; [f_equal|]|].
  - induction Hfiles as [|[name child] entries Hchild _ IH]; [done|].
    cbn in Hchild. rewrite filter_cons_False by (cbn; rewrite Hchild; intros []).
    exact IH.
  - f_equal. induction Hfiles as [|[name child] entries Hchild _ IH]; [done|].
    cbn in Hchild. rewrite filter_cons_True by (cbn; rewrite Hchild; intros []).
    by rewrite IH.
  - induction Hfiles as [|[name child] entries Hchild _ IH]; [done|].
    cbn in Hchild. destruct child; [|done]. by rewrite IH.
Qed.

Lemma list_find_unique (entries : list (string * node)) (name : string)
    (n : node) :
  NoDup entries.*1 → (name, n) ∈ entries →
  ∃ i, list_find (λ entry, entry.1 = name) entries = Some (i, (name, n)).
Proof.
  induction entries as [|[name' n'] entries IH]; intros Hnd Hin.
  - by apply elem_of_nil in Hin.
  - cbn in Hnd. apply NoDup_cons in Hnd as [Hfresh Hnd].
    apply elem_of_cons in Hin as [[= -> ->]|Hin].
    + exists 0. by apply list_find_head.
    + destruct (IH Hnd Hin) as [i Hi].
      exists (S i). cbn [list_find]. rewrite decide_False.
      * by rewrite Hi.
      * cbn. intros ->. apply Hfresh, list_elem_of_fmap.
        by exists (name, n).
Qed.

Lemma files_events_all (g : globals) (e : env) (zipf root : string)
    (f : string → event) (files : list string) :
  (∀ file, file ∈ files → file_event g e zipf root file = Ok (f file)) →
  files_events g e zipf root files = (f <$> files, None).
Proof.
  induction files as [|file files IH]; intros Hall; [done|].
  cbn [files_events]. rewrite Hall by left.
  rewrite IH; [done|]. intros file' Hin. apply Hall. by right.
Qed.

(** A file directly in the source directory, looked up by its path. *)
Lemma lookup_in_source (e : env) (entries : list (string * node))
    (name path : string) (n : node) :
  e_source e = Some (Dir entries) →
  NoDup entries.*1 → (name, n) ∈ entries →
  plain name →
  Str.split "/" path = ["bookmark-folder-organizer"; name] →
  lookup_path module_globals e path = Some n.
Proof.
  intros Hsrc Hnd Hin (H1 & H2 & H3) Hsplit. unfold lookup_path.
  rewrite Hsplit, (lookup_under_source e _ _ Hsrc), resolve_plain by done.
  by destruct (list_find_unique entries name n Hnd Hin) as [i ->].
Qed.

End FlatDirectory.

(** ** The scenario of the specification *)

Section Scenario.

Context (cwd : string) (now : datetime).
Context (manifest popup test store : string).
Context (entries : list (string * node)).

Local Abbreviation the_files := (scenario_files manifest popup test store).
Local Abbreviation the_env := (listed_env cwd now entries).
Local Abbreviation the_event := (scenario_event manifest popup).

(** The source directory lists the four files, in the order [entries]. *)
Hypothesis listing : entries ≡ₚ the_files.

Lemma scenario_names :
  entries.*1 ≡ₚ ["manifest.json"; "popup.js"; "popup.test.js"; ".DS_Store"].
Proof. by rewrite listing. Qed.

Lemma scenario_nodup : NoDup entries.*1.
Proof.
  rewrite scenario_names.
  by apply (bool_decide_unpack _).
Qed.

Lemma scenario_all_files : Forall (λ entry, is_dir entry.2 = false) entries.
Proof. rewrite listing. by repeat constructor. Qed.

Lemma scenario_manifest : manifest_node the_env = Some (File manifest).
Proof.
  unfold manifest_node, listed_env. cbn [e_source].
  destruct (list_find_unique entries "manifest.json" (File manifest))
    as [i ->]; [apply scenario_nodup| |done].
  rewrite listing. left.
Qed.

Lemma scenario_walk :
  walk_source module_globals the_env
  = [("bookmark-folder-organizer", [], entries.*1)].
Proof.
  unfold walk_source.
  change (SOURCE_DIR module_globals) with "bookmark-folder-organizer".
  rewrite lookup_source_dir. cbn [e_source listed_env].
  apply os_walk_flat; [done|apply scenario_all_files].
Qed.

Lemma scenario_file_event (zipf file : string) :
  file ∈ entries.*1 →
  file_event module_globals the_env zipf "bookmark-folder-organizer" file
  = Ok (the_event file).
Proof.
  rewrite scenario_names, !elem_of_cons, elem_of_nil.
  assert (Hlook : ∀ name path n,
    (name, n) ∈ the_files → plain name →
    Str.split "/" path = ["bookmark-folder-organizer"; name] →
    lookup_path module_globals the_env path = Some n).
  { intros name path n Hin Hplain Hsplit.
    apply (lookup_in_source the_env entries name); try done.
    - apply scenario_nodup.
    - by rewrite listing. }
  unfold file_event.
  change (SOURCE_DIR module_globals) with "bookmark-folder-organizer".
  intros [->|[->|[->|[->|[]]]]].
  - change (Path.join _ _) with "bookmark-folder-organizer/manifest.json".
    rewrite (relpath_under_source _ _ "manifest.json" [])
      by (try done; repeat constructor; done).
    change (should_include _ _) with true. cbv iota. cbn [e_fault listed_env no_fault].
    rewrite (Hlook "manifest.json" _ (File manifest));
      [by rewrite copy_failure_None|left|by repeat split|done].
  - change (Path.join _ _) with "bookmark-folder-organizer/popup.js".
    rewrite (relpath_under_source _ _ "popup.js" [])
      by (try done; repeat constructor; done).
    change (should_include _ _) with true. cbv iota. cbn [e_fault listed_env no_fault].
    rewrite (Hlook "popup.js" _ (File popup));
      [by rewrite copy_failure_None|right; left|by repeat split|done].
  - change (Path.join _ _) with "bookmark-folder-organizer/popup.test.js".
    rewrite (relpath_under_source _ _ "popup.test.js" [])
      by (try done; repeat constructor; done).
    by change (should_include _ _) with false.
  - change (Path.join _ _) with "bookmark-folder-organizer/.DS_Store".
    rewrite (relpath_under_source _ _ ".DS_Store" [])
      by (try done; repeat constructor; done).
    by change (should_include _ _) with false.
Qed.

Lemma scenario_tree_events (zipf : string) :
  tree_events module_globals the_env zipf
    (walk_source module_globals the_env)
  = (the_event <$> entries.*1, None).
Proof.
  rewrite scenario_walk. cbn [tree_events].
  rewrite (files_events_all _ _ _ _ the_event)
    by apply scenario_file_event.
  by rewrite app_nil_r.
Qed.

Lemma scenario_members :
  omap event_member (the_event <$> entries.*1)
  ≡ₚ [("manifest.json", manifest); ("popup.js", popup)].
Proof. by rewrite scenario_names. Qed.

Lemma scenario_lines (line : string) :
  line ∈ event_line <$> (the_event <$>
           ["manifest.json"; "popup.js"; "popup.test.js"; ".DS_Store"]) →
  line ∈ event_line <$> (the_event <$> entries.*1).
Proof. by rewrite scenario_names. Qed.

End Scenario.

(** ** More on substrings and [os.path.join] *)

Lemma suffix_occurs (p s : string) : Str.is_suffix_of p s → Str.occurs_in p s.
Proof. intros [pre ->]. exists pre, "". by rewrite str_app_nil_r. Qed.

Lemma occurs_in_app (p q s : string) :
  Str.occurs_in (p +:+ q) s → Str.occurs_in p s.
Proof.
  intros (pre & suf & ->). exists pre, (q +:+ suf). by rewrite str_app_assoc.
Qed.

Lemma occurs_in_extend (p s pre suf : string) :
  Str.occurs_in p s → Str.occurs_in p (pre +:+ s +:+ suf).
Proof.
  intros (pre' & suf' & ->). exists (pre +:+ pre'), (suf' +:+ suf).
  by rewrite !str_app_assoc.
Qed.

Lemma join_keeps_root (root file : string) :
  Str.startswith file "/" = false →
  ∃ rest, Path.join root file = root +:+ rest.
Proof.
  intros Hrel. unfold Path.join. rewrite Hrel.
  destruct (bool_decide (root = "") || Str.endswith root "/").
  - by exists file.
  - by exists ("/" +:+ file).
Qed.

(** No exclude pattern matches inside or across the name of the source
    directory and the slash after it. *)
Lemma should_include_below_source (rel : string) :
  should_include module_globals ("bookmark-folder-organizer/" +:+ rel)
  = should_include module_globals rel.
Proof. reflexivity. Qed.

(** ** The lines of a report *)

Section LineFacts.

Context (L : library) (e : env).

(** Neither the banner nor an error message. *)
Local Abbreviation plain_line := (λ line : string,
  line ≠ success_banner ∧ ¬ is_error_line line).

Lemma header_plain (version : pyvalue) : Forall plain_line (header version).
Proof.
  unfold header, is_error_line.
  repeat constructor;
    intros H; try destruct H as [[suf H]|[suf H]]; vm_compute in H; discriminate.
Qed.

Lemma event_line_plain (ev : event) : plain_line (event_line ev).
Proof.
  unfold is_error_line.
  destruct ev; split;
    intros H; try destruct H as [[suf H]|[suf H]]; vm_compute in H; discriminate.
Qed.

Lemma footer_no_error (version : pyvalue) (size n : nat) :
  Forall (λ line, ¬ is_error_line line) (footer version size n).
Proof.
  unfold footer, is_error_line.
  repeat constructor; intros [[suf H]|[suf H]]; vm_compute in H; discriminate.
Qed.

Lemma error_line_error (x : exn) :
  is_error_line (error_line x) ∧ error_line x ≠ success_banner.
Proof.
  split.
  - right. exists (exn_str x). unfold error_line. by rewrite str_app_assoc.
  - intros H. vm_compute in H. discriminate.
Qed.

Lemma create_report_lines (blocked : bool) :
  let rp := create_report L e blocked in
  match outcome rp with
  | Ok _ =>
      success_banner ∈ lines rp
      ∧ Forall (λ line, ¬ is_error_line line) (lines rp)
  | Raise _ => Forall plain_line (lines rp)
  end.
Proof.
  cbv zeta. unfold create_report.
  destruct (e_fault e (OpMakedirs "dist")); [by constructor|].
  destruct blocked; [by constructor|].
  destruct (manifest_version L e) as [version|x]; [|by constructor].
  unfold package_report. cbv zeta.
  destruct (e_fault e (OpZipOpen _)); [apply header_plain|].
  assert (Hbody : Forall plain_line
            (header version
             ++ zip_lines module_globals e (output_path version))).
  { apply Forall_app. split; [apply header_plain|].
    unfold zip_lines. apply Forall_fmap, Forall_forall.
    intros ev _. apply event_line_plain. }
  destruct (zip_result module_globals e _) as [n|x]; [|exact Hbody].
  destruct (e_fault e (OpGetsize _)); [exact Hbody|].
  cbn [outcome lines]. split.
  - apply elem_of_app. right. unfold footer. set_solver.
  - apply Forall_app. split; [|apply footer_no_error].
    eapply Forall_impl; [exact Hbody|]. by intros line [_ ?].
Qed.

Lemma create_report_needs_manifest (blocked : bool) :
  outcome (create_report L e blocked) = Ok tt → is_Some (manifest_node e).
Proof.
  unfold create_report.
  destruct (e_fault e (OpMakedirs "dist")); [done|].
  destruct blocked; [done|].
  unfold manifest_version. destruct (e_fault e (OpOpenRead _)); [done|].
  by destruct (manifest_node e).
Qed.

End LineFacts.

(** ** More consequences of the closed form *)

Section MoreRunFacts.

Context (L : library) (e : env).

Lemma not_blocked (s : state) :
  s_dist s ≠ Some NotADirectory → dist_blocked s = false.
Proof. unfold dist_blocked. by destruct (s_dist s) as [[|files]|]. Qed.

Lemma manifest_version_Ok (version : pyvalue) :
  manifest_version L e = Ok version → ∃ m, manifest_node e = Some m.
Proof.
  unfold manifest_version. destruct (e_fault e (OpOpenRead _)); [done|].
  destruct (manifest_node e) as [m|]; [by exists m|done].
Qed.

(** Once [os.makedirs] has gone through, the report says so. *)
Lemma create_report_dir_made :
  e_fault e (OpMakedirs "dist") = None →
  dir_made (create_report L e false) = true.
Proof.
  intros Hmk. unfold create_report. rewrite Hmk.
  destruct (manifest_version L e) as [version|x]; [|done].
  unfold package_report. cbv zeta.
  destruct (e_fault e (OpZipOpen _)); [done|].
  destruct (zip_result module_globals e _); [|done].
  by destruct (e_fault e (OpGetsize _)).
Qed.

Lemma s_dist_apply (rp : report) (s : state) :
  dist_blocked s = false → dir_made rp = true →
  s_dist (apply_report rp s) = Some (Directory (dist_files (apply_report rp s))).
Proof.
  intros Hb Hmade. rewrite dist_files_apply. unfold apply_report. cbn [s_dist].
  destruct (written rp) as [[path a]|]; [done|].
  rewrite Hmade. by apply prepare_dist.
Qed.

End MoreRunFacts.

(** ** A failure of [os.path.getsize] alone *)

Lemma getsize_failure_same_walk (x : exn) (e : env) (zipf : string) :
  tree_events module_globals (with_getsize_failure x e) zipf
    (walk_source module_globals (with_getsize_failure x e))
  = tree_events module_globals e zipf (walk_source module_globals e).
Proof. destruct e as [cwd source now fault]. reflexivity. Qed.

Lemma getsize_failure_same_version (L : library) (x : exn) (e : env) :
  manifest_version L (with_getsize_failure x e) = manifest_version L e.
Proof. destruct e as [cwd source now fault]. reflexivity. Qed.

Lemma getsize_failure_manifest (x : exn) (e : env) :
  manifest_node (with_getsize_failure x e) = manifest_node e.
Proof. done. Qed.

Lemma getsize_failure_package (L : library) (x : exn) (e : env)
    (version : pyvalue) :
  package_report L (with_getsize_failure x e) version =
  let zipf := output_path version in
  match e_fault e (OpZipOpen zipf) with
  | Some y => Report (Raise y) None true (header version)
  | None =>
      Report
        (match zip_result module_globals e zipf with
         | Ok _ => Raise x
         | Raise y => Raise y
         end)
        (Some (zipf, archive_left module_globals e zipf)) true
        (header version ++ zip_lines module_globals e zipf)
  end.
Proof.
  destruct e as [cwd source now fault]. unfold package_report. cbv zeta.
  cbn [e_fault with_getsize_failure e_cwd e_source e_now].
  destruct (fault (OpZipOpen _)); [done|].
  change (zip_result module_globals (with_getsize_failure x ?e') ?z)
    with (zip_result module_globals e' z).
  by destruct (zip_result module_globals _ _).
Qed.

(** ** The events of the loop and the files of the walk *)

Section WalkFacts.

Context (g : globals) (e : env) (zipf : string).

Lemma file_event_of_path (root file : string) (ev : event) :
  file_event g e zipf root file = Ok ev →
  event_of_path g e (Path.join root file) ev.
Proof.
  unfold file_event, event_of_path, packaged, progress_line. cbv zeta.
  destruct (Path.relpath _ _ _) as [rel|]; [|done].
  destruct (should_include g _).
  - destruct (e_fault e _); [done|].
    destruct (lookup_path g e _) as [n|]; [|done].
    destruct (copy_failure e zipf _ n) as [[copied x]|]; [done|].
    intros [= <-]. cbn. split; [done|]. split; [done|]. split; [done|by eexists].
  - intros [= <-]. cbn. split; [done|]. split; [done|].
    split; [by intros [? ?]|done].
Qed.

Lemma files_events_paths (root : string) (files : list string)
    (evs : list event) (err : option exn) :
  files_events g e zipf root files = (evs, err) →
  Forall2 (event_of_path g e) (take (length evs) (Path.join root <$> files)) evs
  ∧ length evs ≤ length files
  ∧ (err = None → length evs = length files).
Proof.
  revert evs. induction files as [|file files IH]; intros evs.
  - intros [= <- <-]. by repeat split; try constructor.
  - cbn [files_events].
    destruct (file_event g e zipf root file) as [ev|x] eqn:Hev.
    + destruct (files_events g e zipf root files) as [evs' err'].
      intros [= <- <-]. destruct (IH evs' eq_refl) as (Hall & Hle & Hend).
      cbn. split; [|split; [lia|intros ?; f_equal; auto]].
      constructor; [by apply file_event_of_path|done].
    + intros [= <- <-]. cbn. split; [constructor|]. split; [lia|done].
Qed.

Lemma tree_events_paths (walk : list (string * list string * list string))
    (evs : list event) (err : option exn) :
  tree_events g e zipf walk = (evs, err) →
  Forall2 (event_of_path g e) (take (length evs) (walk_paths walk)) evs
  ∧ length evs ≤ length (walk_paths walk)
  ∧ (err = None → length evs = length (walk_paths walk)).
Proof.
  revert evs. induction walk as [|[[root dirs] files] walk IH]; intros evs.
  - intros [= <- <-]. by repeat split; try constructor.
  - cbn [tree_events walk_paths].
    destruct (files_events g e zipf root files) as [evs1 err1] eqn:H1.
    apply files_events_paths in H1 as (Hall1 & Hle1 & Hend1).
    rewrite length_app, length_fmap.
    destruct err1 as [x|].
    + intros [= <- <-]. split; [|split; [lia|done]].
      rewrite take_app_le by (rewrite length_fmap; lia). done.
    + specialize (Hend1 eq_refl).
      destruct (tree_events g e zipf walk) as [evs2 err2].
      intros [= <- <-]. destruct (IH evs2 eq_refl) as (Hall2 & Hle2 & Hend2).
      rewrite length_app. split; [|split; [lia|intros ?; rewrite Hend2; auto]].
      rewrite Hend1 in Hall1 |- *.
      rewrite <- (length_fmap (Path.join root) files) at 1.
      rewrite take_app_add. apply Forall2_app; [|done].
      by rewrite <- (length_fmap (Path.join root) files), firstn_all in Hall1.
Qed.

Lemma events_of_paths (paths : list string) (evs : list event) :
  Forall2 (event_of_path g e) paths evs →
  omap event_member evs = omap (packaged g e) paths
  ∧ event_line <$> evs = progress_line g e <$> paths
  ∧ length (omap event_member evs) = length (included g paths).
Proof.
  unfold included.
  induction 1 as [|p ev paths evs (Hm & Hl & Hin) _ (IHm & IHl & IHn)]; [done|].
  cbn [omap list_omap fmap list_fmap]. rewrite <- Hm, Hl, IHm, IHl.
  split; [done|]. split; [done|].
  destruct (event_member ev) as [m|].
  - rewrite filter_cons_True by (apply Hin; by eexists). cbn.
    f_equal. by rewrite <- IHm.
  - rewrite filter_cons_False; [by rewrite <- IHm|].
    intros Hp. apply Hin in Hp. by destruct Hp.
Qed.

End WalkFacts.

Section PartialFacts.

Context (g : globals) (e : env) (zipf : string).

Lemma file_partial_truncated (root file : string) :
  truncated_at g e [Path.join root file] 0 (file_partial g e zipf root file).
Proof.
  unfold truncated_at, file_partial. cbv zeta.
  destruct (Path.relpath _ _ _) as [rel|] eqn:Hrel; [|by left].
  destruct (e_fault e _); [by left|].
  destruct (lookup_path g e _) as [[content|entries]|] eqn:Hlook; [| |by left].
  - destruct (should_include g _) eqn:Hin; [|by left].
    unfold copy_failure.
    destruct (first_copy_fault _ _ _) as [[copied x]|]; [|by left].
    right. exists (Path.join root file), rel, content, copied.
    unfold packaged. by rewrite Hin, Hrel, Hlook.
  - destruct (should_include g _); by left.
Qed.

Lemma files_partial_truncated (root : string) (files : list string)
    (evs : list event) (err : option exn) :
  files_events g e zipf root files = (evs, err) →
  truncated_at g e (Path.join root <$> files) (length evs)
    (files_partial g e zipf root files).
Proof.
  revert evs. induction files as [|file files IH]; intros evs; [by left|].
  cbn [files_events files_partial].
  destruct (file_event g e zipf root file) as [ev|x].
  - destruct (files_events g e zipf root files) as [evs' err'].
    intros [= <- <-].
    destruct (IH evs' eq_refl) as [->|(path & arcname & content & copied & H)];
      [by left|].
    right. by exists path, arcname, content, copied.
  - intros [= <- <-].
    destruct (file_partial_truncated root file)
      as [->|(path & arcname & content & copied & Hp & H)]; [by left|].
    right. exists path, arcname, content, copied. by rewrite <- Hp.
Qed.

Lemma tree_partial_truncated
    (walk : list (string * list string * list string))
    (evs : list event) (err : option exn) :
  tree_events g e zipf walk = (evs, err) →
  truncated_at g e (walk_paths walk) (length evs) (tree_partial g e zipf walk).
Proof.
  revert evs. induction walk as [|[[root dirs] files] walk IH]; intros evs;
    [by left|].
  cbn [tree_events tree_partial walk_paths].
  destruct (files_events g e zipf root files) as [evs1 [x|]] eqn:H1.
  - intros [= <- <-].
    destruct (files_partial_truncated _ _ _ _ H1)
      as [->|(path & arcname & content & copied & Hp & H)]; [by left|].
    right. exists path, arcname, content, copied. split; [|done].
    by apply lookup_app_l_Some.
  - pose proof (files_events_paths g e zipf _ _ _ _ H1) as (_ & _ & Hlen).
    specialize (Hlen eq_refl).
    destruct (tree_events g e zipf walk) as [evs2 err2].
    intros [= <- <-].
    destruct (IH evs2 eq_refl) as [->|(path & arcname & content & copied & Hp & H)];
      [by left|].
    right. exists path, arcname, content, copied. split; [|done].
    rewrite length_app, lookup_app_r by (rewrite length_fmap; lia).
    rewrite length_fmap. by replace (length evs1 + length evs2 - length files)
      with (length evs2) by lia.
Qed.

End PartialFacts.

(** ** Paths built from valid names *)

Section SplitFacts.

Lemma rev_app_rev_app (s1 s2 s3 : string) :
  String.rev_app (String.rev_app s1 s2) s3 = String.rev_app s2 (s1 +:+ s3).
Proof.
  revert s2. induction s1 as [|a s1 IH]; intros s2; [done|].
  cbn [String.rev_app]. by rewrite IH.
Qed.

Lemma contains_cons_false (a : ascii) (s : string) :
  Str.contains (String a s) "/" = false →
  a ≠ "/"%char ∧ Str.contains s "/" = false.
Proof.
  cbn [Str.contains Str.startswith].
  intros [H1 H2]%orb_false_elim. split; [|done].
  rewrite andb_true_r in H1. apply bool_decide_eq_false in H1. congruence.
Qed.

Lemma split_go_no_sep (cur s : string) :
  Str.contains s "/" = false →
  Str.split_go "/" cur s = [String.rev (String.rev_app s cur)].
Proof.
  revert cur. induction s as [|a s IH]; intros cur Hs; [done|].
  apply contains_cons_false in Hs as [Ha Hs].
  cbn [Str.split_go]. rewrite bool_decide_eq_false_2 by done.
  by rewrite IH.
Qed.

(** A string without a slash is its only field. *)
Lemma split_no_sep (s : string) :
  Str.contains s "/" = false → Str.split "/" s = [s].
Proof.
  intros Hs. unfold Str.split. rewrite split_go_no_sep by done.
  unfold String.rev. by rewrite rev_app_rev_app, str_app_nil_r.
Qed.

Lemma split_snoc (a name : string) :
  Str.contains name "/" = false →
  Str.split "/" (a +:+ "/" +:+ name) = Str.split "/" a ++ [name].
Proof.
  intros Hname. unfold Str.split.
  change ("/" +:+ name) with (String "/" name).
  rewrite split_go_sep. fold (Str.split "/" name).
  by rewrite split_no_sep.
Qed.

Lemma split_trailing_sep (pre : string) :
  Str.split "/" (pre +:+ "/") = Str.split "/" pre ++ [""].
Proof. unfold Str.split. by rewrite split_go_sep. Qed.

Lemma startswith_no_sep (name : string) :
  Str.contains name "/" = false → Str.startswith name "/" = false.
Proof. destruct name; [done|]. cbn. by intros [? _]%orb_false_elim. Qed.

Lemma endswith_snoc (a name : string) :
  valid_name name → Str.endswith (a +:+ "/" +:+ name) "/" = false.
Proof.
  intros [(Hne & _ & _) Hname].
  destruct (Str.endswith _ _) eqn:Hend; [|done].
  apply endswith_spec in Hend as [pre Hpre].
  apply (f_equal (Str.split "/")) in Hpre.
  rewrite split_snoc, split_trailing_sep in Hpre by done.
  by apply app_inj_tail in Hpre as [_ ?].
Qed.

Lemma endswith_valid (name : string) :
  valid_name name → Str.endswith name "/" = false.
Proof.
  intros [(Hne & _ & _) Hname].
  destruct (Str.endswith _ _) eqn:Hend; [|done].
  apply endswith_spec in Hend as [pre Hpre].
  apply (f_equal (Str.split "/")) in Hpre.
  rewrite split_no_sep, split_trailing_sep in Hpre by done.
  destruct (Str.split "/" pre) as [|? [|? ?]]; cbn in Hpre; congruence.
Qed.

Lemma endswith_app (s1 s2 : string) :
  s2 ≠ "" → Str.endswith (s1 +:+ s2) "/" = Str.endswith s2 "/".
Proof.
  intros Hne. induction s1 as [|c s1 IH]; [done|].
  rewrite str_app_cons. cbn [Str.endswith]. rewrite IH.
  rewrite bool_decide_eq_false_2; [done|].
  intros [= _ H]. destruct s1, s2; done.
Qed.

(** Joining a valid name to a path that does not end in a slash. *)
Lemma join_valid (a name : string) :
  a ≠ "" → Str.endswith a "/" = false → valid_name name →
  Path.join a name = a +:+ "/" +:+ name.
Proof.
  intros Ha Hend [_ Hname]. unfold Path.join.
  by rewrite startswith_no_sep, bool_decide_eq_false_2, Hend.
Qed.

Lemma join_empty (name : string) : Path.join "" name = name.
Proof. unfold Path.join. by destruct (Str.startswith name "/"). Qed.

Lemma join_all_snoc (a : string) (comps : list string) (name : string) :
  Path.join_all a (comps ++ [name]) = Path.join (Path.join_all a comps) name.
Proof. revert a. induction comps as [|c comps IH]; intros a; [done|apply IH]. Qed.

Lemma rel_dir_snoc (comps : list string) (name : string) :
  rel_dir (comps ++ [name]) = Path.join (rel_dir comps) name.
Proof.
  destruct comps as [|c comps]; cbn [rel_dir app].
  - by rewrite join_empty.
  - apply join_all_snoc.
Qed.

(** The path [a/c1/.../cn] that [join_all] builds from valid names. *)
Lemma join_all_valid (comps : list string) :
  Forall valid_name comps →
  ∀ a, a ≠ "" → Str.endswith a "/" = false →
    Path.join_all a comps ≠ ""
    ∧ Str.endswith (Path.join_all a comps) "/" = false
    ∧ Str.split "/" (Path.join_all a comps) = Str.split "/" a ++ comps
    ∧ ∀ pre, Path.join_all (pre +:+ "/" +:+ a) comps
             = pre +:+ "/" +:+ Path.join_all a comps.
Proof.
  induction 1 as [|c comps Hc _ IH]; intros a Ha Hend.
  - cbn [Path.join_all]. by rewrite app_nil_r.
  - cbn [Path.join_all]. rewrite join_valid by done.
    destruct (IH (a +:+ "/" +:+ c)) as (Hne & Hend' & Hsplit & Hpre).
    { by destruct a. }
    { by apply endswith_snoc. }
    split; [done|]. split; [done|]. split.
    + rewrite Hsplit, split_snoc by apply Hc. by rewrite <- (assoc_L (++)).
    + intros pre. rewrite join_valid; [| |by rewrite !endswith_app|done].
      * rewrite <- Hpre. by rewrite !str_app_assoc.
      * destruct pre; done.
Qed.

End SplitFacts.

(** ** The walk of a well-formed tree *)

(** Induction on a tree, with the property at hand for every entry of a
    directory. *)
Lemma node_ind_nested (P : node → Prop) :
  (∀ content, P (File content)) →
  (∀ entries, Forall (λ entry, P entry.2) entries → P (Dir entries)) →
  ∀ n, P n.
Proof.
  intros Hfile Hdir. fix IH 1. intros [content|entries]; [apply Hfile|].
  apply Hdir. induction entries as [|[name child] entries IHentries].
  - constructor.
  - constructor; [apply IH|apply IHentries].
Qed.

Lemma tree_events_app (g : globals) (e : env) (zipf : string)
    (walk1 walk2 : list (string * list string * list string))
    (evs1 : list event) :
  tree_events g e zipf walk1 = (evs1, None) →
  tree_events g e zipf (walk1 ++ walk2) =
  (evs1 ++ (tree_events g e zipf walk2).1, (tree_events g e zipf walk2).2).
Proof.
  revert evs1. induction walk1 as [|[[root dirs] files] walk1 IH]; intros evs1.
  - intros [= <-]. cbn [app]. by destruct (tree_events g e zipf walk2).
  - cbn [app tree_events].
    destruct (files_events g e zipf root files) as [evs [x|]]; [done|].
    destruct (tree_events g e zipf walk1) as [evs' err] eqn:H1.
    intros [= <- ->]. rewrite (IH evs' eq_refl). cbn [fst snd].
    by rewrite (assoc_L (++)).
Qed.

Section TreeWalk.

Context (e : env) (zipf : string) (root : node).
Hypothesis source : e_source e = Some root.
Hypothesis nothing_fails : ∀ op, e_fault e op = None.

Local Abbreviation source_path := (Path.join_all "bookmark-folder-organizer").

(** The directory [n], with the directories [above] it, is where the
    fields [comps] lead from the source directory. *)
Local Abbreviation leads_to := (λ (comps : list string) (above : list node)
    (n : node),
  ∀ rest, resolve [working_directory module_globals e] root (comps ++ rest)
          = resolve above n rest).

Lemma source_path_facts (comps : list string) :
  Forall valid_name comps →
  Str.startswith (source_path comps) "/" = false
  ∧ Str.split "/" (source_path comps) = "bookmark-folder-organizer" :: comps
  ∧ source_path comps ≠ ""
  ∧ Str.endswith (source_path comps) "/" = false
  ∧ (comps ≠ [] →
     source_path comps = "bookmark-folder-organizer/" +:+ rel_dir comps).
Proof.
  intros Hcomps.
  destruct (join_all_valid comps Hcomps "bookmark-folder-organizer")
    as (Hne & Hend & Hsplit & _); [done|done|].
  assert (Hrel : comps ≠ [] →
            source_path comps = "bookmark-folder-organizer/" +:+ rel_dir comps).
  { destruct comps as [|c comps]; [done|]. intros _.
    apply Forall_cons in Hcomps as [Hc Hcomps].
    cbn [Path.join_all rel_dir]. rewrite join_valid by done.
    destruct (join_all_valid comps Hcomps c) as (_ & _ & _ & Hpre).
    { by destruct Hc as [[? _] _]. }
    { by apply endswith_valid. }
    by rewrite Hpre. }
  split; [|done].
  destruct comps as [|c comps]; [done|]. by rewrite Hrel.
Qed.

Lemma leads_to_child (comps : list string) (above : list node)
    (entries : list (string * node)) (name : string) (child : node) :
  leads_to comps above (Dir entries) →
  NoDup entries.*1 → (name, child) ∈ entries → valid_name name →
  leads_to (comps ++ [name]) (Dir entries :: above) child.
Proof.
  intros Hleads Hnd Hin [(H1 & H2 & H3) _] rest.
  rewrite <- (assoc_L (++)). cbn [app].
  rewrite Hleads, resolve_plain by done.
  by destruct (list_find_unique entries name child Hnd Hin) as [i ->].
Qed.

Lemma file_event_listed (comps : list string) (above : list node)
    (entries : list (string * node)) (name content : string) :
  Forall valid_name comps → leads_to comps above (Dir entries) →
  NoDup entries.*1 → (name, File content) ∈ entries → valid_name name →
  file_event module_globals e zipf (source_path comps) name
  = Ok (listed_event module_globals (Path.join (rel_dir comps) name, content)).
Proof.
  intros Hcomps Hleads Hnd Hin Hname.
  pose proof (leads_to_child _ _ _ _ _ Hleads Hnd Hin Hname []) as Hfile.
  rewrite app_nil_r in Hfile. cbn [resolve] in Hfile.
  unfold file_event. cbv zeta.
  rewrite <- join_all_snoc, <- rel_dir_snoc.
  assert (Hall : Forall valid_name (comps ++ [name]))
    by (apply Forall_app; split; [done|by constructor]).
  destruct (source_path_facts _ Hall) as (Hrel & Hsplit & _ & _ & Hpath).
  assert (Hlook : lookup_path module_globals e (source_path (comps ++ [name]))
                  = Some (File content)).
  { unfold lookup_path. by rewrite Hsplit, (lookup_under_source e root). }
  rewrite Hlook, nothing_fails, copy_failure_None by done.
  change (SOURCE_DIR module_globals) with "bookmark-folder-organizer".
  destruct (comps ++ [name]) as [|first others] eqn:Hfirst.
  { by destruct comps. }
  rewrite (relpath_under_source _ _ first others Hrel Hsplit).
  2:{ eapply Forall_impl; [exact Hall|]. by intros ? [? _]. }
  rewrite Hpath by done.
  change (should_include module_globals ("bookmark-folder-organizer/" +:+ ?rel))
    with (should_include module_globals rel).
  unfold listed_event. cbn [fst rel_dir member_of].
  by destruct (should_include module_globals _).
Qed.

Lemma files_events_listed (comps : list string) (above : list node)
    (entries : list (string * node)) :
  Forall valid_name comps → leads_to comps above (Dir entries) →
  NoDup entries.*1 → Forall valid_name entries.*1 →
  ∀ es, es ⊆ entries →
    files_events module_globals e zipf (source_path comps)
      (filter (λ entry, ¬ is_dir entry.2) es).*1
    = (listed_event module_globals <$> own_files (rel_dir comps) es, None).
Proof.
  intros Hcomps Hleads Hnd Hvalid es.
  induction es as [|[name child] es IH]; intros Hsub; [done|].
  assert (Hin : (name, child) ∈ entries) by (apply Hsub; left).
  assert (Hes : es ⊆ entries) by (intros x Hx; apply Hsub; by right).
  assert (Hname : valid_name name).
  { rewrite Forall_forall in Hvalid. apply Hvalid, list_elem_of_fmap.
    by exists (name, child). }
  unfold own_files. cbn [omap list_omap snd fst].
  destruct child as [content|sub].
  - rewrite filter_cons_True by (cbn; tauto).
    cbn [fmap list_fmap fst files_events].
    rewrite (file_event_listed comps above entries name content) by done.
    fold (own_files (rel_dir comps) es).
    by rewrite (IH Hes).
  - rewrite filter_cons_False by (cbn; tauto).
    by apply IH.
Qed.

Lemma tree_events_listed (n : node) :
  well_formed n →
  ∀ comps above,
    Forall valid_name comps → leads_to comps above n →
    tree_events module_globals e zipf (os_walk e (source_path comps) n)
    = (listed_event module_globals <$> tree_files (rel_dir comps) n, None).
Proof.
  induction n as [content|entries IH] using node_ind_nested; [done|].
  intros Hwf comps above Hcomps Hleads.
  inversion Hwf as [|? Hnd Hvalid Hsub]; subst.
  rewrite os_walk_dir, nothing_fails. cbn [tree_files].
  set (children := (fix walk_children (es : list (string * node)) :=
         match es with
         | [] => []
         | (name, child) :: es' =>
             os_walk e (Path.join (source_path comps) name) child
             ++ walk_children es'
         end)).
  set (below := (fix below (es : list (string * node)) :=
         match es with
         | [] => []
         | (name, child) :: es' =>
             tree_files (Path.join (rel_dir comps) name) child ++ below es'
         end)).
  assert (Hbelow : ∀ es, es ⊆ entries →
    tree_events module_globals e zipf (children es)
    = (listed_event module_globals <$> below es, None)).
  { induction es as [|[name child] es IHes]; intros Hes; [done|].
    assert (Hin : (name, child) ∈ entries) by (apply Hes; left).
    assert (Hname : valid_name name).
    { rewrite Forall_forall in Hvalid. apply Hvalid, list_elem_of_fmap.
      by exists (name, child). }
    cbn [children below].
    rewrite <- join_all_snoc, <- rel_dir_snoc.
    rewrite Forall_forall in IH, Hsub.
    erewrite tree_events_app.
    2:{ apply (IH (name, child) Hin (Hsub _ Hin) _ (Dir entries :: above)).
        - apply Forall_app. split; [done|by constructor].
        - by apply leads_to_child. }
    rewrite IHes by (intros x Hx; apply Hes; by right).
    cbn [fst snd]. by rewrite fmap_app. }
  cbn [tree_events].
  rewrite (files_events_listed comps above entries) by done.
  rewrite Hbelow by done. by rewrite fmap_app.
Qed.

End TreeWalk.

Lemma listed_members (g : globals) (listing : list (string * string)) :
  omap event_member (listed_event g <$> listing)
  = filter (λ file, should_include g file.1 = true) listing.
Proof.
  induction listing as [|file listing IH]; [done|].
  cbn [fmap list_fmap omap list_omap]. unfold listed_event at 1.
  destruct (should_include g file.1) eqn:Hin; cbn [event_member].
  - rewrite filter_cons_True by done. by rewrite <- IH.
  - rewrite filter_cons_False by congruence. by rewrite <- IH.
Qed.

Section ListingNames.

Lemma rel_dir_split (comps : list string) :
  Forall valid_name comps → comps ≠ [] →
  Str.split "/" (rel_dir comps) = comps
  ∧ Str.startswith (rel_dir comps) "/" = false.
Proof.
  destruct comps as [|c comps]; [done|]. intros [Hc Hcomps]%Forall_cons _.
  cbn [rel_dir].
  destruct (join_all_valid comps Hcomps c) as (_ & _ & Hsplit & _).
  { by destruct Hc as [[? _] _]. }
  { by apply endswith_valid. }
  rewrite (split_no_sep c) in Hsplit by apply Hc. split; [done|].
  destruct (Str.startswith _ "/") eqn:Hstart; [|done].
  apply startswith_spec in Hstart as [suf Hsuf].
  rewrite Hsuf in Hsplit.
  change (Str.split "/" ("/" +:+ suf)) with ("" :: Str.split "/" suf) in Hsplit.
  injection Hsplit as <- _. by destruct Hc as [[? _] _].
Qed.

(** The names of the listing of a well-formed tree are distinct, and the
    fields of each are the fields of the directory and then valid names. *)
Lemma tree_files_names (n : node) :
  well_formed n →
  ∀ comps, Forall valid_name comps →
    NoDup (tree_files (rel_dir comps) n).*1
    ∧ ∀ name, name ∈ (tree_files (rel_dir comps) n).*1 →
        ∃ more, Str.split "/" name = comps ++ more
                ∧ more ≠ [] ∧ Forall valid_name more
                ∧ Str.startswith name "/" = false.
Proof.
  induction n as [content|entries IH] using node_ind_nested.
  { intros _ comps _. split; [constructor|]. by intros name []%elem_of_nil. }
  intros Hwf comps Hcomps.
  inversion Hwf as [|? Hnd Hvalid Hsub]; subst.
  cbn [tree_files].
  set (below := (fix below (es : list (string * node)) :=
         match es with
         | [] => []
         | (name, child) :: es' =>
             tree_files (Path.join (rel_dir comps) name) child ++ below es'
         end)).
  assert (Hsnoc : ∀ name, valid_name name →
            Str.split "/" (Path.join (rel_dir comps) name) = comps ++ [name]
            ∧ Str.startswith (Path.join (rel_dir comps) name) "/" = false).
  { intros name Hname. rewrite <- rel_dir_snoc. apply rel_dir_split.
    - apply Forall_app. split; [done|by constructor].
    - by destruct comps. }
  (* the files of the directory itself *)
  assert (Hown : ∀ es, NoDup es.*1 → Forall valid_name es.*1 →
    NoDup (own_files (rel_dir comps) es).*1
    ∧ ∀ name, name ∈ (own_files (rel_dir comps) es).*1 →
        ∃ file, file ∈ es.*1 ∧ valid_name file
                ∧ Str.split "/" name = comps ++ [file]
                ∧ Str.startswith name "/" = false).
  { induction es as [|[file child] es IHes]; cbn [fmap list_fmap fst].
    { intros _ _. split; [constructor|]. by intros name []%elem_of_nil. }
    intros [Hfresh Hnd']%NoDup_cons [Hfile Hvalid']%Forall_cons.
    destruct (IHes Hnd' Hvalid') as [IHnd IHin].
    unfold own_files. cbn [omap list_omap snd fst].
    fold (own_files (rel_dir comps) es).
    destruct child as [content|sub].
    - cbn [fmap list_fmap fst]. split.
      + apply NoDup_cons. split; [|done].
        intros (file' & Hin' & _ & Hsplit' & _)%IHin.
        destruct (Hsnoc file Hfile) as [Hsplit _].
        rewrite Hsplit in Hsplit'.
        apply app_inv_head in Hsplit'. by injection Hsplit' as <-.
      + intros name [->|Hin]%elem_of_cons.
        * exists file. split; [left|]. split; [done|]. by apply Hsnoc.
        * destruct (IHin name Hin) as (file' & Hin' & Hrest).
          exists file'. split; [by right|done].
    - split; [done|]. intros name Hin.
      destruct (IHin name Hin) as (file' & Hin' & Hrest).
      exists file'. split; [by right|done]. }
  (* the files of the subdirectories *)
  assert (Hbelow : ∀ es, es ⊆ entries → NoDup es.*1 →
    NoDup (below es).*1
    ∧ ∀ name, name ∈ (below es).*1 →
        ∃ sub more, sub ∈ es.*1 ∧ Str.split "/" name = comps ++ sub :: more
                    ∧ more ≠ [] ∧ Forall valid_name (sub :: more)
                    ∧ Str.startswith name "/" = false).
  { induction es as [|[sub child] es IHes]; cbn [fmap list_fmap fst].
    { intros _ _. split; [constructor|]. by intros name []%elem_of_nil. }
    intros Hes [Hfresh Hnd']%NoDup_cons.
    assert (Hin : (sub, child) ∈ entries) by (apply Hes; left).
    assert (Hname : valid_name sub).
    { rewrite Forall_forall in Hvalid. apply Hvalid, list_elem_of_fmap.
      by exists (sub, child). }
    destruct IHes as [IHnd IHin];
      [intros x Hx; apply Hes; by right|done|].
    rewrite Forall_forall in IH, Hsub.
    destruct (IH _ Hin (Hsub _ Hin) (comps ++ [sub])) as [Hnd1 Hin1].
    { apply Forall_app. split; [done|by constructor]. }
    rewrite rel_dir_snoc in Hnd1, Hin1.
    cbn [below]. rewrite fmap_app. split.
    - apply NoDup_app. split; [done|]. split; [|done].
      intros name (more & Hsplit & _)%Hin1
        (sub' & more' & Hsub' & Hsplit' & _)%IHin.
      rewrite Hsplit, <- (assoc_L (++)) in Hsplit'.
      apply app_inv_head in Hsplit'. by injection Hsplit' as <- _.
    - intros name [Hin'|Hin']%elem_of_app.
      + destruct (Hin1 name Hin') as (more & Hsplit & Hne & Hmore & Hrel).
        exists sub, more. split; [left|].
        rewrite Hsplit, <- (assoc_L (++)). split; [done|]. split; [done|].
        split; [by constructor|done].
      + destruct (IHin name Hin') as (sub' & more & Hsub' & Hrest).
        exists sub', more. split; [by right|done]. }
  destruct (Hown entries Hnd Hvalid) as [Hnd1 Hin1].
  destruct (Hbelow entries) as [Hnd2 Hin2]; [done|done|].
  rewrite fmap_app. split.
  - apply NoDup_app. split; [done|]. split; [|done].
    intros name (file & _ & _ & Hsplit & _)%Hin1
      (sub & more & _ & Hsplit' & Hne & _)%Hin2.
    rewrite Hsplit in Hsplit'. apply app_inv_head in Hsplit'.
    by injection Hsplit' as _ <-.
  - intros name [Hin|Hin]%elem_of_app.
    + destruct (Hin1 name Hin) as (file & _ & Hfile & Hsplit & Hrel).
      exists [file]. split; [done|]. split; [done|]. split; [by constructor|done].
    + destruct (Hin2 name Hin) as (sub & more & _ & Hsplit & _ & Hmore & Hrel).
      by exists (sub :: more).
Qed.

End ListingNames.

Section FaultFree.

Context (L : library) (e : env) (entries : list (string * node)).
Context (content : string) (d : gmap string pyvalue).

Hypothesis source : e_source e = Some (Dir entries).
Hypothesis tree : well_formed (Dir entries).
Hypothesis manifest : ("manifest.json", File content) ∈ entries.
Hypothesis parsed : json_loads L content = Ok (PyDict d).
Hypothesis nothing_fails : ∀ op, e_fault e op = None.

Local Abbreviation version := (from_option id (PyStr "1.0.0") (d !! "version")).
Local Abbreviation listing := (tree_files "" (Dir entries)).
Local Abbreviation packed :=
  (filter (λ file, should_include module_globals file.1 = true) listing).

Lemma fault_free_manifest : manifest_node e = Some (File content).
Proof.
  inversion tree as [|? Hnd Hvalid Hsub]; subst.
  unfold manifest_node. rewrite source.
  by destruct (list_find_unique entries _ _ Hnd manifest) as [i ->].
Qed.

(** The report of [create_xpi] on a well-formed tree when nothing fails. *)
Lemma fault_free_report :
  create_report L e false =
  Report (Ok tt) (Some (output_path version, Archive packed true)) true
    ((header version
      ++ (event_line <$> (listed_event module_globals <$> listing)))
     ++ footer version (zip_size L packed) (length packed)).
Proof.
  assert (Hver : manifest_version L e = Ok version).
  { unfold manifest_version. by rewrite nothing_fails, fault_free_manifest, parsed. }
  assert (Hevs : tree_events module_globals e (output_path version)
                   (walk_source module_globals e)
                 = (listed_event module_globals <$> listing, None)).
  { unfold walk_source.
    change (SOURCE_DIR module_globals) with "bookmark-folder-organizer".
    rewrite lookup_source_dir, source.
    by apply (tree_events_listed e _ (Dir entries) source nothing_fails
                (Dir entries) tree [] [working_directory module_globals e]). }
  unfold create_report. rewrite nothing_fails, Hver.
  unfold package_report. cbv zeta. rewrite !nothing_fails.
  unfold zip_result, archive_left, zip_lines. rewrite nothing_fails, Hevs.
  rewrite (tree_partial_nil _ _ _ _ _ Hevs), app_nil_r.
  cbn [loop_result fst members]. rewrite listed_members.
  by rewrite bool_decide_eq_true_2.
Qed.

End FaultFree.

Lemma nested_tree_well_formed : well_formed nested_tree.
Proof.
  unfold nested_tree.
  repeat match goal with
         | |- well_formed _ => constructor
         | |- NoDup _ => by apply (bool_decide_unpack _)
         | |- Forall _ _ => cbn [fmap list_fmap fst]; constructor
         | |- valid_name _ => by split; [repeat split|]
         | |- _ => progress cbn [snd]
         end.
Qed.

(** ** The archive under its name *)

(** What a run that has read the version does under the name of the
    archive. *)
Lemma run_names_archive (L : library) (e : env) (s : state)
    (version : pyvalue) :
  manifest_version L e = Ok version →
  e_fault e (OpMakedirs "dist") = None →
  dist_blocked s = false →
  let zipf := output_path version in
  (∃ more, s_stdout (run L e s).2 = s_stdout s ++ header version ++ more)
  ∧ (e_fault e (OpZipOpen zipf) = None →
     dist_files (run L e s).2 !! zipf
     = Some (archive_left module_globals e zipf))
  ∧ ((create_xpi L module_globals e s).1 = Ok tt →
     ∃ a before after,
       dist_files (run L e s).2 !! zipf = Some a
       ∧ finalized a = true
       ∧ s_stdout (run L e s).2 =
         s_stdout s ++ before ++ ["File: " +:+ zipf] ++ after).
Proof.
  intros Hver Hmk Hb. cbv zeta.
  destruct (manifest_version_Ok L e version Hver) as [m Hman].
  rewrite create_xpi_report, run_eq_report.
  rewrite (run_report_checked L e _ _ Hman), Hb. cbv zeta.
  unfold create_report. rewrite Hmk, Hver.
  unfold package_report. cbv zeta.
  destruct (e_fault e (OpZipOpen _)) as [x|].
  { cbn [outcome lines snd fst]. split; [|split; [done|done]].
    eexists. unfold apply_report. cbn [s_stdout lines]. reflexivity. }
  unfold zip_result, archive_left, zip_lines.
  destruct (e_fault e (OpZipClose _)) as [x|].
  { cbn [outcome lines written snd fst]. split; [|split; [|done]].
    - eexists. unfold apply_report. cbn [s_stdout lines].
      rewrite <- !(assoc_L (++)). reflexivity.
    - intros _. rewrite dist_files_apply. cbn [written].
      by rewrite lookup_insert_eq. }
  destruct (tree_events module_globals e _ _) as [evs [x|]].
  { cbn [loop_result outcome lines written snd fst]. split; [|split; [|done]].
    - eexists. unfold apply_report. cbn [s_stdout lines].
      rewrite <- !(assoc_L (++)). reflexivity.
    - intros _. rewrite dist_files_apply. cbn [written].
      by rewrite lookup_insert_eq. }
  cbn [loop_result].
  destruct (e_fault e (OpGetsize _)) as [x|].
  { cbn [outcome lines written snd fst]. split; [|split; [|done]].
    - eexists. unfold apply_report. cbn [s_stdout lines].
      rewrite <- !(assoc_L (++)). reflexivity.
    - intros _. rewrite dist_files_apply. cbn [written].
      by rewrite lookup_insert_eq. }
  cbn [outcome lines written snd fst]. split; [|split].
  - eexists. unfold apply_report. cbn [s_stdout lines].
    rewrite <- !(assoc_L (++)). reflexivity.
  - intros _. rewrite dist_files_apply. cbn [written].
    by rewrite lookup_insert_eq.
  - intros _.
    exists (Archive (omap event_member evs
                     ++ tree_partial module_globals e (output_path version)
                          (walk_source module_globals e)) true),
      (header version ++ (event_line <$> evs)
       ++ [ nl +:+ Str.repeat_char "=" 60;
            "✓ Package created successfully!";
            Str.repeat_char "=" 60 ]),
      [ "Size: " +:+ format_kb
          (zip_size L (omap event_member evs
                       ++ tree_partial module_globals e (output_path version)
                            (walk_source module_globals e))) +:+ " KB";
        "Files: " +:+ pretty (0 + length (omap event_member evs));
        nl +:+ "Next steps:";
        "1. Test: Load the .xpi in Firefox (about:debugging)";
        "2. Publish: Upload to addons.mozilla.org";
        "3. Share: Distribute the .xpi file directly" ].
    rewrite dist_files_apply. cbn [written].
    rewrite lookup_insert_eq. split; [done|]. split; [done|].
    unfold apply_report, footer. cbn [s_stdout lines fst members].
    by rewrite <- !(assoc_L (++)).
Qed.

(** * The claims *)


(** C2. The scenario: the source directory holds [manifest.json], whose
    version is ["2.1.0"], [popup.js], [popup.test.js] and [.DS_Store], in
    any listing order and with any bytes in them; nothing fails.  The run
    writes the archive [dist/bookmark-folder-organizer-2.1.0.xpi] and no
    other file; its members are [manifest.json] and [popup.js], the other two
    files are reported as skipped, and the count reported is 2. *)
Theorem scenario_2_1_0
    (L : library) (cwd : string) (now : datetime)
    (manifest popup test store : string) (entries : list (string * node))
    (d : gmap string pyvalue) (s : state) :
  entries ≡ₚ scenario_files manifest popup test store →
  json_loads L manifest = Ok (PyDict d) →
  d !! "version" = Some (PyStr "2.1.0") →
  s_dist s ≠ Some NotADirectory →
  let s' := (run L (listed_env cwd now entries) s).2 in
  ∃ a progress size,
    dist_files s' !! "dist/bookmark-folder-organizer-2.1.0.xpi" = Some a
    ∧ (∀ path, dist_files s' !! path ≠ dist_files s !! path →
         path = "dist/bookmark-folder-organizer-2.1.0.xpi")
    ∧ members a ≡ₚ [("manifest.json", manifest); ("popup.js", popup)]
    ∧ finalized a = true
    ∧ progress ≡ₚ [ "  ✓ Added: manifest.json"; "  ✓ Added: popup.js";
                    "  ✗ Skipped: popup.test.js"; "  ✗ Skipped: .DS_Store" ]
    ∧ s_stdout s' =
      s_stdout s
      ++ [ "Creating Firefox extension package...";
           "Source: bookmark-folder-organizer/";
           "Output: dist/bookmark-folder-organizer-2.1.0.xpi";
           "Version: 2.1.0" +:+ nl ]
      ++ progress
      ++ [ nl +:+ Str.repeat_char "=" 60;
           "✓ Package created successfully!";
           Str.repeat_char "=" 60;
           "File: dist/bookmark-folder-organizer-2.1.0.xpi";
           "Size: " +:+ format_kb size +:+ " KB";
           "Files: 2";
           nl +:+ "Next steps:";
           "1. Test: Load the .xpi in Firefox (about:debugging)";
           "2. Publish: Upload to addons.mozilla.org";
           "3. Share: Distribute the .xpi file directly" ].
Proof.
  intros Hlist Hparse Hkey Hd. cbv zeta.
  pose proof (scenario_manifest cwd now manifest popup test store entries Hlist)
    as Hman.
  assert (Hver : manifest_version L (listed_env cwd now entries)
                 = Ok (PyStr "2.1.0")).
  { unfold manifest_version. rewrite Hman. cbn [e_fault listed_env no_fault].
    by rewrite Hparse, Hkey. }
  assert (Hb : dist_blocked s = false).
  { unfold dist_blocked. by destruct (s_dist s) as [[|files]|]. }
  rewrite run_eq_report, (run_report_checked L _ _ _ Hman), Hb. cbv zeta.
  unfold create_report. rewrite Hver. cbn [e_fault listed_env no_fault].
  fold (listed_env cwd now entries).
  unfold package_report. cbv zeta. cbn [e_fault listed_env no_fault].
  fold (listed_env cwd now entries).
  unfold zip_result, archive_left, zip_lines.
  cbn [e_fault listed_env no_fault]. fold (listed_env cwd now entries).
  rewrite (tree_partial_nil _ _ _ _ _
             (scenario_tree_events cwd now manifest popup test store entries
                Hlist _)), app_nil_r.
  rewrite (scenario_tree_events cwd now manifest popup test store entries Hlist).
  change (output_path (PyStr "2.1.0"))
    with "dist/bookmark-folder-organizer-2.1.0.xpi".
  set (evs := scenario_event manifest popup <$> entries.*1).
  pose proof (scenario_members manifest popup test store entries Hlist)
    as Hmembers. fold evs in Hmembers.
  assert (Hcount : length (omap event_member evs) = 2) by by rewrite Hmembers.
  cbn [loop_result fst outcome]. rewrite Hcount.
  exists (Archive (omap event_member evs) true), (event_line <$> evs),
    (zip_size L (omap event_member evs)).
  cbn [snd]. rewrite dist_files_apply. cbn [written members finalized].
  split; [by rewrite lookup_insert_eq|]. split; [|split; [done|split; [done|split]]].
  - intros path Hne.
    destruct (decide ("dist/bookmark-folder-organizer-2.1.0.xpi" = path));
      [done|by rewrite lookup_insert_ne in Hne].
  - unfold evs.
    by rewrite (scenario_names manifest popup test store entries Hlist).
  - unfold apply_report. cbn [s_stdout lines]. unfold header, footer.
    by rewrite <- !(assoc_L (++)).
Qed.

(** The scenario with the files in the order given and some bytes in them. *)
Lemma scenario_2_1_0_witness :
  scenario_files manifest_2_1_0 "document.title;" "test();" "Bud1"
  ≡ₚ scenario_files manifest_2_1_0 "document.title;" "test();" "Bud1"
  ∧ json_loads sample_library manifest_2_1_0
    = Ok (PyDict {[ "version" := PyStr "2.1.0" ]})
  ∧ ({[ "version" := PyStr "2.1.0" ]} : gmap string pyvalue) !! "version"
    = Some (PyStr "2.1.0")
  ∧ s_dist fresh ≠ Some NotADirectory
  ∧ ∃ a,
      dist_files (run sample_library scenario_env fresh).2
        !! "dist/bookmark-folder-organizer-2.1.0.xpi" = Some a
      ∧ members a ≡ₚ [ ("manifest.json", manifest_2_1_0);
                       ("popup.js", "document.title;") ]
      ∧ "Files: 2" ∈ s_stdout (run sample_library scenario_env fresh).2.
Proof.
  split; [reflexivity|]. split; [reflexivity|]. split; [reflexivity|].
  split; [discriminate|].
  destruct (scenario_2_1_0 sample_library "/home/dev/extension" sample_time
              manifest_2_1_0 "document.title;" "test();" "Bud1"
              (scenario_files manifest_2_1_0 "document.title;" "test();" "Bud1")
              {[ "version" := PyStr "2.1.0" ]} fresh)
    as (a & progress & size & Ha & _ & Hm & _ & Hp & Hout);
    [reflexivity|reflexivity|reflexivity|discriminate|].
  exists a. split; [exact Ha|]. split; [exact Hm|].
  change (run sample_library scenario_env fresh)
    with (run sample_library
            (listed_env "/home/dev/extension" sample_time
               (scenario_files manifest_2_1_0 "document.title;" "test();" "Bud1"))
            fresh).
  rewrite Hout. rewrite !elem_of_app. right. right.
  rewrite !elem_of_cons. tauto.
Defined.

(** C3. When the manifest parses to a dictionary without a [version] key,
    the output filename is built with the default ["1.0.0"]: the run
    announces [dist/bookmark-folder-organizer-1.0.0.xpi] as its output, that
    is the only file of the output directory it creates or changes, and it
    does create it unless opening it fails. *)
Theorem absent_version_defaults
    (L : library) (e : env) (s : state) (content : string)
    (d : gmap string pyvalue) :
  manifest_node e = Some (File content) →
  json_loads L content = Ok (PyDict d) →
  d !! "version" = None →
  e_fault e (OpMakedirs "dist") = None →
  s_dist s ≠ Some NotADirectory →
  e_fault e (OpOpenRead "bookmark-folder-organizer/manifest.json") = None →
  let s' := (run L e s).2 in
  (∃ more,
     s_stdout s' =
     s_stdout s ++
       [ "Creating Firefox extension package...";
         "Source: bookmark-folder-organizer/";
         "Output: dist/bookmark-folder-organizer-1.0.0.xpi";
         "Version: 1.0.0" +:+ nl ] ++ more)
  ∧ (∀ path, dist_files s' !! path ≠ dist_files s !! path →
       path = "dist/bookmark-folder-organizer-1.0.0.xpi")
  ∧ (e_fault e (OpZipOpen "dist/bookmark-folder-organizer-1.0.0.xpi") = None →
     is_Some (dist_files s' !! "dist/bookmark-folder-organizer-1.0.0.xpi")).
Proof.
  intros Hman Hparse Hkey Hmk Hd Hopen.
  assert (Hver : manifest_version L e = Ok (PyStr "1.0.0")).
  { unfold manifest_version. by rewrite Hopen, Hman, Hparse, Hkey. }
  assert (Hb : dist_blocked s = false).
  { unfold dist_blocked. by destruct (s_dist s) as [[|files]|]. }
  cbv zeta. rewrite run_eq_report, (run_report_checked L e _ _ Hman), Hb.
  cbv zeta. unfold create_report. rewrite Hmk, Hver.
  unfold package_report. cbv zeta.
  change (output_path (PyStr "1.0.0"))
    with "dist/bookmark-folder-organizer-1.0.0.xpi".
  set (zipf := "dist/bookmark-folder-organizer-1.0.0.xpi").
  assert (Hins : ∀ (a : archive) (path : string),
            <[zipf := a]> (dist_files s) !! path ≠ dist_files s !! path →
            path = zipf).
  { intros a path Hne. destruct (decide (zipf = path)) as [|Hp]; [done|].
    by rewrite lookup_insert_ne in Hne. }
  destruct (e_fault e (OpZipOpen zipf)) as [x|].
  { cbn [outcome written dir_made lines snd]. split; [|split].
    - eexists. unfold apply_report. cbn [s_stdout lines]. reflexivity.
    - intros path. by rewrite dist_files_apply.
    - done. }
  destruct (zip_result module_globals e zipf) as [n|x];
    [destruct (e_fault e (OpGetsize zipf)) as [x|]|];
    cbn [outcome written dir_made lines snd];
    (split; [|split];
     [ eexists; unfold apply_report; cbn [s_stdout lines];
       rewrite <- ?(assoc_L (++)); reflexivity
     | intros path; rewrite dist_files_apply; cbn [written]; apply Hins
     | intros _; rewrite dist_files_apply; cbn [written];
       by rewrite lookup_insert_eq ]).
Qed.

(** A manifest that is the empty dictionary. *)
Lemma absent_version_defaults_witness :
  manifest_node unversioned_env = Some (File "{}")
  ∧ json_loads sample_library "{}" = Ok (PyDict ∅)
  ∧ (∅ : gmap string pyvalue) !! "version" = None
  ∧ s_stdout (run sample_library unversioned_env fresh).2 !! 2
    = Some "Output: dist/bookmark-folder-organizer-1.0.0.xpi"
  ∧ is_Some (dist_files (run sample_library unversioned_env fresh).2
               !! "dist/bookmark-folder-organizer-1.0.0.xpi").
Proof.
  split; [reflexivity|]. split; [reflexivity|]. split; [reflexivity|].
  destruct (absent_version_defaults sample_library unversioned_env fresh "{}" ∅)
    as ([more Hout] & _ & Hfile);
    [reflexivity|reflexivity|reflexivity|reflexivity|discriminate|reflexivity|].
  split.
  - rewrite Hout. reflexivity.
  - apply Hfile. reflexivity.
Defined.

(** A manifest that parses, but not to a dictionary, has no [get]: the
    run ends in the handler and no archive is opened. *)
Lemma list_manifest_is_reported :
  let s' := (run sample_library list_manifest_env fresh).2 in
  s_stdout s'
  = [ nl +:+ "✗ Error creating package: 'list' object has no attribute 'get'" ]
  ∧ dist_files s' = ∅.
Proof. by vm_compute. Qed.

(** C4. When nothing in the working directory is named by [SOURCE_DIR], or
    what is there does not directly contain [manifest.json], the run prints
    an error message and returns without having touched the output
    directory: no archive file is created (not even the directory is), and
    no file handle has been opened. *)
Theorem missing_input_reports_error_and_writes_nothing
    (L : library) (e : env) (s : state) :
  e_source e = None
  ∨ (is_Some (e_source e)
     ∧ ∀ entries, e_source e = Some (Dir entries) → "manifest.json" ∉ entries.*1) →
  ∃ message more,
    run L e s = (Ok tt, set_stdout (s_stdout s ++ message :: more) s)
    ∧ Str.is_prefix_of "Error: " message
    ∧ s_dist (run L e s).2 = s_dist s
    ∧ dist_files (run L e s).2 = dist_files s.
Proof.
  intros [Hsrc | [Hsrc Hman%manifest_node_None]].
  - rewrite run_source_missing by done.
    eexists _, _. split; [done|]. split; [|done]. by eexists.
  - rewrite run_manifest_missing by done.
    eexists _, _. split; [done|]. split; [|done]. by eexists.
Qed.

(** A working directory without the source directory. *)
Lemma missing_input_witness :
  e_source empty_env = None
  ∧ ∃ message more,
      run sample_library empty_env fresh
      = (Ok tt, set_stdout (s_stdout fresh ++ message :: more) fresh)
      ∧ Str.is_prefix_of "Error: " message
      ∧ dist_files (run sample_library empty_env fresh).2 = ∅.
Proof.
  split; [reflexivity|].
  destruct (missing_input_reports_error_and_writes_nothing
              sample_library empty_env fresh)
    as (message & more & Hrun & Hmsg & _ & Hfiles); [left; reflexivity|].
  exists message, more. split; [exact Hrun|]. split; [exact Hmsg|].
  rewrite Hfiles. reflexivity.
Defined.

(** C5. When the manifest is there but the parser raises on it, the run
    ends normally with one line printed, the diagnostic of the handler with
    the text of the exception in it; no archive file is created or changed,
    so the default version is not put to use, and every handle is closed.
    When the run gets as far as parsing (the output directory could be made
    sure of and the manifest opened), the exception reported is the
    parser's. *)
Theorem unparsable_manifest_is_reported
    (L : library) (e : env) (s : state) (content : string) (x : exn) :
  manifest_node e = Some (File content) →
  json_loads L content = Raise x →
  ∃ x',
    (run L e s).1 = Ok tt
    ∧ s_stdout (run L e s).2
      = s_stdout s ++ [nl +:+ "✗ Error creating package: " +:+ exn_str x']
    ∧ Str.occurs_in (exn_str x') (nl +:+ "✗ Error creating package: " +:+ exn_str x')
    ∧ dist_files (run L e s).2 = dist_files s
    ∧ s_open (run L e s).2 = s_open s
    ∧ (e_fault e (OpMakedirs "dist") = None →
       s_dist s ≠ Some NotADirectory →
       e_fault e (OpOpenRead "bookmark-folder-organizer/manifest.json") = None →
       x' = x).
Proof.
  intros Hman Hparse.
  assert (Hver : ∃ x', manifest_version L e = Raise x'
    ∧ (e_fault e (OpOpenRead "bookmark-folder-organizer/manifest.json") = None
       → x' = x)).
  { unfold manifest_version. rewrite Hman, Hparse.
    destruct (e_fault e (OpOpenRead _)) as [x'|]; [by exists x'|by exists x]. }
  destruct Hver as (xv & Hver & Hxv).
  assert (Hcreate : ∃ x', create_report L e (dist_blocked s)
                          = Report (Raise x') None
                              (dir_made (create_report L e (dist_blocked s))) []
    ∧ (e_fault e (OpMakedirs "dist") = None → s_dist s ≠ Some NotADirectory →
       e_fault e (OpOpenRead "bookmark-folder-organizer/manifest.json") = None →
       x' = x)).
  { unfold create_report. destruct (e_fault e (OpMakedirs "dist")) as [x'|].
    { by exists x'. }
    destruct (dist_blocked s) eqn:Hb.
    { eexists. split; [done|]. intros _ Hd. unfold dist_blocked in Hb.
      by destruct (s_dist s) as [[|files]|]. }
    rewrite Hver. exists xv. split; [done|]. auto. }
  destruct Hcreate as (x' & Hcreate & Hx').
  exists x'. rewrite run_eq_report, (run_report_checked L e _ _ Hman).
  cbv zeta. rewrite Hcreate. cbn [outcome written dir_made lines app fst snd].
  split; [done|]. split; [done|]. split.
  { by exists (nl +:+ "✗ Error creating package: "), "";
      rewrite str_app_nil_r, str_app_assoc. }
  split; [by rewrite dist_files_apply|]. split; [done|]. exact Hx'.
Qed.

(** A manifest that is not JSON. *)
Lemma unparsable_manifest_witness :
  manifest_node broken_manifest_env = Some (File "version 2")
  ∧ json_loads sample_library "version 2"
    = Raise (Exn "JSONDecodeError" "Expecting value: line 1 column 1 (char 0)")
  ∧ s_stdout (run sample_library broken_manifest_env fresh).2
    = [ nl +:+ "✗ Error creating package: "
        +:+ "Expecting value: line 1 column 1 (char 0)" ]
  ∧ dist_files (run sample_library broken_manifest_env fresh).2 = ∅.
Proof.
  split; [reflexivity|]. split; [reflexivity|].
  destruct (unparsable_manifest_is_reported sample_library broken_manifest_env
              fresh "version 2"
              (Exn "JSONDecodeError" "Expecting value: line 1 column 1 (char 0)"))
    as (x' & _ & Hout & _ & Hfiles & _ & Hx'); [reflexivity|reflexivity|].
  rewrite Hout, Hfiles, Hx'; [|reflexivity|discriminate|reflexivity].
  split; reflexivity.
Defined.

(** C6. The archive of a run goes under the name made of [EXTENSION_NAME],
    a hyphen, the version read from the manifest, and [.xpi], in
    [OUTPUT_DIR].  Nothing else in the output directory is created or
    changed.  Once the version has been read and the output directory made
    sure of, the run announces that path as its output; unless opening it
    fails, a file is under that path after the run, written by this run
    whatever was there before; and a call of [create_xpi] that returns
    leaves it finished and names it again in the summary.  The time of the
    run has no part in any of this: a run at any other time does the same,
    so two runs for the same version write to the same file. *)
Theorem archive_name_is_name_and_version (L : library) (e : env) (s : state) :
  let name := λ version,
    OUTPUT_DIR module_globals +:+ "/"
    +:+ EXTENSION_NAME module_globals +:+ "-"
    +:+ py_format version +:+ ".xpi" in
  (∀ path, dist_files (run L e s).2 !! path ≠ dist_files s !! path →
     ∃ version,
       (read_version L module_globals e s).1 = Ok version
       ∧ path = name version)
  ∧ (∀ version,
       (read_version L module_globals e s).1 = Ok version →
       e_fault e (OpMakedirs "dist") = None →
       s_dist s ≠ Some NotADirectory →
       (∃ more,
          s_stdout (run L e s).2 =
          s_stdout s
          ++ [ "Creating Firefox extension package...";
               "Source: bookmark-folder-organizer/";
               "Output: " +:+ name version;
               "Version: " +:+ py_format version +:+ nl ] ++ more)
       ∧ (e_fault e (OpZipOpen (name version)) = None →
          ∃ a,
            dist_files (run L e s).2 !! name version = Some a
            ∧ ∀ s0, s_dist s0 ≠ Some NotADirectory →
                dist_files (run L e s0).2 !! name version = Some a)
       ∧ ((create_xpi L module_globals e s).1 = Ok tt →
          ∃ a before after,
            dist_files (run L e s).2 !! name version = Some a
            ∧ finalized a = true
            ∧ s_stdout (run L e s).2 =
              s_stdout s ++ before ++ ["File: " +:+ name version] ++ after))
  ∧ (∀ t : datetime,
       run L (Env (e_cwd e) (e_source e) t (e_fault e)) s = run L e s).
Proof.
  cbv zeta. split; [|split].
  - intros path. rewrite run_eq_report, read_version_eq. cbn [fst snd].
    rewrite dist_files_apply, run_report_written.
    destruct (e_source e); [|done]. destruct (manifest_node e); [|done].
    destruct (written _) as [[zipf a]|] eqn:Hw; [|done].
    intros Hne. destruct (decide (zipf = path)) as [<-|Hp].
    + apply create_report_written in Hw as (version & Hv & -> & _).
      by exists version.
    + by rewrite lookup_insert_ne in Hne.
  - intros version. rewrite read_version_eq. cbn [fst].
    intros Hver Hmk Hb%not_blocked.
    change (OUTPUT_DIR module_globals +:+ "/"
            +:+ EXTENSION_NAME module_globals +:+ "-"
            +:+ py_format version +:+ ".xpi") with (output_path version).
    destruct (run_names_archive L e s version Hver Hmk Hb)
      as (Hout & Hfile & Hdone).
    split; [exact Hout|]. split; [|exact Hdone].
    intros Hopen. exists (archive_left module_globals e (output_path version)).
    split; [by apply Hfile|].
    intros s0 Hb0%not_blocked.
    by apply (run_names_archive L e s0 version Hver Hmk Hb0).
  - intros t. apply run_clock_irrelevant.
Qed.

(** The scenario: the archive of version 2.1.0 is announced and written. *)
Lemma archive_name_witness :
  (read_version sample_library module_globals scenario_env fresh).1
  = Ok (PyStr "2.1.0")
  ∧ e_fault scenario_env (OpMakedirs "dist") = None
  ∧ s_dist fresh ≠ Some NotADirectory
  ∧ e_fault scenario_env (OpZipOpen "dist/bookmark-folder-organizer-2.1.0.xpi")
    = None
  ∧ s_stdout (run sample_library scenario_env fresh).2 !! 2
    = Some "Output: dist/bookmark-folder-organizer-2.1.0.xpi"
  ∧ is_Some (dist_files (run sample_library scenario_env fresh).2
               !! "dist/bookmark-folder-organizer-2.1.0.xpi").
Proof.
  split; [reflexivity|]. split; [reflexivity|]. split; [discriminate|].
  split; [reflexivity|].
  destruct (archive_name_is_name_and_version sample_library scenario_env fresh)
    as (_ & Hnamed & _).
  destruct (Hnamed (PyStr "2.1.0")) as ([more Hout] & Hfile & _);
    [reflexivity|reflexivity|discriminate|].
  split.
  - rewrite Hout. reflexivity.
  - destruct Hfile as (a & Ha & _); [reflexivity|].
    exists a. exact Ha.
Defined.

(** C7. Two runs in a row on the same source tree and manifest, the second
    at any later time: the second leaves the output directory as the first
    left it, so the archive has the same members under the same names, and it
    prints the same lines.  More generally, a file written by a run is
    written the same by a run on the same tree that starts from any other
    content of the output directory. *)
Theorem repeated_run_same_archive
    (L : library) (e : env) (s : state) (t : datetime) :
  let first := run L e s in
  let second := run L (Env (e_cwd e) (e_source e) t (e_fault e)) first.2 in
  second.1 = first.1
  ∧ dist_files second.2 = dist_files first.2
  ∧ (∃ out, s_stdout first.2 = s_stdout s ++ out
            ∧ s_stdout second.2 = s_stdout first.2 ++ out)
  ∧ (∀ (s0 : state) (path : string),
       dist_blocked s0 = dist_blocked s →
       dist_files first.2 !! path ≠ dist_files s !! path →
       dist_files (run L e s0).2 !! path = dist_files first.2 !! path).
Proof.
  cbv zeta.
  rewrite run_clock_irrelevant, !run_eq_report. cbn [fst snd].
  rewrite dist_blocked_apply.
  set (rp := run_report L e (dist_blocked s)).
  split; [done|]. split; [|split].
  - rewrite !dist_files_apply.
    destruct (written rp) as [[path a]|]; [|done].
    by rewrite insert_insert_eq.
  - by exists (lines rp).
  - intros s0 path Hb. rewrite run_eq_report, Hb. fold rp. cbn [snd].
    rewrite !dist_files_apply.
    destruct (written rp) as [[zipf a]|]; [|done].
    intros Hne. destruct (decide (zipf = path)) as [<-|Hp].
    + by rewrite !lookup_insert_eq.
    + by rewrite lookup_insert_ne in Hne.
Qed.

(** The scenario run twice, and once more from an output directory that is
    already there. *)
Lemma repeated_run_witness :
  let first := run sample_library scenario_env fresh in
  let second := run sample_library scenario_env first.2 in
  dist_blocked (State (Some (Directory ∅)) [] []) = dist_blocked fresh
  ∧ dist_files second.2 = dist_files first.2
  ∧ dist_files (run sample_library scenario_env (State (Some (Directory ∅)) [] [])).2
      !! "dist/bookmark-folder-organizer-2.1.0.xpi"
    = dist_files first.2 !! "dist/bookmark-folder-organizer-2.1.0.xpi".
Proof.
  cbv zeta. split; [reflexivity|].
  destruct (repeated_run_same_archive sample_library scenario_env fresh
              sample_time) as (_ & Hsame & _ & Hany).
  split; [exact Hsame|].
  apply Hany; [reflexivity|]. vm_compute. discriminate.
Defined.

(** C8, as the script has it.  Every run ends normally with the handles it
    opened closed again, also when [create_xpi] fails partway through, and
    no file of the output directory is ever removed.  In particular the
    archive is not deleted on failure: once it has been opened it stays
    under its path, with whatever had been written to it, and its end record
    is written unless closing the archive fails as well. *)
Theorem failed_run_closes_handles_keeps_archive
    (L : library) (e : env) (s : state) :
  let s' := (run L e s).2 in
  (run L e s).1 = Ok tt
  ∧ s_open s' = s_open s
  ∧ (∀ path, is_Some (dist_files s !! path) → is_Some (dist_files s' !! path))
  ∧ (∀ version,
       (read_version L module_globals e s).1 = Ok version →
       e_fault e (OpMakedirs "dist") = None →
       s_dist s ≠ Some NotADirectory →
       e_fault e (OpZipOpen (output_path version)) = None →
       ∃ a,
         dist_files s' !! output_path version = Some a
         ∧ (finalized a = true ↔
            e_fault e (OpZipClose (output_path version)) = None)).
Proof.
  cbv zeta. rewrite run_eq_report. cbn [fst snd].
  split; [done|]. split; [done|]. split.
  - intros path. rewrite dist_files_apply.
    destruct (written _) as [[zipf a]|]; [|done].
    destruct (decide (zipf = path)) as [<-|Hp].
    + by rewrite lookup_insert_eq.
    + by rewrite lookup_insert_ne.
  - intros version. rewrite read_version_eq. cbn [fst].
    intros Hver Hmk Hd Hopen.
    assert (Hman : ∃ m, manifest_node e = Some m).
    { unfold manifest_version in Hver. destruct (e_fault e (OpOpenRead _)); [done|].
      destruct (manifest_node e) as [m|]; [by exists m|done]. }
    destruct Hman as [m Hman].
    assert (Hb : dist_blocked s = false).
    { unfold dist_blocked. by destruct (s_dist s) as [[|files]|]. }
    rewrite dist_files_apply, run_report_written, Hman, Hb.
    destruct (manifest_node_source e m Hman) as [n ->].
    unfold create_report. rewrite Hmk, Hver.
    unfold package_report. cbv zeta. rewrite Hopen.
    exists (archive_left module_globals e (output_path version)).
    split.
    { destruct (zip_result module_globals e _);
        [destruct (e_fault e (OpGetsize _))|];
        cbn [written]; by rewrite lookup_insert_eq. }
    unfold archive_left. cbn [finalized]. apply bool_decide_eq_true.
Qed.

(** The run on the disk that fills up: the archive has been opened, and
    stays. *)
Lemma failed_run_witness :
  (read_version sample_library module_globals full_disk_env fresh).1
  = Ok (PyStr "2.1.0")
  ∧ e_fault full_disk_env (OpMakedirs "dist") = None
  ∧ s_dist fresh ≠ Some NotADirectory
  ∧ e_fault full_disk_env (OpZipOpen (output_path (PyStr "2.1.0"))) = None
  ∧ s_open (run sample_library full_disk_env fresh).2 = s_open fresh
  ∧ ∃ a,
      dist_files (run sample_library full_disk_env fresh).2
        !! output_path (PyStr "2.1.0") = Some a
      ∧ finalized a ≠ true.
Proof.
  split; [reflexivity|]. split; [reflexivity|]. split; [discriminate|].
  split; [reflexivity|].
  destruct (failed_run_closes_handles_keeps_archive sample_library
              full_disk_env fresh) as (_ & Hopen & _ & Hleft).
  split; [exact Hopen|].
  destruct (Hleft (PyStr "2.1.0"))
    as (a & Ha & Hfin); [reflexivity|reflexivity|discriminate|reflexivity|].
  exists a. split; [exact Ha|].
  intros Htrue. apply Hfin in Htrue. vm_compute in Htrue. discriminate.
Defined.

(** Where the claim of C8 fails: on a disk that fills up while the second
    file is being added, the run ends with the archive left under its path,
    without its end record and without [popup.js], which the filter lets
    through.  So it is not the case that every archive the run leaves on
    disk is a finished one.  The handles are closed. *)
Lemma full_disk_leaves_broken_archive :
  let s' := (run sample_library full_disk_env fresh).2 in
  ¬ (∀ path a, dist_files s' !! path = Some a → finalized a = true)
  ∧ dist_files s' !! "dist/bookmark-folder-organizer-2.1.0.xpi"
    = Some (Archive [ ("manifest.json", manifest_2_1_0) ] false)
  ∧ should_include module_globals "bookmark-folder-organizer/popup.js" = true
  ∧ s_stdout s' !! 5
    = Some (nl +:+ "✗ Error creating package: [Errno 28] No space left on device")
  ∧ s_open s' = [].
Proof.
  cbv zeta.
  assert (Hleft : dist_files (run sample_library full_disk_env fresh).2
                    !! "dist/bookmark-folder-organizer-2.1.0.xpi"
                  = Some (Archive [ ("manifest.json", manifest_2_1_0) ] false))
    by by vm_compute.
  split.
  - intros Hall. by specialize (Hall _ _ Hleft).
  - split; [exact Hleft|]. by vm_compute.
Qed.

(** The other failure the claim names, a source file that cannot be read:
    the archive is closed with its end record, and stays on disk without the
    file that failed and those after it. *)
Lemma unreadable_file_leaves_partial_archive :
  let s' := (run sample_library unreadable_env fresh).2 in
  dist_files s' !! "dist/bookmark-folder-organizer-2.1.0.xpi"
  = Some (Archive [ ("manifest.json", manifest_2_1_0) ] true)
  ∧ s_stdout s' !! 5
    = Some (nl +:+ "✗ Error creating package: [Errno 13] Permission denied: "
            +:+ "'bookmark-folder-organizer/popup.js'")
  ∧ s_open s' = [].
Proof. by vm_compute. Qed.

(** A read error in the middle of [popup.js]: the archive is closed with
    its end record, and stays on disk with the manifest and the part of
    [popup.js] that had been copied, which no progress line reports. *)
Lemma read_error_leaves_truncated_member :
  let s' := (run sample_library io_error_env fresh).2 in
  dist_files s' !! "dist/bookmark-folder-organizer-2.1.0.xpi"
  = Some (Archive [ ("manifest.json", manifest_2_1_0);
                    ("popup.js", "document") ] true)
  ∧ s_stdout s' !! 4 = Some "  ✓ Added: manifest.json"
  ∧ s_stdout s' !! 5
    = Some (nl +:+ "✗ Error creating package: [Errno 5] Input/output error")
  ∧ s_open s' = [].
Proof. by vm_compute. Qed.

(** C9. The list bound to [INCLUDE_PATTERNS] has no part in a run: with any
    other list in its place [main] does the same, and [should_include]
    answers [True] for every path that no exclude pattern matches.  So
    [notes.txt], which no include pattern matches (not even by the test the
    script applies to exclude patterns), is packaged. *)
Theorem include_patterns_never_consulted
    (patterns : list string) (L : library) (e : env) (s : state)
    (file_path : string) :
  main L (with_include_patterns patterns) e s = run L e s
  ∧ should_include (with_include_patterns patterns) file_path
    = should_include module_globals file_path
  ∧ (should_include (with_include_patterns patterns) file_path = true ↔
     ∀ pattern, pattern ∈ EXCLUDE_PATTERNS module_globals →
       ¬ Str.occurs_in pattern file_path
       ∧ ¬ Str.is_suffix_of (Str.remove_char "*" pattern) file_path)
  ∧ Forall (λ pattern,
        pattern_matches "bookmark-folder-organizer/notes.txt" pattern = false
        ∧ pattern_matches "notes.txt" pattern = false)
      (INCLUDE_PATTERNS module_globals)
  ∧ should_include module_globals "bookmark-folder-organizer/notes.txt" = true
  ∧ dist_files (run sample_library notes_env fresh).2
      !! "dist/bookmark-folder-organizer-2.1.0.xpi"
    = Some (Archive [ ("manifest.json", manifest_2_1_0);
                      ("notes.txt", "remember the icons") ] true).
Proof.
  split; [apply main_ignores_include_patterns|].
  split; [done|].
  split; [apply (should_include_true_iff (with_include_patterns patterns))|].
  split; [by repeat constructor|].
  split; [done|].
  by vm_compute.
Qed.

(** C10, as the script has it.  A run is successful when [create_xpi]
    returns without raising.  The path of the manifest under the source
    directory is matched by no exclude pattern, as a substring or as a
    suffix.  In a successful run the manifest was there to be read, so
    [main] went through its checks to the same call and ends as it ends, and
    the count of files reported is the number of members of the archive.
    When the walk could list the source directory, the archive holds a
    member named [manifest.json] and the count is at least 1.  A source
    directory that cannot be listed is not an error to [os.walk]: the loop
    then has nothing to go through. *)
Theorem completed_run_packages_manifest
    (L : library) (e : env) (s s' : state) :
  create_xpi L module_globals e s = (Ok tt, s') →
  (∀ pattern, pattern ∈ EXCLUDE_PATTERNS module_globals →
     ¬ Str.occurs_in pattern "bookmark-folder-organizer/manifest.json"
     ∧ ¬ Str.is_suffix_of (Str.remove_char "*" pattern)
           "bookmark-folder-organizer/manifest.json")
  ∧ run L e s = (Ok tt, s')
  ∧ ∃ version a before size,
      (read_version L module_globals e s).1 = Ok version
      ∧ dist_files s' !! output_path version = Some a
      ∧ s_stdout s' =
        s_stdout s ++ before
          ++ footer version size (length (members a))
      ∧ (e_fault e (OpScandir "bookmark-folder-organizer") = None →
         "manifest.json" ∈ (members a).*1 ∧ 1 ≤ length (members a)).
Proof.
  rewrite create_xpi_report. intros [= Hout <-].
  destruct (create_report_completed L e _ Hout)
    as (version & evs & Hver & Hevs & Hclose & Hrp).
  assert (Hman : ∃ content, manifest_node e = Some (File content)).
  { unfold manifest_version in Hver. destruct (e_fault e (OpOpenRead _)); [done|].
    destruct (manifest_node e) as [[content|]|]; [by exists content|done|done]. }
  destruct Hman as [content Hman].
  split; [by apply should_include_true_iff|]. split.
  - rewrite run_eq_report, (run_report_checked L e _ _ Hman). cbv zeta.
    by rewrite Hout.
  - exists version, (Archive (omap event_member evs) true),
      (header version ++ (event_line <$> evs)),
      (zip_size L (omap event_member evs)).
    rewrite read_version_eq, Hrp, dist_files_apply. cbn [fst written members].
    split; [done|]. split; [by rewrite lookup_insert_eq|].
    split.
    { unfold apply_report. cbn [s_stdout lines]. by rewrite <- !(assoc_L (++)). }
    intros Hscan.
    destruct (manifest_listed e content Hman Hscan)
      as (dirs & files & rest & Hwalk & Hin).
    rewrite Hwalk in Hevs.
    destruct (tree_events_ok _ _ _ _ _ _ _ _ Hevs _ Hin) as (ev & Hev & Hevin).
    apply (manifest_event e content Hman) in Hev. subst ev.
    apply elem_of_event_members in Hevin. split.
    + apply list_elem_of_fmap. by exists ("manifest.json", content).
    + destruct (omap event_member evs); [by apply elem_of_nil in Hevin|cbn; lia].
Qed.

(** The scenario, which runs to the end. *)
Lemma completed_run_witness :
  create_xpi sample_library module_globals scenario_env fresh
  = (Ok tt, (run sample_library scenario_env fresh).2)
  ∧ e_fault scenario_env (OpScandir "bookmark-folder-organizer") = None
  ∧ ∃ a,
      dist_files (run sample_library scenario_env fresh).2
        !! "dist/bookmark-folder-organizer-2.1.0.xpi" = Some a
      ∧ "manifest.json" ∈ (members a).*1
      ∧ 1 ≤ length (members a).
Proof.
  assert (Hok : create_xpi sample_library module_globals scenario_env fresh
                = (Ok tt, (run sample_library scenario_env fresh).2))
    by (vm_compute; reflexivity).
  split; [exact Hok|]. split; [reflexivity|].
  destruct (completed_run_packages_manifest sample_library scenario_env fresh
              _ Hok)
    as (_ & _ & version & a & before & size & Hver & Ha & _ & Hin).
  assert (version = PyStr "2.1.0") as -> by (vm_compute in Hver; congruence).
  exists a. split; [exact Ha|]. apply Hin. reflexivity.
Defined.

(** Where the claim of C10 fails: a source directory that can be searched
    but not listed.  The manifest is found and read, both checks of [main]
    pass, and [os.walk] yields nothing: [create_xpi] returns normally, the
    run reports success with a count of 0, and the archive it has written
    has no member at all, so none named [manifest.json]. *)
Lemma unlistable_source_packs_nothing :
  let r := create_xpi sample_library module_globals unlistable_env fresh in
  r.1 = Ok tt
  ∧ run sample_library unlistable_env fresh = (Ok tt, r.2)
  ∧ dist_files r.2 !! "dist/bookmark-folder-organizer-2.1.0.xpi"
    = Some (Archive [] true)
  ∧ s_stdout r.2 !! 5 = Some "✓ Package created successfully!"
  ∧ s_stdout r.2 !! 9 = Some "Files: 0"
  ∧ ¬ (∃ a,
         dist_files r.2 !! "dist/bookmark-folder-organizer-2.1.0.xpi" = Some a
         ∧ "manifest.json" ∈ (members a).*1
         ∧ 1 ≤ length (members a)).
Proof.
  cbv zeta.
  assert (Hleft : dist_files
                    (create_xpi sample_library module_globals unlistable_env
                       fresh).2
                    !! "dist/bookmark-folder-organizer-2.1.0.xpi"
                  = Some (Archive [] true))
    by by vm_compute.
  split; [by vm_compute|]. split; [by vm_compute|]. split; [exact Hleft|].
  split; [by vm_compute|]. split; [by vm_compute|].
  intros (a & Ha & _ & Hlen). rewrite Hleft in Ha. injection Ha as <-.
  cbn in Hlen. lia.
Qed.

(** * Further properties *)

(** Properties of the script beyond the claims of its specification. *)

(** X1. For a path without a star in it, the filter comes down to two suffix
    tests and four substring tests: the path is left out exactly when it
    ends with [.test.js] or [.test.md], or [node_modules], [.git],
    [.DS_Store] or [Thumbs.db] occurs in it.  The starred patterns never
    match as substrings of such a path, and [.gitkeep] adds nothing to
    [.git]. *)
Theorem star_free_path_excluded_iff (file_path : string) :
  Str.contains file_path "*" = false →
  should_include module_globals file_path = false ↔
  Str.is_suffix_of ".test.js" file_path
  ∨ Str.is_suffix_of ".test.md" file_path
  ∨ Str.occurs_in "node_modules" file_path
  ∨ Str.occurs_in ".git" file_path
  ∨ Str.occurs_in ".DS_Store" file_path
  ∨ Str.occurs_in "Thumbs.db" file_path.
Proof.
  intros Hstar.
  assert (Hno : ∀ q, ¬ Str.occurs_in ("*" +:+ q) file_path).
  { intros q Hq%occurs_in_app%contains_spec. congruence. }
  rewrite should_include_false_iff. split.
  - intros (pattern & Hin & Hmatch).
    cbn [EXCLUDE_PATTERNS module_globals] in Hin.
    rewrite !elem_of_cons, elem_of_nil in Hin.
    destruct Hin as [->|[->|[->|[->|[->|[->|[->|[]]]]]]]];
      (destruct Hmatch as [Hocc|Hsuf];
       [try (by apply Hno in Hocc)
       |match type of Hsuf with
        | Str.is_suffix_of ?p _ =>
            let q := eval vm_compute in p in change p with q in Hsuf
        end]);
      try tauto;
      try (apply suffix_occurs in Hsuf; tauto).
    + right; right; right; left. by apply (occurs_in_app ".git" "keep").
    + apply suffix_occurs in Hsuf.
      right; right; right; left. by apply (occurs_in_app ".git" "keep").
  - intros [H|[H|[H|[H|[H|H]]]]].
    + exists "*.test.js". split; [set_solver|by right].
    + exists "*.test.md". split; [set_solver|by right].
    + exists "node_modules". split; [set_solver|by left].
    + exists ".git". split; [set_solver|by left].
    + exists ".DS_Store". split; [set_solver|by left].
    + exists "Thumbs.db". split; [set_solver|by left].
Qed.

(** A [.gitkeep] file: left out, for the [.git] in its name. *)
Lemma star_free_path_excluded_witness :
  Str.contains "bookmark-folder-organizer/icons/.gitkeep" "*" = false
  ∧ should_include module_globals "bookmark-folder-organizer/icons/.gitkeep" = false
  ∧ (Str.is_suffix_of ".test.js" "bookmark-folder-organizer/icons/.gitkeep"
     ∨ Str.is_suffix_of ".test.md" "bookmark-folder-organizer/icons/.gitkeep"
     ∨ Str.occurs_in "node_modules" "bookmark-folder-organizer/icons/.gitkeep"
     ∨ Str.occurs_in ".git" "bookmark-folder-organizer/icons/.gitkeep"
     ∨ Str.occurs_in ".DS_Store" "bookmark-folder-organizer/icons/.gitkeep"
     ∨ Str.occurs_in "Thumbs.db" "bookmark-folder-organizer/icons/.gitkeep").
Proof.
  split; [reflexivity|]. split; [reflexivity|].
  apply (star_free_path_excluded_iff "bookmark-folder-organizer/icons/.gitkeep");
    reflexivity.
Defined.

(** X2. The loop applies the filter to the path with the name of the
    source directory in front (lines 74-77), and stores the file under its
    path relative to the source directory (line 79).  For a file reached
    from the source directory through directories of valid names, from any
    working directory: [os.path.relpath] does not fail, the archive name it
    gives has the names of the directories and of the file as its fields,
    the path tested is the archive name after [bookmark-folder-organizer/],
    and the filter answers for the one as for the other, since no exclude
    pattern matches inside or across that prefix. *)
Theorem verdict_on_archive_name
    (cwd : string) (comps : list string) (name : string) :
  Forall valid_name comps → valid_name name →
  let root := Path.join_all "bookmark-folder-organizer" comps in
  let file_path := Path.join root name in
  ∃ arcname,
    Path.relpath cwd file_path "bookmark-folder-organizer" = Some arcname
    ∧ Str.split "/" arcname = comps ++ [name]
    ∧ file_path = "bookmark-folder-organizer/" +:+ arcname
    ∧ should_include module_globals file_path
      = should_include module_globals arcname.
Proof.
  intros Hcomps Hname. cbv zeta. rewrite <- join_all_snoc.
  assert (Hall : Forall valid_name (comps ++ [name]))
    by (apply Forall_app; split; [done|by constructor]).
  assert (Hne : comps ++ [name] ≠ []) by by destruct comps.
  destruct (source_path_facts _ Hall) as (Hrel & Hsplit & _ & _ & Hpath).
  destruct (rel_dir_split _ Hall Hne) as [Hfields _].
  exists (rel_dir (comps ++ [name])).
  rewrite (Hpath Hne). split; [|split; [done|split; [done|]]].
  - rewrite <- (Hpath Hne).
    destruct (comps ++ [name]) as [|first others] eqn:Hfirst; [done|].
    apply relpath_under_source; [done|done|].
    eapply Forall_impl; [exact Hall|]. by intros ? [? _].
  - apply should_include_below_source.
Qed.

(** The icon of the tree with subdirectories. *)
Lemma verdict_on_archive_name_witness :
  Forall valid_name ["icons"] ∧ valid_name "icon-48.png"
  ∧ Path.relpath "/home/dev/extension"
      "bookmark-folder-organizer/icons/icon-48.png" "bookmark-folder-organizer"
    = Some "icons/icon-48.png"
  ∧ should_include module_globals "bookmark-folder-organizer/icons/icon-48.png"
    = should_include module_globals "icons/icon-48.png".
Proof.
  assert (Hicons : valid_name "icons") by by split; [repeat split|].
  assert (Hicon : valid_name "icon-48.png") by by split; [repeat split|].
  split; [by constructor|]. split; [exact Hicon|].
  destruct (verdict_on_archive_name "/home/dev/extension" ["icons"]
              "icon-48.png") as (arcname & Hrel & Hsplit & Hpath & Hverdict);
    [by constructor|exact Hicon|].
  cbv zeta in Hpath.
  change (Path.join (Path.join_all "bookmark-folder-organizer" ["icons"])
            "icon-48.png")
    with ("bookmark-folder-organizer/" +:+ "icons/icon-48.png") in Hpath.
  apply (inj (String.app "bookmark-folder-organizer/")) in Hpath.
  subst arcname. split; [exact Hrel|exact Hverdict].
Defined.

(** X3. [os.walk] is not pruned, so the files below an unwanted
    directory are visited too; each of them is left out.  When an exclude
    pattern occurs in the path [root] of a directory, every path the loop
    builds by joining a relative file name to [root] is excluded, at any
    depth. *)
Theorem files_below_excluded_directory
    (g : globals) (root file pattern : string) :
  pattern ∈ EXCLUDE_PATTERNS g →
  Str.contains root pattern = true →
  Str.startswith file "/" = false →
  should_include g (Path.join root file) = false.
Proof.
  intros Hin Hocc%contains_spec Hrel.
  destruct (join_keeps_root root file Hrel) as [rest ->].
  apply should_include_false_iff. exists pattern. split; [done|]. left.
  rewrite <- (str_app_nil_l (root +:+ rest)).
  by apply (occurs_in_extend pattern root "" rest).
Qed.

(** A file two levels below [node_modules]. *)
Lemma files_below_excluded_directory_witness :
  "node_modules" ∈ EXCLUDE_PATTERNS module_globals
  ∧ Str.contains "bookmark-folder-organizer/node_modules/lodash" "node_modules" = true
  ∧ Str.startswith "index.js" "/" = false
  ∧ should_include module_globals
      "bookmark-folder-organizer/node_modules/lodash/index.js" = false.
Proof.
  split; [by apply (bool_decide_unpack _)|]. split; [reflexivity|].
  split; [reflexivity|].
  apply (files_below_excluded_directory module_globals
           "bookmark-folder-organizer/node_modules/lodash" "index.js"
           "node_modules"); [by apply (bool_decide_unpack _)|reflexivity|reflexivity].
Defined.

(** X4. What a completed call of [create_xpi] has done with the walk
    (lines 70-86): the members of the archive are, in walk order, the files
    of the walk that pass the filter, each with its bytes under its path
    relative to the source directory; the count is the number of files of
    the walk that pass the filter; and one progress line has been printed
    for every file of the walk, in walk order, between the header and the
    summary. *)
Theorem completed_run_packages_walk (L : library) (e : env) (s s' : state) :
  create_xpi L module_globals e s = (Ok tt, s') →
  let paths := walk_paths (walk_source module_globals e) in
  ∃ version a size,
    (read_version L module_globals e s).1 = Ok version
    ∧ dist_files s' !! output_path version = Some a
    ∧ members a = omap (packaged module_globals e) paths
    ∧ length (members a) = length (included module_globals paths)
    ∧ s_stdout s' =
      s_stdout s ++ header version
        ++ (progress_line module_globals e <$> paths)
        ++ footer version size (length (included module_globals paths)).
Proof.
  rewrite create_xpi_report. intros [= Hout <-]. cbv zeta.
  destruct (create_report_completed L e _ Hout)
    as (version & evs & Hver & Hevs & Hclose & Hrp).
  apply tree_events_paths in Hevs as (Hall & _ & Hlen).
  rewrite (Hlen eq_refl), firstn_all in Hall.
  apply events_of_paths in Hall as (Hm & Hl & Hn).
  exists version, (Archive (omap event_member evs) true),
    (zip_size L (omap event_member evs)).
  rewrite read_version_eq, Hrp, dist_files_apply. cbn [fst written members].
  split; [done|]. split; [by rewrite lookup_insert_eq|].
  split; [done|]. split; [done|].
  unfold apply_report. cbn [s_stdout lines].
  by rewrite Hl, Hn, <- !(assoc_L (++)).
Qed.

(** The scenario of the specification. *)
Lemma completed_run_packages_walk_witness :
  create_xpi sample_library module_globals scenario_env fresh
  = (Ok tt, (run sample_library scenario_env fresh).2)
  ∧ ∃ a,
      dist_files (run sample_library scenario_env fresh).2
        !! "dist/bookmark-folder-organizer-2.1.0.xpi" = Some a
      ∧ members a
        = [ ("manifest.json", manifest_2_1_0); ("popup.js", "document.title;") ]
      ∧ length (members a) = 2.
Proof.
  assert (Hok : create_xpi sample_library module_globals scenario_env fresh
                = (Ok tt, (run sample_library scenario_env fresh).2))
    by (vm_compute; reflexivity).
  split; [exact Hok|].
  destruct (completed_run_packages_walk sample_library scenario_env fresh _ Hok)
    as (version & a & size & Hver & Ha & Hm & Hn & _).
  assert (version = PyStr "2.1.0") as -> by (vm_compute in Hver; congruence).
  exists a. split; [exact Ha|]. rewrite Hn, Hm. split; reflexivity.
Defined.

(** X5. A run that has opened the archive has dealt with an initial
    segment of the walk, in order: the members of the archive it leaves are
    the files among the first [k] of the walk that pass the filter, and the
    progress lines printed are those of the first [k] files.  The run then
    ends with the summary, if the segment is the whole walk, or with the
    line of the handler; in that case the archive may hold one more member,
    for the file the loop failed at: the bytes of that file that had been
    copied when the copy failed, under its name. *)
Theorem interrupted_run_leaves_initial_segment
    (L : library) (e : env) (s : state) (version : pyvalue) :
  (read_version L module_globals e s).1 = Ok version →
  e_fault e (OpMakedirs "dist") = None →
  s_dist s ≠ Some NotADirectory →
  e_fault e (OpZipOpen (output_path version)) = None →
  let s' := (run L e s).2 in
  let paths := walk_paths (walk_source module_globals e) in
  ∃ a k partial tail,
    k ≤ length paths
    ∧ dist_files s' !! output_path version = Some a
    ∧ members a
      = omap (packaged module_globals e) (take k paths) ++ partial
    ∧ s_stdout s' =
      s_stdout s ++ header version
        ++ (progress_line module_globals e <$> take k paths) ++ tail
    ∧ (((∃ x, tail = [error_line x])
        ∧ truncated_at module_globals e paths k partial)
       ∨ (k = length paths ∧ partial = []
          ∧ ∃ size, tail = footer version size (length (members a)))).
Proof.
  rewrite read_version_eq. cbn [fst].
  intros Hver Hmk Hb%not_blocked Hopen. cbv zeta.
  destruct (manifest_version_Ok L e version Hver) as [m Hman].
  rewrite run_eq_report, (run_report_checked L e _ _ Hman), Hb. cbv zeta.
  unfold create_report. rewrite Hmk, Hver.
  unfold package_report. cbv zeta. rewrite Hopen.
  unfold zip_result, archive_left, zip_lines.
  set (paths := walk_paths (walk_source module_globals e)).
  set (partial := tree_partial module_globals e (output_path version)
                    (walk_source module_globals e)).
  destruct (tree_events module_globals e _ _) as [evs err] eqn:Hevs.
  pose proof (tree_partial_truncated _ _ _ _ _ _ Hevs) as Htrunc.
  pose proof Hevs as Hnil.
  apply tree_events_paths in Hevs as (Hall & Hle & Hlen).
  apply events_of_paths in Hall as (Hm & Hl & Hn).
  fold paths in Htrunc, Hle, Hlen, Hm, Hl, Hn. fold partial in Htrunc.
  set (a := Archive (omap event_member evs ++ partial)
              (bool_decide (e_fault e (OpZipClose (output_path version)) = None))).
  exists a, (length evs), partial.
  cbn [fst].
  assert (Hfail : ∀ x,
    let rp := Report (Ok tt) (Some (output_path version, a)) true
                ((header version ++ (event_line <$> evs)) ++ [error_line x]) in
    length evs ≤ length paths
    ∧ dist_files (apply_report rp s) !! output_path version = Some a
    ∧ members a
      = omap (packaged module_globals e) (take (length evs) paths) ++ partial
    ∧ s_stdout (apply_report rp s) =
      s_stdout s ++ header version
        ++ (progress_line module_globals e <$> take (length evs) paths)
        ++ [error_line x]
    ∧ (((∃ x', [error_line x] = [error_line x'])
        ∧ truncated_at module_globals e paths (length evs) partial)
       ∨ (length evs = length paths ∧ partial = []
          ∧ ∃ size, [error_line x]
                    = footer version size (length (members a))))).
  { intros x. cbv zeta. split; [done|].
    rewrite dist_files_apply. cbn [written].
    split; [by rewrite lookup_insert_eq|]. split; [by cbn; rewrite Hm|].
    split.
    - unfold apply_report. cbn [s_stdout lines].
      by rewrite Hl, <- !(assoc_L (++)).
    - left. split; [by exists x|done]. }
  destruct (e_fault e (OpZipClose _)) as [x|].
  { exists [error_line x]. apply Hfail. }
  destruct err as [x|]; cbn [loop_result].
  { exists [error_line x]. apply Hfail. }
  destruct (e_fault e (OpGetsize _)) as [x|].
  { exists [error_line x]. apply Hfail. }
  assert (Hpart : partial = [])
    by apply (tree_partial_nil _ _ _ _ _ Hnil).
  cbn [outcome snd].
  exists (footer version (zip_size L (members a)) (0 + length (omap event_member evs))).
  split; [done|].
  rewrite dist_files_apply. cbn [written].
  split; [by rewrite lookup_insert_eq|]. split; [by cbn; rewrite Hm|]. split.
  - unfold apply_report. cbn [s_stdout lines].
    by rewrite Hl, <- !(assoc_L (++)).
  - right. split; [by apply Hlen|]. split; [done|].
    exists (zip_size L (members a)). subst a. cbn [members].
    by rewrite Hpart, !app_nil_r.
Qed.

(** The scenario with a [popup.js] whose reading fails after eight bytes:
    the archive is closed with the manifest and the first eight bytes of
    [popup.js] in it. *)
Lemma interrupted_run_witness :
  (read_version sample_library module_globals io_error_env fresh).1
  = Ok (PyStr "2.1.0")
  ∧ e_fault io_error_env (OpMakedirs "dist") = None
  ∧ s_dist fresh ≠ Some NotADirectory
  ∧ e_fault io_error_env (OpZipOpen (output_path (PyStr "2.1.0"))) = None
  ∧ dist_files (run sample_library io_error_env fresh).2
      !! output_path (PyStr "2.1.0")
    = Some (Archive [ ("manifest.json", manifest_2_1_0);
                      ("popup.js", "document") ] true)
  ∧ ∃ a k partial,
      dist_files (run sample_library io_error_env fresh).2
        !! output_path (PyStr "2.1.0") = Some a
      ∧ members a
        = omap (packaged module_globals io_error_env)
            (take k (walk_paths (walk_source module_globals io_error_env)))
          ++ partial.
Proof.
  split; [reflexivity|]. split; [reflexivity|]. split; [discriminate|].
  split; [reflexivity|]. split; [by vm_compute|].
  destruct (interrupted_run_leaves_initial_segment sample_library
              io_error_env fresh (PyStr "2.1.0"))
    as (a & k & partial & tail & _ & Ha & Hm & _);
    [reflexivity|reflexivity|discriminate|reflexivity|].
  exists a, k, partial. split; [exact Ha|exact Hm].
Defined.

(** X6. The packager on a well-formed source tree with a manifest that
    parses to a dictionary, when no operation fails and [dist] is not taken
    by a file.  [create_xpi] returns normally, and so does the run; the
    archive is written under the name of the version, finished, in place of
    whatever was under that name, and nothing else in the output directory
    changes.  Its members are the regular files of the tree at every depth,
    in the order of the walk, each under its path from the source directory
    with [/] between the fields, except those that the filter leaves out,
    which are printed as skipped. *)
Theorem fault_free_run_packages_tree
    (L : library) (e : env) (s : state) (entries : list (string * node))
    (content : string) (d : gmap string pyvalue) :
  e_source e = Some (Dir entries) →
  well_formed (Dir entries) →
  ("manifest.json", File content) ∈ entries →
  json_loads L content = Ok (PyDict d) →
  (∀ op, e_fault e op = None) →
  s_dist s ≠ Some NotADirectory →
  let version := from_option id (PyStr "1.0.0") (d !! "version") in
  let listing := tree_files "" (Dir entries) in
  let packed :=
    filter (λ file, should_include module_globals file.1 = true) listing in
  ∃ s',
    create_xpi L module_globals e s = (Ok tt, s')
    ∧ run L e s = (Ok tt, s')
    ∧ dist_files s'
      = <[output_path version := Archive packed true]> (dist_files s)
    ∧ s_stdout s' =
      s_stdout s ++ header version
        ++ (event_line <$> (listed_event module_globals <$> listing))
        ++ footer version (zip_size L packed) (length packed).
Proof.
  intros Hsrc Hwf Hin Hparse Hfault Hb%not_blocked. cbv zeta.
  pose proof (fault_free_manifest e entries content Hsrc Hwf Hin) as Hman.
  pose proof (fault_free_report L e entries content d Hsrc Hwf Hin Hparse Hfault)
    as Hrp.
  eexists. rewrite create_xpi_report, run_eq_report.
  rewrite (run_report_checked L e _ _ Hman), Hb. cbv zeta. rewrite Hrp.
  cbn [outcome]. split; [done|]. split; [done|].
  rewrite dist_files_apply. cbn [written]. split; [done|].
  unfold apply_report. cbn [s_stdout lines]. by rewrite <- !(assoc_L (++)).
Qed.

(** The tree with subdirectories: the files of [icons] and [services]
    come after those of the source directory itself, and nothing below
    [node_modules] is packaged. *)
Lemma fault_free_run_witness :
  ∃ s',
    run sample_library nested_env fresh = (Ok tt, s')
    ∧ dist_files s'
      = {[ "dist/bookmark-folder-organizer-2.1.0.xpi" :=
             Archive [ ("manifest.json", manifest_2_1_0);
                       ("popup.js", "document.title;");
                       ("icons/icon-48.png", "PNG");
                       ("services/store.js", "export {};") ] true ]}.
Proof.
  destruct (fault_free_run_packages_tree sample_library nested_env fresh
              _ manifest_2_1_0 {[ "version" := PyStr "2.1.0" ]}
              eq_refl nested_tree_well_formed)
    as (s' & _ & Hrun & Hfiles & _);
    [left|reflexivity|reflexivity|discriminate|].
  exists s'. split; [exact Hrun|]. rewrite Hfiles. reflexivity.
Defined.

(** X7. In the archive of a run on a well-formed source tree in which
    nothing fails, no two members have the same name, and each name is a
    relative path whose fields are valid names: it does not start with a
    slash and has no empty field, no [.] and no [..]. *)
Theorem fault_free_archive_names
    (L : library) (e : env) (s : state) (entries : list (string * node))
    (content : string) (d : gmap string pyvalue) :
  e_source e = Some (Dir entries) →
  well_formed (Dir entries) →
  ("manifest.json", File content) ∈ entries →
  json_loads L content = Ok (PyDict d) →
  (∀ op, e_fault e op = None) →
  s_dist s ≠ Some NotADirectory →
  let version := from_option id (PyStr "1.0.0") (d !! "version") in
  ∃ a,
    dist_files (run L e s).2 !! output_path version = Some a
    ∧ NoDup (members a).*1
    ∧ ∀ name, name ∈ (members a).*1 →
        Str.startswith name "/" = false
        ∧ Str.split "/" name ≠ []
        ∧ Forall valid_name (Str.split "/" name).
Proof.
  intros Hsrc Hwf Hin Hparse Hfault Hb%not_blocked. cbv zeta.
  pose proof (fault_free_manifest e entries content Hsrc Hwf Hin) as Hman.
  pose proof (fault_free_report L e entries content d Hsrc Hwf Hin Hparse Hfault)
    as Hrp.
  destruct (tree_files_names (Dir entries) Hwf []) as [Hnd Hnames];
    [constructor|].
  change (rel_dir []) with "" in Hnd, Hnames.
  set (packed := filter (λ file, should_include module_globals file.1 = true)
                   (tree_files "" (Dir entries))) in *.
  assert (Hsub : packed.*1 `sublist_of` (tree_files "" (Dir entries)).*1).
  { apply fmap_sublist, sublist_filter. }
  exists (Archive packed true).
  rewrite run_eq_report, (run_report_checked L e _ _ Hman), Hb. cbv zeta.
  rewrite Hrp. cbn [outcome snd members].
  rewrite dist_files_apply. cbn [written].
  split; [by rewrite lookup_insert_eq|]. split.
  - by apply (sublist_NoDup _ _ Hnd).
  - intros name Hname.
    destruct (Hnames name) as (more & Hsplit & Hne & Hmore & Hrel).
    { by eapply elem_of_sublist. }
    rewrite Hsplit. by cbn [app].
Qed.

(** The same tree. *)
Lemma fault_free_archive_names_witness :
  ∃ a,
    dist_files (run sample_library nested_env fresh).2
      !! "dist/bookmark-folder-organizer-2.1.0.xpi" = Some a
    ∧ NoDup (members a).*1
    ∧ Forall valid_name (Str.split "/" "services/store.js").
Proof.
  destruct (fault_free_archive_names sample_library nested_env fresh
              _ manifest_2_1_0 {[ "version" := PyStr "2.1.0" ]}
              eq_refl nested_tree_well_formed)
    as (a & Ha & Hnd & Hnames);
    [left|reflexivity|reflexivity|discriminate|].
  exists a. split; [exact Ha|]. split; [exact Hnd|].
  apply Hnames.
  assert (a = Archive [ ("manifest.json", manifest_2_1_0);
                        ("popup.js", "document.title;");
                        ("icons/icon-48.png", "PNG");
                        ("services/store.js", "export {};") ] true) as ->.
  { vm_compute in Ha. injection Ha as <-. reflexivity. }
  cbn. rewrite !elem_of_cons. tauto.
Defined.

(** X8. The lines a run prints tell how it ended.  The banner of line 93
    is among them exactly when [create_xpi], called in that state, returns
    normally; one of the error messages of [main] is among them exactly when
    it does not (the source directory or the manifest is missing, or
    [create_xpi] raises).  So a run never prints both, and never neither. *)
Theorem banner_iff_create_xpi_returns (L : library) (e : env) (s : state) :
  ∃ out,
    s_stdout (run L e s).2 = s_stdout s ++ out
    ∧ (success_banner ∈ out ↔ (create_xpi L module_globals e s).1 = Ok tt)
    ∧ ((∃ line, line ∈ out ∧ is_error_line line) ↔
       (create_xpi L module_globals e s).1 ≠ Ok tt).
Proof.
  rewrite run_eq_report, create_xpi_report. cbn [fst snd].
  exists (lines (run_report L e (dist_blocked s))).
  split; [done|].
  pose proof (create_report_needs_manifest L e (dist_blocked s)) as Hneeds.
  pose proof (create_report_lines L e (dist_blocked s)) as Hlines.
  cbv zeta in Hlines. unfold run_report.
  destruct (e_source e) as [n|] eqn:Hsrc.
  2:{ assert (manifest_node e = None) as Hman
        by (unfold manifest_node; by rewrite Hsrc).
      rewrite Hman in Hneeds. cbn [lines]. split; [split|split].
      - rewrite !elem_of_cons, elem_of_nil. intros [H|[H|[]]]; discriminate.
      - intros Hok. by destruct (Hneeds Hok).
      - intros _ Hok. by destruct (Hneeds Hok).
      - intros _. eexists. split; [left|]. left. by eexists. }
  destruct (manifest_node e) as [m|] eqn:Hman.
  2:{ cbn [lines]. split; [split|split].
      - rewrite !elem_of_cons, elem_of_nil. intros [H|[]]; discriminate.
      - intros Hok. by destruct (Hneeds Hok).
      - intros _ Hok. by destruct (Hneeds Hok).
      - intros _. eexists. split; [left|]. left. by eexists. }
  cbv zeta.
  destruct (outcome (create_report L e (dist_blocked s))) as [[]|x].
  - destruct Hlines as [Hin Hnone]. split; [done|]. split; [|done].
    intros (line & Hline & Herr). rewrite Forall_forall in Hnone.
    by destruct (Hnone line Hline).
  - cbn [lines]. rewrite Forall_forall in Hlines.
    destruct (error_line_error x) as [Herr Hneq]. split; split; try done.
    + intros [Hin|Hin%list_elem_of_singleton]%elem_of_app; [|done].
      by destruct (Hlines _ Hin).
    + intros _. exists (error_line x). split; [|done].
      apply elem_of_app. right. left.
Qed.

(** X9. [os.makedirs] is the first thing [create_xpi] does (line 49).  Once
    [main] has found the manifest and [os.makedirs] has gone through, the
    run leaves the output directory in place however it ends; when reading
    the version fails, the files in it are those that were there before, so a
    failed run leaves an empty [dist] where there was none. *)
Theorem output_directory_left_behind (L : library) (e : env) (s : state) :
  is_Some (manifest_node e) →
  e_fault e (OpMakedirs "dist") = None →
  s_dist s ≠ Some NotADirectory →
  let s' := (run L e s).2 in
  s_dist s' = Some (Directory (dist_files s'))
  ∧ (∀ x, (read_version L module_globals e s).1 = Raise x →
       dist_files s' = dist_files s).
Proof.
  intros [m Hman] Hmk Hb%not_blocked. cbv zeta.
  rewrite run_eq_report, read_version_eq, (run_report_checked L e _ _ Hman), Hb.
  cbn [fst snd]. cbv zeta. split.
  - apply s_dist_apply; [done|].
    pose proof (create_report_dir_made L e Hmk) as Hmade.
    by destruct (outcome (create_report L e false)).
  - intros x Hver. rewrite dist_files_apply.
    unfold create_report. by rewrite Hmk, Hver.
Qed.

(** A manifest that is not JSON, and no output directory before the run. *)
Lemma output_directory_left_behind_witness :
  is_Some (manifest_node broken_manifest_env)
  ∧ e_fault broken_manifest_env (OpMakedirs "dist") = None
  ∧ s_dist fresh = None
  ∧ s_dist (run sample_library broken_manifest_env fresh).2
    = Some (Directory ∅).
Proof.
  split; [by eexists|]. split; [reflexivity|]. split; [reflexivity|].
  destruct (output_directory_left_behind sample_library broken_manifest_env fresh)
    as [Hdir Hfiles]; [by eexists|reflexivity|discriminate|].
  rewrite Hdir, (Hfiles (Exn "JSONDecodeError"
                           "Expecting value: line 1 column 1 (char 0)"));
    reflexivity.
Defined.

(** X10. When the name [dist] is taken by something that is not a
    directory, [os.makedirs] raises [FileExistsError] although [exist_ok] is
    set: the run ends normally with the line of the handler as its only
    output, and leaves the rest of the state as it was. *)
Theorem blocked_output_directory_is_reported
    (L : library) (e : env) (s : state) :
  is_Some (manifest_node e) →
  e_fault e (OpMakedirs "dist") = None →
  s_dist s = Some NotADirectory →
  run L e s =
  (Ok tt,
   set_stdout
     (s_stdout s
      ++ [ nl +:+ "✗ Error creating package: [Errno 17] File exists: 'dist'" ])
     s).
Proof.
  intros [m Hman] Hmk Hd.
  assert (Hb : dist_blocked s = true) by (unfold dist_blocked; by rewrite Hd).
  rewrite run_eq_report, (run_report_checked L e _ _ Hman), Hb. cbv zeta.
  unfold create_report. rewrite Hmk.
  cbn [outcome written dir_made lines app]. f_equal.
Qed.

(** The scenario, with a regular file named [dist]. *)
Lemma blocked_output_directory_witness :
  is_Some (manifest_node scenario_env)
  ∧ e_fault scenario_env (OpMakedirs "dist") = None
  ∧ s_dist blocked_state = Some NotADirectory
  ∧ (run sample_library scenario_env blocked_state).2
    = State (Some NotADirectory)
        [ nl +:+ "✗ Error creating package: [Errno 17] File exists: 'dist'" ] [].
Proof.
  split; [by eexists|]. split; [reflexivity|]. split; [reflexivity|].
  rewrite (blocked_output_directory_is_reported sample_library scenario_env
             blocked_state); [reflexivity|by eexists|reflexivity|reflexivity].
Defined.

(** X11. [main] checks that the manifest path exists (line 113), not that
    it is a regular file.  When [manifest.json] is a directory the check
    passes and [open] raises in [create_xpi]: the run prints the line of the
    handler with [IsADirectoryError]'s text, writes no archive, and leaves no
    handle open. *)
Theorem manifest_directory_is_reported
    (L : library) (e : env) (s : state) (sub : list (string * node)) :
  manifest_node e = Some (Dir sub) →
  e_fault e (OpMakedirs "dist") = None →
  s_dist s ≠ Some NotADirectory →
  e_fault e (OpOpenRead "bookmark-folder-organizer/manifest.json") = None →
  let s' := (run L e s).2 in
  s_stdout s' =
    s_stdout s
    ++ [ nl +:+ "✗ Error creating package: [Errno 21] Is a directory: "
         +:+ "'bookmark-folder-organizer/manifest.json'" ]
  ∧ dist_files s' = dist_files s
  ∧ s_open s' = s_open s.
Proof.
  intros Hman Hmk Hb%not_blocked Hopen. cbv zeta.
  rewrite run_eq_report, (run_report_checked L e _ _ Hman), Hb. cbv zeta.
  unfold create_report, manifest_version. rewrite Hmk, Hopen, Hman.
  cbn [outcome written dir_made lines snd app].
  split; [done|]. split; [by rewrite dist_files_apply|done].
Qed.

(** A directory named [manifest.json]. *)
Lemma manifest_directory_witness :
  manifest_node manifest_directory_env = Some (Dir [])
  ∧ s_stdout (run sample_library manifest_directory_env fresh).2
    = [ nl +:+ "✗ Error creating package: [Errno 21] Is a directory: "
        +:+ "'bookmark-folder-organizer/manifest.json'" ].
Proof.
  split; [reflexivity|].
  destruct (manifest_directory_is_reported sample_library
              manifest_directory_env fresh [])
    as (Hout & _); [reflexivity|reflexivity|discriminate|reflexivity|].
  exact Hout.
Defined.

(** X12. A manifest that is valid JSON but not an object has no [get]
    (line 56): the run prints the line of the handler with the text of the
    [AttributeError], naming the type, writes no archive, and closes the
    manifest. *)
Theorem non_dict_manifest_is_reported
    (L : library) (e : env) (s : state) (content type_name : string) :
  manifest_node e = Some (File content) →
  json_loads L content = Ok (PyNotDict type_name) →
  e_fault e (OpMakedirs "dist") = None →
  s_dist s ≠ Some NotADirectory →
  e_fault e (OpOpenRead "bookmark-folder-organizer/manifest.json") = None →
  let s' := (run L e s).2 in
  s_stdout s' =
    s_stdout s
    ++ [ nl +:+ "✗ Error creating package: '" +:+ type_name
         +:+ "' object has no attribute 'get'" ]
  ∧ dist_files s' = dist_files s
  ∧ s_open s' = s_open s.
Proof.
  intros Hman Hparse Hmk Hb%not_blocked Hopen. cbv zeta.
  rewrite run_eq_report, (run_report_checked L e _ _ Hman), Hb. cbv zeta.
  unfold create_report, manifest_version. rewrite Hmk, Hopen, Hman, Hparse.
  cbn [outcome written dir_made lines snd app].
  split; [done|]. split; [by rewrite dist_files_apply|done].
Qed.

(** A manifest that is a JSON array. *)
Lemma non_dict_manifest_witness :
  manifest_node list_manifest_env = Some (File "[]")
  ∧ json_loads sample_library "[]" = Ok (PyNotDict "list")
  ∧ s_stdout (run sample_library list_manifest_env fresh).2
    = [ nl +:+ "✗ Error creating package: 'list' object has no attribute 'get'" ].
Proof.
  split; [reflexivity|]. split; [reflexivity|].
  destruct (non_dict_manifest_is_reported sample_library list_manifest_env
              fresh "[]" "list")
    as (Hout & _);
    [reflexivity|reflexivity|reflexivity|discriminate|reflexivity|].
  exact Hout.
Defined.

(** X13. The header is printed before the archive is opened (lines 63-70).
    When opening the archive fails, the run has announced the output path
    and the version, then prints the line of the handler; the output
    directory holds the files it held before, and no handle is left open. *)
Theorem archive_announced_before_opened
    (L : library) (e : env) (s : state) (version : pyvalue) (x : exn) :
  (read_version L module_globals e s).1 = Ok version →
  e_fault e (OpMakedirs "dist") = None →
  s_dist s ≠ Some NotADirectory →
  e_fault e (OpZipOpen (output_path version)) = Some x →
  let s' := (run L e s).2 in
  s_stdout s' = s_stdout s ++ header version ++ [error_line x]
  ∧ dist_files s' = dist_files s
  ∧ s_open s' = s_open s.
Proof.
  rewrite read_version_eq. cbn [fst].
  intros Hver Hmk Hb%not_blocked Hopen. cbv zeta.
  destruct (manifest_version_Ok L e version Hver) as [m Hman].
  rewrite run_eq_report, (run_report_checked L e _ _ Hman), Hb. cbv zeta.
  unfold create_report. rewrite Hmk, Hver.
  unfold package_report. cbv zeta. rewrite Hopen.
  cbn [outcome written dir_made lines snd].
  split; [done|]. split; [by rewrite dist_files_apply|done].
Qed.

(** The scenario where no archive can be opened for writing. *)
Lemma archive_announced_witness :
  (read_version sample_library module_globals locked_output_env fresh).1
  = Ok (PyStr "2.1.0")
  ∧ e_fault locked_output_env (OpMakedirs "dist") = None
  ∧ s_dist fresh ≠ Some NotADirectory
  ∧ e_fault locked_output_env (OpZipOpen (output_path (PyStr "2.1.0")))
    = Some (Exn "PermissionError"
              "[Errno 13] Permission denied: 'dist/bookmark-folder-organizer-2.1.0.xpi'")
  ∧ s_stdout (run sample_library locked_output_env fresh).2 !! 2
    = Some "Output: dist/bookmark-folder-organizer-2.1.0.xpi"
  ∧ dist_files (run sample_library locked_output_env fresh).2 = ∅.
Proof.
  split; [reflexivity|]. split; [reflexivity|]. split; [discriminate|].
  split; [reflexivity|].
  destruct (archive_announced_before_opened sample_library locked_output_env
              fresh (PyStr "2.1.0")
              (Exn "PermissionError"
                 "[Errno 13] Permission denied: 'dist/bookmark-folder-organizer-2.1.0.xpi'"))
    as (Hout & Hfiles & _); [reflexivity|reflexivity|discriminate|reflexivity|].
  rewrite Hout, Hfiles. split; reflexivity.
Defined.

(** X14. When [os.path.getsize] fails (line 89) the archive has already
    been written and closed.  Take a state from which [create_xpi] returns
    normally, and let only [os.path.getsize] fail instead: the run leaves the
    same files in the output directory, with the archive finished, but ends
    with the line of the handler in place of the summary. *)
Theorem size_failure_leaves_complete_archive
    (L : library) (e : env) (s : state) (x : exn) :
  (create_xpi L module_globals e s).1 = Ok tt →
  let s_ok := (run L e s).2 in
  let s_err := (run L (with_getsize_failure x e) s).2 in
  dist_files s_err = dist_files s_ok
  ∧ (∃ version a,
       dist_files s_err !! output_path version = Some a ∧ finalized a = true)
  ∧ ∃ body version size n,
      s_stdout s_ok = s_stdout s ++ body ++ footer version size n
      ∧ s_stdout s_err = s_stdout s ++ body ++ [error_line x].
Proof.
  rewrite create_xpi_report. cbn [fst]. intros Hout. cbv zeta.
  destruct (create_report_completed L e _ Hout)
    as (version & evs & Hver & Hevs & Hclose & Hrp).
  destruct (manifest_version_Ok L e version Hver) as [m Hman].
  rewrite !run_eq_report. cbn [snd].
  rewrite (run_report_checked L e _ _ Hman).
  rewrite (run_report_checked L (with_getsize_failure x e) m)
    by by rewrite getsize_failure_manifest.
  cbv zeta. rewrite Hrp.
  revert Hrp. unfold create_report.
  change (e_fault (with_getsize_failure x e) (OpMakedirs "dist"))
    with (e_fault e (OpMakedirs "dist")).
  destruct (e_fault e (OpMakedirs "dist")); [done|].
  destruct (dist_blocked s); [done|].
  rewrite getsize_failure_same_version, Hver, getsize_failure_package.
  unfold package_report. cbv zeta.
  destruct (e_fault e (OpZipOpen _)); [done|].
  unfold zip_result, zip_lines, archive_left. rewrite Hclose, Hevs.
  rewrite (tree_partial_nil _ _ _ _ _ Hevs), app_nil_r.
  cbn [loop_result fst outcome written lines dir_made].
  destruct (e_fault e (OpGetsize _)); [done|]. intros _.
  rewrite !dist_files_apply. cbn [written].
  rewrite bool_decide_eq_true_2 by done.
  split; [done|]. split.
  - exists version, (Archive (omap event_member evs) true).
    by rewrite lookup_insert_eq.
  - exists (header version ++ (event_line <$> evs)), version,
      (zip_size L (omap event_member evs)), (length (omap event_member evs)).
    unfold apply_report. cbn [s_stdout lines].
    by rewrite <- !(assoc_L (++)).
Qed.

(** The scenario, with an I/O error at [os.path.getsize]. *)
Lemma size_failure_witness :
  (create_xpi sample_library module_globals scenario_env fresh).1 = Ok tt
  ∧ dist_files
      (run sample_library
         (with_getsize_failure (Exn "OSError" "[Errno 5] Input/output error")
            scenario_env) fresh).2
    = dist_files (run sample_library scenario_env fresh).2
  ∧ last (s_stdout
            (run sample_library
               (with_getsize_failure (Exn "OSError" "[Errno 5] Input/output error")
                  scenario_env) fresh).2)
    = Some (nl +:+ "✗ Error creating package: [Errno 5] Input/output error").
Proof.
  assert (Hok : (create_xpi sample_library module_globals scenario_env fresh).1
                = Ok tt) by (vm_compute; reflexivity).
  split; [exact Hok|].
  destruct (size_failure_leaves_complete_archive sample_library scenario_env
              fresh (Exn "OSError" "[Errno 5] Input/output error") Hok)
    as (Hfiles & _ & body & version & size & n & _ & Herr).
  split; [exact Hfiles|].
  rewrite Herr, (assoc_L (++)). apply last_snoc.
Defined.
